(* ===== verification/_CoqProject ===== *)
-Q . S2P
Prelude.v
JsValue.v
Json.v
JsonRoundtrip.v
Schema.v
Page.v
Promise.v
Net.v
Xhr.v
Lifecycle.v
Transport.v
RonSwanson.v
RandomUser.v
FetchExample.v
RandomDog.v
PriceChecker.v
EventLoop.v
Races.v
UserRace.v
Replay.v
ScriptLoad.v
