(* ===== verification/Prelude.v ===== *)
(** * A verification development for the AJAX demos of Advanced-Web-Dev-Bootcamp

    The repository's JavaScript under [src/JS/AJAX/] consists of five
    independent browser pages.  Each wires a click (or the page load) to one
    HTTP GET request made through one of four client mechanisms and writes a
    field of the JSON answer into the page or onto the console:

    - [Axios/ron-swanson.js]: four buttons for one quote API, one per
      mechanism: a raw [XMLHttpRequest] with an [onreadystatechange] handler,
      jQuery's [$.get(..).done(..).fail(..)], [axios.get(..).then(..).catch(..)]
      and [fetch(..).then(handleErrors).then(parseJSON).then(updateQuote)
      .catch(displayErrors)].  The file declares [function handleErrors]
      twice; JavaScript hoisting makes the second declaration the one both
      chains call.
    - [Fetch/RandomUser/random-user.js]: a fetch chain with a status check
      ([handleErrors]), a JSON step ([parseJSON], which selects
      [results[0]]), a renderer writing five profile fields ([updateProfile])
      and a logger ([displayErrors]).
    - [Fetch/fetch-example.js]: a fetch chain run at load time with no status
      check, logging [data.bpi.USD.rate].
    - [jQuery/RandomDogGenerator/random-dog.js]: [$.get] whose [done] sets
      an image source.
    - [XHR/Bitcoin-Price-Checker/price-checker.js]: an [XMLHttpRequest]
      handler writing ["$" + rate.rate + " " + rate.code].

    The pages share no state; they interact with the browser only: the DOM,
    the console, the network, the JSON parser and the event loop.  This
    development therefore models, besides the five handlers, the fragment of
    the platform they rely on, and proves what each handler does with every
    possible network reply.

    ** Library layout (dependency order, as in [_CoqProject])

    - [Prelude] (this file): the completion type of a JavaScript evaluation
      ([compl]: a normal value or a thrown one), a state-and-exception monad
      [M] with its notation in [js_scope] and the monad laws, string lemmas,
      the tactics and the [js] hint database shared by all files.
    - [JsValue]: JavaScript values ([jsval]) as they flow through the demos:
      JSON data, [Error] objects, fetch [Response] objects; property access
      [get] with its [TypeError] on [undefined]/[null]; [to_string] (the
      ToString conversion: array join, [Error.prototype.toString],
      ["[object Object]"]); string concatenation with [+].
    - [Json]: [JSON.parse] as an executable parser over [string] (with
      fuel the input's length) and [JSON.stringify] as a printer.
    - [JsonRoundtrip]: [parse (stringify v) = Some v] for every JSON datum
      [v] ([parse_stringify]), by induction on [v] with the nested lists of
      arrays and objects, and the proof that the input's length is enough
      fuel ([stringify_fits]); the printer is injective on JSON data.
    - [Schema]: schemas of the JSON answers the handlers read ([jty]: open
      records, non-empty arrays, strings), the typing relation [has_type]
      with its decision procedure [type_check], and the type safety of
      property access along a path ([get_path_typed]).
    - [Page]: the page state (a [gmap] from element id to element, the
      global variables, the console log, the error reports) and the DOM
      setters the demos call ([innerHTML], [innerText], [textContent],
      [src], jQuery's [.text] and [.attr]), and [resolve_named], the
      resolution of an element's window property as an assignment
      target, which throws before the right-hand side is evaluated.
    - [Promise]: the monad [JS] over the page state; promise reactions
      [.then]/[.catch], the report of an unhandled rejection or of an
      uncaught exception thrown by an event handler, and the invariant that
      page code never writes the reports ([keeps_reports]).
    - [Net]: the mocked network ([net_reply]) and three transports: [fetch]
      with [Response.ok] and [Response.json()], [axios.get] with its status
      validation and lenient JSON transform, and jQuery's [$.get] with its
      success test and content-type driven conversion.
    - [Xhr]: the [XMLHttpRequest] readyState machine as a step relation
      [xhr_step] with its executable twin [xhr_apply], the event sequence a
      reply produces for any chunking of its body, and the theorem that a
      handler acting at DONE only runs once, on the final state; the
      machine is deterministic and its reachable states satisfy [xhr_wf]
      (status 0 before the headers, empty text before the body), by rule
      induction.
    - [Lifecycle]: the specification's request-lifecycle contract
      (SuccessResult / FailureResult with NetworkError, HttpError,
      ParseError; states Idle, InFlight, Succeeded, Failed) as an abstract
      classifier [issue] and step relation [lstep], and the refinement
      [xhr_refines_lifecycle]: the XHR machine, run over the events of any
      reply, moves by lifecycle steps or stutters and ends in the phase
      [issue] assigns.
    - [Transport]: the typeclass [Transport get data], what a promise-style
      transport promises its callbacks (a failure rejects; a 2xx JSON reply
      fulfils with a value [data] reads the body from), its instances for
      fetch, axios and jQuery, a client chain proved against the class, and
      the stronger promises ([HttpErrorsReject], [ParseErrorsReject]) on
      which the transports differ.
    - [RonSwanson], [RandomUser], [FetchExample], [RandomDog], [PriceChecker]:
      one file per source file, one definition per function or handler of
      the source, composed as the source composes them.
    - [EventLoop]: the event loop of one page with requests in flight: a
      click starts a request, replies arrive in any order and run their
      callbacks one at a time; the invariant that every request issued is
      in flight or handled, and handled once ([loop_run_exactly_once]).
    - [Races]: the four buttons of the quote page on the event loop, the
      theorem that the reply arriving last decides [#quote] ([quote_race]).
    - [UserRace]: the random-user button on the event loop, answers
      successes and failures mixed: the card shows the successful answer
      that arrived last, and a failure arriving later leaves it
      ([user_race]).
    - [Replay]: what a handler does to a page as an [effect] (overwrites
      of element properties and globals, lines logged, errors reported)
      fixed by the page's element ids; every click handler has one, so a
      second click against the same network rewrites what the first wrote
      and logs and reports the same again ([handlers_replay], the
      specification's idempotence property of section 8), and on two
      pages with the same element ids a handler has the same effect
      ([handlers_read_no_state]).
    - [ScriptLoad]: the top level of the four pages with listeners at page
      load: the element lookups ([document.querySelector]) and the listener
      registrations, where a missing element throws and leaves the later
      listeners unwired ([ron_load_complete], [ron_load_missing_axios],
      [load_without_button]); the lookups made at load stay valid after
      any click ([handlers_keep_lookups]).

    ** Plan and status

    The plan, in order of importance: (1) the JS value, JSON and page models
    every handler needs; (2) the fetch chains of [random-user.js] and
    [ron-swanson.js] and their refinement of the lifecycle contract;
    (3) the XMLHttpRequest machine and its handlers; (4) axios with the
    hoisting of [handleErrors]; (5) jQuery; (6) interleavings of several
    in-flight requests on one page (an event-loop file, later).  All six are
    modelled: items 1 to 5 evaluate each click to completion against the
    network; item 6 ([EventLoop], [Races], [UserRace]) interleaves the
    requests of the quote page and of the random-user page.

    ** What the theorems show

    For each handler, its effect on the page for every class of network
    reply (success, HTTP error, transport failure, non-JSON body), stated
    against the lifecycle contract: where the handler keeps it (the fetch
    buttons, the JSON successes) and where it departs from it (the XHR
    handlers' [status == 200] test, the axios chain's hoisted
    [handleErrors], fetch-example's missing status check, the random-user
    chain that renders and then fails, the price checker's uncaught
    [TypeError] when the answer has no [bpi]).  The XHR theorems hold for
    every chunking of the body; the quote-page theorem [buttons_agree]
    holds for every quote string, through the JSON round trip; with
    several requests in flight, [quote_race] shows that the reply arriving
    last decides the page, whatever the order of the clicks, and [user_race]
    that on the random-user page the last success to arrive decides the
    card, a later failure only logging.  Further
    kinds: a round trip from the API's
    [JSON.stringify] to the rendered card ([user_roundtrip]), the
    equivalence of all chunkings of an XHR body ([xhr_click_chunking]),
    the boundary of an empty quote list ([empty_quote_list]), the
    evaluation order of line 28 of [random-user.js] (the target [avatar]
    is resolved before [data.picture] is read: [click_render_then_error]),
    and type safety: an answer of
    the schema a handler reads never makes it throw, and is rendered from
    exactly its fields ([user_click_typed], [price_click_typed]).
    For [fetch-example.js], [catch_runs_when] gives exactly the replies
    for which its [.catch] runs, and [comment_account_iff] compares this
    with the account its closing comment (lines 14-18) gives: the comment
    is right only for networks that always answer with the rate.

    ** Fuel

    [parse] gives [parse_value] the input's length plus one as fuel: each
    level of nesting and each list element consumes one unit and at least
    one character, and [JsonRoundtrip.stringify_fits] proves the printed
    text of any datum long enough for its parse.  [digits_of] (decimal
    printing) takes [log2 n + 1] as fuel, at least the number of decimal
    digits of [n], since one digit is printed per division by ten;
    [JsValue.nat_to_string_spec] proves the result is the decimal of [n].

    ** What is not modelled

    The HTML pages themselves (not in [src/]): the element ids are the keys
    of the DOM map and a missing element is a [None] lookup; the handlers
    look their element up when they write, which agrees with the lookup at
    load because no handler adds or removes an element
    ([ScriptLoad.handlers_keep_lookups]).  That holds of the model, not
    of every browser run: markup written through [innerHTML] is stored
    as a string and not parsed, so a quote containing markup, which in a
    browser would create elements inside [#quote], creates none here.  [price-checker.js] selects its
    button by tag name ([querySelector("button")]); the DOM is keyed by id,
    so the page's button elements are given to its load as the list of
    their ids in document order.  Number values
    are integers ([Z]); a JSON number with a fraction or an exponent is
    rejected by the parser model.  Strings are Rocq [string]s of 8-bit
    characters; a JSON [\uXXXX] escape is read when its code is below 256
    and refused otherwise.  HTML parsing of
    [innerHTML] is not modelled: the markup string is stored as given.
    Timing is abstracted: outside [EventLoop] a request's reply is a
    function of its URL ([network]), so a click evaluates to its final page
    state; [EventLoop] keeps the order in which replies arrive and nothing
    finer (no timers, no cancellation, as the specification's non-goals).
    Browser-specific error messages are fixed strings. *)

From stdpp Require Export base list strings.
From Stdlib Require Export String Ascii ZArith Lia.

Declare Scope js_scope.
Delimit Scope js_scope with js.

(** ** Completions

    The result of evaluating JavaScript: a normal value, or a thrown one
    (an exception, or the reason of a rejected promise). *)

Inductive compl (E A : Type) : Type :=
| Normal (a : A)
| Throw (e : E).
Arguments Normal {E A} a.
Arguments Throw {E A} e.

(** ** The state-and-exception monad

    [M S E A] threads a state [S] and may end in a thrown [E]; the state
    reached before a throw is kept, as in JavaScript (effects before an
    exception are not undone). *)

Definition M (S E A : Type) : Type := S -> S * compl E A.

Section Monad.
Context {S E : Type}.

Definition ret {A} (a : A) : M S E A := fun s => (s, Normal a).
Definition throw {A} (e : E) : M S E A := fun s => (s, Throw e).

Definition bind {A B} (c : M S E A) (k : A -> M S E B) : M S E B :=
  fun s => match c s with
           | (s', Normal a) => k a s'
           | (s', Throw e) => (s', Throw e)
           end.

(** [catch c h]: run [c]; if it throws [e], run [h e] from the state
    reached. *)
Definition catch {A} (c : M S E A) (h : E -> M S E A) : M S E A :=
  fun s => match c s with
           | (s', Normal a) => (s', Normal a)
           | (s', Throw e) => h e s'
           end.

Definition modify (f : S -> S) : M S E unit := fun s => (f s, Normal tt).
Definition gets {A} (f : S -> A) : M S E A := fun s => (s, Normal (f s)).

(** Lift a completion computed purely (a property read, a parse). *)
Definition lift {A} (c : compl E A) : M S E A := fun s => (s, c).

Lemma bind_ret_l {A B} (a : A) (k : A -> M S E B) s :
  bind (ret a) k s = k a s.
Proof. reflexivity. Qed.

Lemma bind_ret_r {A} (c : M S E A) s : bind c ret s = c s.
Proof. unfold bind, ret. by destruct (c s) as [? []]. Qed.

Lemma bind_assoc {A B C} (c : M S E A) (f : A -> M S E B) (g : B -> M S E C) s :
  bind (bind c f) g s = bind c (fun a => bind (f a) g) s.
Proof. unfold bind. by destruct (c s) as [? []]. Qed.

Lemma bind_throw {A B} (e : E) (k : A -> M S E B) s :
  bind (throw e) k s = (s, Throw e).
Proof. reflexivity. Qed.

Lemma catch_ret {A} (a : A) (h : E -> M S E A) s : catch (ret a) h s = (s, Normal a).
Proof. reflexivity. Qed.

Lemma catch_throw {A} (e : E) (h : E -> M S E A) s : catch (throw e) h s = h e s.
Proof. reflexivity. Qed.

Lemma bind_lift_normal {A B} (a : A) (k : A -> M S E B) s :
  bind (lift (Normal a)) k s = k a s.
Proof. reflexivity. Qed.

Lemma bind_lift_throw {A B} (e : E) (k : A -> M S E B) s :
  bind (lift (Throw e)) k s = (s, Throw e).
Proof. reflexivity. Qed.
End Monad.

Notation "x <- c ;; k" := (bind c (fun x => k))
  (at level 100, c at next level, right associativity) : js_scope.
Notation "c ;;; k" := (bind c (fun _ => k))
  (at level 100, right associativity) : js_scope.

(** ** Strings

    stdpp declares [String.append] [simpl never]; [string_app_cons] is the
    step [simpl] would take. *)

Lemma string_app_cons (c : ascii) (s t : string) :
  (String c s ++ t)%string = String c (s ++ t).
Proof. reflexivity. Qed.

Lemma string_app_nil_l (s : string) : ("" ++ s)%string = s.
Proof. reflexivity. Qed.

Lemma string_app_nil_r (s : string) : (s ++ "")%string = s.
Proof. induction s as [|c s IH]; [done | by rewrite string_app_cons, IH]. Qed.

Lemma string_app_assoc (a b c : string) : ((a ++ b) ++ c)%string = (a ++ (b ++ c))%string.
Proof. induction a as [|x a IH]; [done | by rewrite !string_app_cons, IH]. Qed.

Lemma string_length_app (a b : string) :
  String.length (a ++ b) = String.length a + String.length b.
Proof. induction a as [|x a IH]; [done | rewrite string_app_cons; simpl; lia]. Qed.

(** ** Association lists with the last binding winning

    Used for the properties of a JavaScript object built from JSON text with
    a repeated key, and for the function declarations of one scope, where
    the later declaration of a name replaces the earlier one. *)

Fixpoint assoc_last {A : Type} (k : string) (l : list (string * A)) : option A :=
  match l with
  | [] => None
  | (k', v) :: r =>
      match assoc_last k r with
      | Some w => Some w
      | None => if String.eqb k k' then Some v else None
      end
  end.

Lemma assoc_last_app {A} k (l1 l2 : list (string * A)) :
  assoc_last k (l1 ++ l2) =
  match assoc_last k l2 with Some w => Some w | None => assoc_last k l1 end.
Proof.
  induction l1 as [|[k' v] l1 IH]; simpl.
  - by destruct (assoc_last k l2).
  - rewrite IH. by destruct (assoc_last k l2).
Qed.

(** ** Transition sequences

    The reflexive-transitive closure of a step relation, for the state
    machines of the request lifecycle and of XMLHttpRequest. *)

Section Star.
Context {A : Type} (R : A -> A -> Prop).

Inductive star : A -> A -> Prop :=
| star_refl a : star a a
| star_step a b c : R a b -> star b c -> star a c.

Lemma star_one a b : R a b -> star a b.
Proof. eauto using star. Qed.

Lemma star_trans a b c : star a b -> star b c -> star a c.
Proof. induction 1; eauto using star. Qed.
End Star.

(** ** Automation *)

Create HintDb js discriminated.
Create Rewrite HintDb js_rw.

#[export] Hint Constructors star : js.
#[export] Hint Resolve star_one star_trans : js.

#[export] Hint Rewrite @bind_ret_l @bind_throw @catch_ret @catch_throw
  @bind_lift_normal @bind_lift_throw : js_rw.
#[export] Hint Rewrite string_app_cons string_app_nil_l string_app_nil_r string_app_assoc : js_rw.

(** Expose the monad's plumbing so that [cbn] can run a computation. *)
Ltac js_unfold := unfold bind, catch, ret, throw, lift, modify, gets in *.

(** Evaluate a monadic computation as far as the definitions allow. *)
Ltac js_simp := repeat (autorewrite with js_rw; simpl).

(** Case on a boolean test of the goal, keeping the equation. *)
Ltac case_test :=
  match goal with
  | |- context [if ?b then _ else _] => let E := fresh "E" in destruct b eqn:E
  end.
