(* ===== verification/JsValue.v ===== *)
(** * JavaScript values as the demos use them

    The values that flow through the handlers of [src/JS/AJAX/]: the JSON
    data returned by the APIs, [Error] objects (thrown by [handleErrors],
    by the platform, or built by axios), and fetch [Response] objects.  The
    operations are the ones the source applies to them: property access
    ([data[0]], [data.bpi.USD], [res.ok]), truthiness ([!response.ok]),
    conversion to a string (assignment to [innerHTML], ["Error: " + error]),
    the [+] operator and the [Error(..)] constructor. *)

From S2P Require Import Prelude.
Local Open Scope string_scope.

(** ** Values *)

Local Unset Elimination Schemes.
Inductive jsval : Type :=
| JUndefined
| JNull
| JBool (b : bool)
| JNum (n : Z)                    (** an integral number *)
| JNaN                            (** the number NaN *)
| JStr (s : string)
| JArr (elems : list jsval)
| JObj (props : list (string * jsval))
    (** a plain object; properties in creation order *)
| JError (name message : string) (props : list (string * jsval))
    (** an [Error] instance with its own extra properties *)
| JResponse (status : Z) (body : string).
    (** a fetch [Response]: its status and its unread body text *)
Local Set Elimination Schemes.

(** A completion of JavaScript code: a value or a thrown value. *)
Abbreviation completion := (compl jsval jsval).

(** ** Numbers as strings (Number::toString on integers) *)

Definition digit_char (d : Z) : ascii := ascii_of_nat (48 + Z.to_nat d).

(** The decimal digits of [n >= 0] prepended to [acc]; [fuel] bounds the
    number of digits. *)
Fixpoint digits_of (fuel : nat) (n : Z) (acc : string) : string :=
  match fuel with
  | O => acc
  | S f =>
      let acc' := String (digit_char (n mod 10)%Z) acc in
      if (n <? 10)%Z then acc' else digits_of f (n / 10)%Z acc'
  end.

(** A positive number has at most [log2 n + 1] decimal digits. *)
Definition nat_to_string (n : Z) : string :=
  digits_of (S (Z.to_nat (Z.log2 n))) n "".

Definition Z_to_string (z : Z) : string :=
  if (z <? 0)%Z then "-" ++ nat_to_string (- z)%Z else nat_to_string z.

(** The value of a non-empty string of decimal digits. *)
Definition digit_value (c : ascii) : option Z :=
  let k := Z.of_nat (nat_of_ascii c) in
  if ((48 <=? k) && (k <=? 57))%Z then Some (k - 48)%Z else None.

Definition is_digit (c : ascii) : bool :=
  match digit_value c with Some _ => true | None => false end.

Fixpoint all_digits (s : string) : bool :=
  match s with EmptyString => true | String c r => is_digit c && all_digits r end.

Fixpoint digits_value_acc (s : string) (acc : Z) : option Z :=
  match s with
  | EmptyString => Some acc
  | String c r =>
      match digit_value c with
      | Some d => digits_value_acc r (acc * 10 + d)%Z
      | None => None
      end
  end.

Definition digits_value (s : string) : option Z :=
  match s with
  | EmptyString => None
  | _ => digits_value_acc s 0
  end.

(** A property key is an array index when it is the canonical decimal
    form of a natural number ("0", "17"; not "01" nor "-1"). *)
Definition array_index (k : string) : option nat :=
  match digits_value k with
  | Some z => if String.eqb (Z_to_string z) k then Some (Z.to_nat z) else None
  | None => None
  end.

(** ** ToString *)

Definition error_to_string (name msg : string) : string :=
  if String.eqb name "" then msg
  else if String.eqb msg "" then name
  else name ++ ": " ++ msg.

(** [to_string v] is [String(v)]; an array is its elements joined with
    [","], with [undefined] and [null] elements written as empty. *)
Fixpoint to_string (v : jsval) : string :=
  match v with
  | JUndefined => "undefined"
  | JNull => "null"
  | JBool true => "true"
  | JBool false => "false"
  | JNum n => Z_to_string n
  | JNaN => "NaN"
  | JStr s => s
  | JArr l =>
      (fix join (l : list jsval) : string :=
         match l with
         | [] => ""
         | x :: r =>
             let sx := match x with
                       | JUndefined | JNull => ""
                       | _ => to_string x
                       end in
             match r with
             | [] => sx
             | _ => sx ++ "," ++ join r
             end
         end) l
  | JObj _ => "[object Object]"
  | JError n m _ => error_to_string n m
  | JResponse _ _ => "[object Response]"
  end.

(** ** Errors *)

Definition type_error (msg : string) : jsval := JError "TypeError" msg [].
Definition syntax_error (msg : string) : jsval := JError "SyntaxError" msg [].

(** [Error(x)]: the message is [String(x)], empty when [x] is undefined. *)
Definition make_error (x : jsval) : jsval :=
  JError "Error" (match x with JUndefined => "" | _ => to_string x end) [].

(** ** Property access [v[k]] and [v.k] *)

Definition read_error (what k : string) : jsval :=
  type_error ("Cannot read properties of " ++ what ++ " (reading '" ++ k ++ "')").

Definition get (v : jsval) (k : string) : completion :=
  match v with
  | JUndefined => Throw (read_error "undefined" k)
  | JNull => Throw (read_error "null" k)
  | JStr s =>
      if String.eqb k "length" then Normal (JNum (Z.of_nat (String.length s)))
      else match array_index k with
           | Some i => Normal (match String.get i s with
                               | Some c => JStr (String c EmptyString)
                               | None => JUndefined
                               end)
           | None => Normal JUndefined
           end
  | JArr l =>
      if String.eqb k "length" then Normal (JNum (Z.of_nat (List.length l)))
      else match array_index k with
           | Some i => Normal (default JUndefined (l !! i))
           | None => Normal JUndefined
           end
  | JObj ps => Normal (default JUndefined (assoc_last k ps))
  | JError n m ps =>
      match assoc_last k ps with
      | Some w => Normal w
      | None =>
          if String.eqb k "name" then Normal (JStr n)
          else if String.eqb k "message" then Normal (JStr m)
          else Normal JUndefined
      end
  | JResponse st _ =>
      if String.eqb k "ok" then Normal (JBool ((200 <=? st) && (st <=? 299))%Z)
      else if String.eqb k "status" then Normal (JNum st)
      else Normal JUndefined
  | JBool _ | JNum _ | JNaN => Normal JUndefined
  end.

(** ** Truthiness and [+] *)

Definition truthy (v : jsval) : bool :=
  match v with
  | JUndefined | JNull | JNaN => false
  | JBool b => b
  | JNum n => negb (n =? 0)%Z
  | JStr s => negb (String.eqb s "")
  | _ => true
  end.

(** After ToPrimitive, is the operand a string?  Objects convert through
    [toString], so every object operand does. *)
Definition prim_is_string (v : jsval) : bool :=
  match v with
  | JUndefined | JNull | JBool _ | JNum _ | JNaN => false
  | _ => true
  end.

Definition to_number (v : jsval) : option Z :=
  match v with
  | JNull => Some 0%Z
  | JBool b => Some (if b then 1%Z else 0%Z)
  | JNum n => Some n
  | _ => None
  end.

(** [a + b]: concatenation when either primitive is a string, otherwise
    numeric addition (NaN when an operand converts to NaN). *)
Definition js_plus (a b : jsval) : jsval :=
  if prim_is_string a || prim_is_string b then JStr (to_string a ++ to_string b)
  else match to_number a, to_number b with
       | Some x, Some y => JNum (x + y)%Z
       | _, _ => JNaN
       end.

(** [v.k1.k2...kn]: property reads left to right, the first [TypeError]
    ends the chain. *)
Fixpoint get_path (v : jsval) (ks : list string) : completion :=
  match ks with
  | [] => Normal v
  | k :: r => match get v k with Normal w => get_path w r | Throw e => Throw e end
  end.


(** ** Printing and reading decimal numbers *)

Lemma digit_value_char d : (0 <= d < 10)%Z -> digit_value (digit_char d) = Some d.
Proof.
  intros Hd.
  assert (d = 0 \/ d = 1 \/ d = 2 \/ d = 3 \/ d = 4 \/ d = 5 \/ d = 6 \/ d = 7 \/ d = 8 \/ d = 9)%Z
    as Hc by lia.
  destruct Hc as [->|[->|[->|[->|[->|[->|[->|[->|[->| ->]]]]]]]]]; reflexivity.
Qed.

Lemma digits_value_acc_app x y a :
  digits_value_acc (x ++ y) a =
  match digits_value_acc x a with Some v => digits_value_acc y v | None => None end.
Proof.
  revert a. induction x as [|c x IH]; intros a; [done|].
  rewrite string_app_cons. simpl. destruct (digit_value c); [apply IH | done].
Qed.

Lemma all_digits_app x y : all_digits (x ++ y) = all_digits x && all_digits y.
Proof.
  induction x as [|c x IH]; [done|]. rewrite string_app_cons. simpl. rewrite IH.
  by destruct (is_digit c).
Qed.

Lemma digits_of_S f n acc :
  digits_of (S f) n acc =
  if (n <? 10)%Z then String (digit_char (n mod 10)) acc
  else digits_of f (n / 10) (String (digit_char (n mod 10)) acc).
Proof. reflexivity. Qed.

(** The digits [digits_of] produces: a non-empty run of decimal digits
    whose value is [n], with no leading zero. *)
Definition decimal_of (n : Z) (ds : string) : Prop :=
  ds <> EmptyString /\ all_digits ds = true /\ digits_value_acc ds 0 = Some n /\
  (n = 0%Z -> ds = "0") /\
  (0 < n -> exists c r, ds = String c r /\ c <> "0"%char)%Z.

Lemma single_digit n : (0 <= n < 10)%Z -> decimal_of n (String (digit_char n) EmptyString).
Proof.
  intros Hn. assert (Hv : digit_value (digit_char n) = Some n) by (apply digit_value_char; lia).
  unfold decimal_of. split; [discriminate|]. split.
  { cbn [all_digits]. unfold is_digit. by rewrite Hv. }
  split. { cbn [digits_value_acc]. by rewrite Hv. }
  split. { intros ->. reflexivity. }
  intros Hp. exists (digit_char n), EmptyString. split; [done|].
  intros Hc. rewrite Hc in Hv. cbv in Hv. injection Hv. lia.
Qed.

Lemma digits_of_spec f n acc :
  (0 <= n < 10 ^ Z.of_nat (S f))%Z ->
  exists ds, digits_of (S f) n acc = (ds ++ acc)%string /\ decimal_of n ds.
Proof.
  revert n acc. induction f as [|f IH]; intros n acc Hn;
    rewrite digits_of_S; destruct (Z.ltb_spec n 10) as [Hlt|Hge].
  1,3: exists (String (digit_char n) EmptyString); rewrite Z.mod_small by lia;
    split; [reflexivity | apply single_digit; lia].
  - rewrite Nat2Z.inj_succ, Z.pow_succ_r in Hn by lia. cbn in Hn. lia.
  - destruct (IH (n / 10)%Z (String (digit_char (n mod 10)) acc))
      as (ds & Hds & Hne & Hall & Hval & _ & Hlead).
    { rewrite Nat2Z.inj_succ, Z.pow_succ_r in Hn by lia. split; [apply Z.div_pos; lia|].
      apply Z.div_lt_upper_bound; lia. }
    assert (Hd : digit_value (digit_char (n mod 10)) = Some (n mod 10)%Z)
      by (apply digit_value_char, Z.mod_pos_bound; lia).
    exists (ds ++ String (digit_char (n mod 10)) EmptyString)%string. split.
    { rewrite Hds, string_app_assoc. reflexivity. }
    unfold decimal_of. split; [|split; [|split; [|split]]].
    + destruct ds; [done|]. discriminate.
    + rewrite all_digits_app, Hall. cbn [all_digits]. unfold is_digit. by rewrite Hd.
    + rewrite digits_value_acc_app, Hval. cbn [digits_value_acc]. rewrite Hd. f_equal.
      pose proof (Z.div_mod n 10). lia.
    + lia.
    + intros _. destruct (Hlead ltac:(apply Z.div_str_pos; lia)) as (c & r & -> & Hc).
      by exists c, (r ++ String (digit_char (n mod 10)) EmptyString)%string.
Qed.

Lemma nat_to_string_spec n : (0 <= n)%Z -> decimal_of n (nat_to_string n).
Proof.
  intros Hn. unfold nat_to_string.
  destruct (digits_of_spec (Z.to_nat (Z.log2 n)) n "") as (ds & -> & Hd).
  - split; [done|]. rewrite Nat2Z.inj_succ, Z2Nat.id by apply Z.log2_nonneg.
    destruct (Z.eq_dec n 0) as [->|Hn0]; [reflexivity|].
    apply Z.lt_le_trans with (2 ^ Z.succ (Z.log2 n))%Z.
    + apply Z.log2_spec. lia.
    + apply Z.pow_le_mono_l. pose proof (Z.log2_nonneg n). lia.
  - by rewrite string_app_nil_r.
Qed.

(** ** Induction on values

    [jsval] nests lists of values; its induction principle gives the
    hypothesis for every element of an array and every property value of an
    object or error. *)

Section JsvalInd.
Variable P : jsval -> Prop.
Hypothesis HUndefined : P JUndefined.
Hypothesis HNull : P JNull.
Hypothesis HBool : forall b, P (JBool b).
Hypothesis HNum : forall n, P (JNum n).
Hypothesis HNaN : P JNaN.
Hypothesis HStr : forall s, P (JStr s).
Hypothesis HArr : forall l, Forall P l -> P (JArr l).
Hypothesis HObj : forall ps, Forall (fun kv => P (snd kv)) ps -> P (JObj ps).
Hypothesis HError : forall n m ps, Forall (fun kv => P (snd kv)) ps -> P (JError n m ps).
Hypothesis HResponse : forall st b, P (JResponse st b).

Fixpoint jsval_ind (v : jsval) : P v :=
  let props := fix go (ps : list (string * jsval)) : Forall (fun kv => P (snd kv)) ps :=
                 match ps with
                 | [] => @List.Forall_nil _ _
                 | (k, x) :: r => @List.Forall_cons _ _ (k, x) r (jsval_ind x) (go r)
                 end in
  match v with
  | JUndefined => HUndefined
  | JNull => HNull
  | JBool b => HBool b
  | JNum n => HNum n
  | JNaN => HNaN
  | JStr s => HStr s
  | JArr l =>
      HArr l ((fix go (l : list jsval) : Forall P l :=
                 match l with
                 | [] => @List.Forall_nil _ _
                 | x :: r => @List.Forall_cons _ _ x r (jsval_ind x) (go r)
                 end) l)
  | JObj ps => HObj ps (props ps)
  | JError n m ps => HError n m ps (props ps)
  | JResponse st b => HResponse st b
  end.
End JsvalInd.
