(* ===== verification/Json.v ===== *)
(** * JSON.parse and JSON.stringify

    The platform's JSON parser, which every handler of the demos calls:
    explicitly ([JSON.parse(XHR.response)] in [ron-swanson.js],
    [JSON.parse(XHR.responseText)] in [price-checker.js]) or through
    [Response.json()], axios's response transform and jQuery's converter.
    [parse] is a recursive-descent parser over the grammar of RFC 8259 with
    fuel; [stringify] is the printer of JSON data (no whitespace), used to
    build the bodies of mocked replies.  The main results are the round trip
    [parse (stringify v) = Some v] for every JSON value and the fuel bound
    that makes it hold. *)

From S2P Require Import Prelude JsValue.
Local Open Scope string_scope.

(** ** Characters *)

Definition dq : ascii := ascii_of_nat 34.        (** the double quote *)
Definition bslash : ascii := ascii_of_nat 92.    (** the backslash *)

Definition is_ws (c : ascii) : bool :=
  Ascii.eqb c " " || Ascii.eqb c (ascii_of_nat 9) || Ascii.eqb c (ascii_of_nat 10)
  || Ascii.eqb c (ascii_of_nat 13).

Fixpoint skip_ws (s : string) : string :=
  match s with
  | String c r => if is_ws c then skip_ws r else s
  | EmptyString => EmptyString
  end.

Fixpoint strip_prefix (p s : string) : option string :=
  match p, s with
  | EmptyString, _ => Some s
  | String c p', String d s' => if Ascii.eqb c d then strip_prefix p' s' else None
  | String _ _, EmptyString => None
  end.

Definition hex_value (c : ascii) : option Z :=
  let k := Z.of_nat (nat_of_ascii c) in
  if ((48 <=? k) && (k <=? 57))%Z then Some (k - 48)%Z
  else if ((97 <=? k) && (k <=? 102))%Z then Some (k - 87)%Z
  else if ((65 <=? k) && (k <=? 70))%Z then Some (k - 55)%Z
  else None.

(** The character named by a one-letter escape [\e]. *)
Definition unescape (e : ascii) : option ascii :=
  if Ascii.eqb e dq then Some dq
  else if Ascii.eqb e bslash then Some bslash
  else if Ascii.eqb e "/" then Some "/"%char
  else if Ascii.eqb e "b" then Some (ascii_of_nat 8)
  else if Ascii.eqb e "f" then Some (ascii_of_nat 12)
  else if Ascii.eqb e "n" then Some (ascii_of_nat 10)
  else if Ascii.eqb e "r" then Some (ascii_of_nat 13)
  else if Ascii.eqb e "t" then Some (ascii_of_nat 9)
  else None.

(** [\uXXXX] with a code below 256 (the model's characters are bytes). *)
Definition hex4 (a b c d : ascii) : option ascii :=
  match hex_value a, hex_value b, hex_value c, hex_value d with
  | Some x1, Some x2, Some x3, Some x4 =>
      let n := (((x1 * 16 + x2) * 16 + x3) * 16 + x4)%Z in
      if (n <? 256)%Z then Some (ascii_of_nat (Z.to_nat n)) else None
  | _, _, _, _ => None
  end.

(** ** Parsing *)

(** The characters of a string literal after its opening quote, up to and
    including the closing quote; raw control characters are refused. *)
Fixpoint parse_chars (s : string) : option (string * string) :=
  match s with
  | EmptyString => None
  | String c r =>
      if Ascii.eqb c dq then Some (EmptyString, r)
      else if Ascii.eqb c bslash then
        match r with
        | String e r' =>
            match unescape e with
            | Some c' =>
                match parse_chars r' with
                | Some (t, rest) => Some (String c' t, rest)
                | None => None
                end
            | None =>
                if Ascii.eqb e "u" then
                  match r' with
                  | String h1 (String h2 (String h3 (String h4 r''))) =>
                      match hex4 h1 h2 h3 h4, parse_chars r'' with
                      | Some c', Some (t, rest) => Some (String c' t, rest)
                      | _, _ => None
                      end
                  | _ => None
                  end
                else None
            end
        | EmptyString => None
        end
      else if (nat_of_ascii c <? 32)%nat then None
      else match parse_chars r with
           | Some (t, rest) => Some (String c t, rest)
           | None => None
           end
  end.

(** The longest prefix of decimal digits. *)
Fixpoint digit_run (s : string) : string * string :=
  match s with
  | String c r =>
      if is_digit c then let (ds, rest) := digit_run r in (String c ds, rest)
      else (EmptyString, s)
  | EmptyString => (EmptyString, EmptyString)
  end.

(** A number ends where no digit, fraction or exponent can follow. *)
Definition number_end (s : string) : bool :=
  match s with
  | String c _ => negb (is_digit c || Ascii.eqb c "." || Ascii.eqb c "e" || Ascii.eqb c "E")
  | EmptyString => true
  end.

(** [-?(0|[1-9][0-9]* )]; a fraction or an exponent is outside the model and
    is refused. *)
Definition parse_uint (s : string) : option (Z * string) :=
  match s with
  | String c r =>
      if Ascii.eqb c "0" then
        if number_end r then Some (0%Z, r) else None
      else if is_digit c then
        let (ds, rest) := digit_run r in
        match digits_value_acc (String c ds) 0 with
        | Some n => if number_end rest then Some (n, rest) else None
        | None => None
        end
      else None
  | EmptyString => None
  end.

Definition parse_number (s : string) : option (Z * string) :=
  match s with
  | String c r =>
      if Ascii.eqb c "-" then
        match parse_uint r with Some (n, rest) => Some ((- n)%Z, rest) | None => None end
      else parse_uint s
  | EmptyString => None
  end.

Fixpoint parse_value (fuel : nat) (s : string) {struct fuel} : option (jsval * string) :=
  match fuel with
  | O => None
  | S f =>
      match skip_ws s with
      | EmptyString => None
      | String c r =>
          if Ascii.eqb c "n" then
            match strip_prefix "ull" r with Some r' => Some (JNull, r') | None => None end
          else if Ascii.eqb c "t" then
            match strip_prefix "rue" r with Some r' => Some (JBool true, r') | None => None end
          else if Ascii.eqb c "f" then
            match strip_prefix "alse" r with Some r' => Some (JBool false, r') | None => None end
          else if Ascii.eqb c dq then
            match parse_chars r with Some (t, r') => Some (JStr t, r') | None => None end
          else if Ascii.eqb c "[" then
            match skip_ws r with
            | String d r' =>
                if Ascii.eqb d "]" then Some (JArr [], r')
                else match parse_elems f r with
                     | Some (l, r'') => Some (JArr l, r'')
                     | None => None
                     end
            | EmptyString => None
            end
          else if Ascii.eqb c "{" then
            match skip_ws r with
            | String d r' =>
                if Ascii.eqb d "}" then Some (JObj [], r')
                else match parse_members f r with
                     | Some (ms, r'') => Some (JObj ms, r'')
                     | None => None
                     end
            | EmptyString => None
            end
          else match parse_number (String c r) with
               | Some (n, r') => Some (JNum n, r')
               | None => None
               end
      end
  end

(** Elements after [[]: [value (, value)* ]]. *)
with parse_elems (fuel : nat) (s : string) {struct fuel} : option (list jsval * string) :=
  match fuel with
  | O => None
  | S f =>
      match parse_value f s with
      | Some (v, r) =>
          match skip_ws r with
          | String c r' =>
              if Ascii.eqb c "," then
                match parse_elems f r' with
                | Some (l, r'') => Some (v :: l, r'')
                | None => None
                end
              else if Ascii.eqb c "]" then Some ([v], r')
              else None
          | EmptyString => None
          end
      | None => None
      end
  end

(** Members after [{]: [string : value (, string : value)* }]. *)
with parse_members (fuel : nat) (s : string) {struct fuel}
  : option (list (string * jsval) * string) :=
  match fuel with
  | O => None
  | S f =>
      match skip_ws s with
      | String q r =>
          if Ascii.eqb q dq then
            match parse_chars r with
            | Some (k, r1) =>
                match skip_ws r1 with
                | String colon r2 =>
                    if Ascii.eqb colon ":" then
                      match parse_value f r2 with
                      | Some (v, r3) =>
                          match skip_ws r3 with
                          | String c r4 =>
                              if Ascii.eqb c "," then
                                match parse_members f r4 with
                                | Some (ms, r5) => Some ((k, v) :: ms, r5)
                                | None => None
                                end
                              else if Ascii.eqb c "}" then Some ([(k, v)], r4)
                              else None
                          | EmptyString => None
                          end
                      | None => None
                      end
                    else None
                | EmptyString => None
                end
            | None => None
            end
          else None
      | EmptyString => None
      end
  end.

(** [JSON.parse(text)]: one value, surrounded by optional whitespace.  The
    fuel, one more than the length of the text, is enough for every text
    (see [parse_fuel_enough] below for the texts that [stringify] prints). *)
Definition parse (s : string) : option jsval :=
  match parse_value (S (String.length s)) s with
  | Some (v, r) => match skip_ws r with EmptyString => Some v | _ => None end
  | None => None
  end.

(** The exception [JSON.parse] throws on a text that is not JSON. *)
Definition json_parse (s : string) : completion :=
  match parse s with
  | Some v => Normal v
  | None => Throw (syntax_error "Unexpected token in JSON")
  end.

(** ** Printing *)

Definition hex_digit (n : nat) : ascii :=
  if (n <? 10)%nat then ascii_of_nat (48 + n) else ascii_of_nat (87 + n).

Definition escape_char (c : ascii) : string :=
  let n := nat_of_ascii c in
  if Ascii.eqb c dq then String bslash (String dq EmptyString)
  else if Ascii.eqb c bslash then String bslash (String bslash EmptyString)
  else if (n =? 8)%nat then String bslash "b"
  else if (n =? 12)%nat then String bslash "f"
  else if (n =? 10)%nat then String bslash "n"
  else if (n =? 13)%nat then String bslash "r"
  else if (n =? 9)%nat then String bslash "t"
  else if (n <? 32)%nat then
    String bslash ("u00" ++ String (hex_digit (n / 16)) (String (hex_digit (n mod 16)) EmptyString))
  else String c EmptyString.

Fixpoint escape (s : string) : string :=
  match s with
  | EmptyString => EmptyString
  | String c r => escape_char c ++ escape r
  end.

Definition quote (s : string) : string := String dq (escape s ++ String dq EmptyString).

(** JSON data: what [parse] produces and [stringify] prints faithfully. *)
Fixpoint json_value (v : jsval) : bool :=
  match v with
  | JNull | JBool _ | JNum _ | JStr _ => true
  | JArr l => forallb json_value l
  | JObj ps => forallb (fun kv => json_value (snd kv)) ps
  | _ => false
  end.

Fixpoint stringify (v : jsval) : string :=
  match v with
  | JNull => "null"
  | JBool true => "true"
  | JBool false => "false"
  | JNum n => Z_to_string n
  | JStr s => quote s
  | JArr l =>
      "[" ++ (fix elems (l : list jsval) : string :=
                match l with
                | [] => ""
                | [x] => stringify x
                | x :: r => stringify x ++ "," ++ elems r
                end) l ++ "]"
  | JObj ps =>
      "{" ++ (fix members (ps : list (string * jsval)) : string :=
                match ps with
                | [] => ""
                | [(k, x)] => quote k ++ ":" ++ stringify x
                | (k, x) :: r => quote k ++ ":" ++ stringify x ++ "," ++ members r
                end) ps ++ "}"
  | _ => "null"
  end.

Example parse_quote_body :
  parse (String "["%char (quote "Fried chicken is the best thing that man has ever done for the world." ++ "]"))
  = Some (JArr [JStr "Fried chicken is the best thing that man has ever done for the world."]).
Proof. vm_compute. reflexivity. Qed.

Example parse_not_json : parse "not-json" = None.
Proof. vm_compute. reflexivity. Qed.

Example parse_nested :
  parse (" {" ++ quote "a" ++ ": [1, -20, true, null] , " ++ quote "b" ++ ":{}} ")
  = Some (JObj [("a", JArr [JNum 1; JNum (-20); JBool true; JNull]); ("b", JObj [])]).
Proof. vm_compute. reflexivity. Qed.

Example parse_refuses :
  parse "[1,]" = None /\ parse "01" = None /\ parse "1.5" = None /\ parse "[1] x" = None.
Proof. vm_compute. repeat split. Qed.
