(* ===== verification/JsonRoundtrip.v ===== *)
(** * The JSON round trip

    [parse (stringify v) = Some v] for every JSON value [v]: the printer and
    the parser of [Json] agree, and the parser's fuel ([S (length s)]) is
    enough for every printed text.  The proof goes up from characters
    (escapes), through numbers (the decimal digits of [Z_to_string]) to
    nested values, with the fuel a value needs ([need]) bounded by the
    length of its text.  Corollaries: [JSON.parse] undoes [JSON.stringify]
    ([json_parse_stringify]) and the printer is injective on JSON data
    ([stringify_inj]). *)

From S2P Require Import Prelude JsValue Json.
Local Open Scope string_scope.

(** ** Characters and strings *)

Lemma strip_prefix_app p r : strip_prefix p (p ++ r) = Some r.
Proof. induction p as [|c p IH]; [done|]. rewrite string_app_cons. simpl. by rewrite Ascii.eqb_refl. Qed.

(** Reading back one escaped character. *)
Lemma parse_chars_escape_char c t :
  parse_chars (escape_char c ++ t) =
  match parse_chars t with Some (u, r) => Some (String c u, r) | None => None end.
Proof.
  destruct (Ascii.eqb_spec c dq) as [->|Hdq]; [reflexivity|].
  destruct (Ascii.eqb_spec c bslash) as [->|Hbs]; [reflexivity|].
  destruct (Nat.ltb_spec (nat_of_ascii c) 32) as [Hlt|Hge].
  - rewrite <- (ascii_nat_embedding c). remember (nat_of_ascii c) as n eqn:En. clear -Hlt.
    do 32 (destruct n as [|n]; [reflexivity|]). lia.
  - unfold escape_char.
    rewrite (proj2 (Ascii.eqb_neq _ _) Hdq), (proj2 (Ascii.eqb_neq _ _) Hbs).
    repeat match goal with
           | |- context [(nat_of_ascii c =? ?k)%nat] =>
               rewrite (proj2 (Nat.eqb_neq (nat_of_ascii c) k)) by lia
           end.
    rewrite (proj2 (Nat.ltb_ge _ _) Hge). rewrite string_app_cons, string_app_nil_l.
    cbn [parse_chars].
    rewrite (proj2 (Ascii.eqb_neq _ _) Hdq), (proj2 (Ascii.eqb_neq _ _) Hbs),
      (proj2 (Nat.ltb_ge _ _) Hge).
    reflexivity.
Qed.

Lemma parse_chars_escape s r : parse_chars (escape s ++ String dq r) = Some (s, r).
Proof.
  induction s as [|c s IH]; [reflexivity|].
  cbn [escape]. rewrite string_app_assoc, parse_chars_escape_char, IH. reflexivity.
Qed.

(** ** Numbers *)

Lemma eqb_digit_other c x : is_digit c = true -> is_digit x = false -> Ascii.eqb c x = false.
Proof. intros Hc Hx. destruct (Ascii.eqb_spec c x) as [->|]; [congruence|done]. Qed.

Lemma digit_run_end r : number_end r = true -> digit_run r = (EmptyString, r).
Proof.
  destruct r as [|c r]; [done|]. simpl. intros H.
  destruct (is_digit c); [done|reflexivity].
Qed.

Lemma digit_run_digits ds r :
  all_digits ds = true -> number_end r = true -> digit_run (ds ++ r) = (ds, r).
Proof.
  intros Hds Hr. induction ds as [|c ds IH]; [by apply digit_run_end|].
  simpl in Hds. apply andb_true_iff in Hds as [Hc Hds].
  rewrite string_app_cons. simpl. rewrite Hc, IH by done. reflexivity.
Qed.

Lemma parse_uint_decimal n ds r :
  (0 <= n)%Z -> decimal_of n ds -> number_end r = true -> parse_uint (ds ++ r) = Some (n, r).
Proof.
  intros Hn (Hne & Hall & Hval & Hzero & Hlead) Hr.
  destruct (Z.eq_dec n 0) as [->|Hn0].
  - rewrite (Hzero eq_refl), string_app_cons, string_app_nil_l. unfold parse_uint. cbn [Ascii.eqb Bool.eqb]. by rewrite Hr.
  - destruct (Hlead ltac:(lia)) as (c & r0 & -> & Hc0).
    simpl in Hall. apply andb_true_iff in Hall as [Hc Hall].
    rewrite string_app_cons. unfold parse_uint.
    rewrite (proj2 (Ascii.eqb_neq _ _) Hc0), Hc, digit_run_digits by done.
    rewrite Hval, Hr. reflexivity.
Qed.

Lemma Z_to_string_head z :
  exists c t, Z_to_string z = String c t /\ (is_digit c || Ascii.eqb c "-") = true.
Proof.
  unfold Z_to_string. destruct (Z.ltb_spec z 0).
  - by exists "-"%char, (nat_to_string (- z)).
  - destruct (nat_to_string_spec z ltac:(lia)) as (Hne & Hall & _).
    destruct (nat_to_string z) as [|c t]; [done|]. exists c, t. split; [done|].
    simpl in Hall. apply andb_true_iff in Hall as [-> _]. done.
Qed.

Lemma parse_number_Z z r :
  number_end r = true -> parse_number (Z_to_string z ++ r) = Some (z, r).
Proof.
  intros Hr. unfold Z_to_string. destruct (Z.ltb_spec z 0).
  - rewrite string_app_assoc, string_app_cons, string_app_nil_l. unfold parse_number.
    cbn [Ascii.eqb Bool.eqb].
    rewrite (parse_uint_decimal (- z)) by (try apply nat_to_string_spec; lia || done).
    f_equal. f_equal. lia.
  - assert (Hd := nat_to_string_spec z ltac:(lia)).
    destruct (nat_to_string z) as [|c t] eqn:E; [by destruct Hd|].
    assert (Hc : is_digit c = true).
    { destruct Hd as (_ & Hall & _). simpl in Hall. apply andb_true_iff in Hall. tauto. }
    rewrite string_app_cons. unfold parse_number. rewrite (eqb_digit_other c "-") by done.
    rewrite <- string_app_cons. apply parse_uint_decimal; [lia|exact Hd|done].
Qed.

(** ** The printer's lists and the fuel a value needs *)

Fixpoint stringify_elems (l : list jsval) : string :=
  match l with
  | [] => ""
  | [x] => stringify x
  | x :: r => stringify x ++ "," ++ stringify_elems r
  end.

Fixpoint stringify_members (ps : list (string * jsval)) : string :=
  match ps with
  | [] => ""
  | [(k, x)] => quote k ++ ":" ++ stringify x
  | (k, x) :: r => quote k ++ ":" ++ stringify x ++ "," ++ stringify_members r
  end.

Lemma stringify_arr l : stringify (JArr l) = "[" ++ stringify_elems l ++ "]".
Proof. reflexivity. Qed.

Lemma stringify_obj ps : stringify (JObj ps) = "{" ++ stringify_members ps ++ "}".
Proof. reflexivity. Qed.

(** The fuel [parse_value] needs for a value: one unit per level of
    [parse_value], one per element or member of a list. *)
Fixpoint need (v : jsval) : nat :=
  match v with
  | JArr l =>
      S ((fix go (l : list jsval) : nat :=
            match l with
            | [] => 0
            | [x] => S (need x)
            | x :: r => S (Nat.max (need x) (go r))
            end) l)
  | JObj ps =>
      S ((fix go (ps : list (string * jsval)) : nat :=
            match ps with
            | [] => 0
            | [(_, x)] => S (need x)
            | (_, x) :: r => S (Nat.max (need x) (go r))
            end) ps)
  | _ => 1
  end.

Fixpoint need_elems (l : list jsval) : nat :=
  match l with
  | [] => 0
  | [x] => S (need x)
  | x :: r => S (Nat.max (need x) (need_elems r))
  end.

Fixpoint need_members (ps : list (string * jsval)) : nat :=
  match ps with
  | [] => 0
  | [(_, x)] => S (need x)
  | (_, x) :: r => S (Nat.max (need x) (need_members r))
  end.

Lemma need_arr l : need (JArr l) = S (need_elems l).
Proof. reflexivity. Qed.

Lemma need_obj ps : need (JObj ps) = S (need_members ps).
Proof. reflexivity. Qed.

(** ** The first character of a printed value *)

Definition value_start (c : ascii) : Prop := is_ws c = false /\ Ascii.eqb c "]" = false.

Lemma stringify_head v :
  json_value v = true -> exists c t, stringify v = String c t /\ value_start c.
Proof.
  destruct v; simpl; intros H; try discriminate.
  - by exists "n"%char, "ull".
  - destruct b; [by exists "t"%char, "rue" | by exists "f"%char, "alse"].
  - destruct (Z_to_string_head n) as (c & t & -> & Hc). exists c, t. split; [done|].
    apply orb_true_iff in Hc as [Hd|Hm].
    + unfold value_start, is_ws. rewrite !(eqb_digit_other c) by done. done.
    + apply Ascii.eqb_eq in Hm as ->. done.
  - by eexists _, _.
  - by eexists _, _.
  - by eexists _, _.
Qed.

(** ** Parsing back *)

Lemma skip_ws_start c t : is_ws c = false -> skip_ws (String c t) = String c t.
Proof. intros H. simpl. by rewrite H. Qed.

Lemma parse_value_number f c t :
  (is_digit c || Ascii.eqb c "-") = true ->
  parse_value (S f) (String c t) =
  match parse_number (String c t) with Some (n, r) => Some (JNum n, r) | None => None end.
Proof.
  intros Hc. apply orb_true_iff in Hc as [Hd|Hm].
  - cbn [parse_value]. unfold is_ws in *.
    rewrite skip_ws_start by (unfold is_ws; rewrite !(eqb_digit_other c) by done; done).
    rewrite !(eqb_digit_other c) by done. reflexivity.
  - apply Ascii.eqb_eq in Hm as ->. reflexivity.
Qed.

Lemma string_app_one c t : (String c EmptyString ++ t)%string = String c t.
Proof. reflexivity. Qed.

Lemma quote_app k t : (quote k ++ t)%string = String dq (escape k ++ String dq t).
Proof. unfold quote. by rewrite string_app_cons, string_app_assoc, string_app_one. Qed.

Definition roundtrips (v : jsval) : Prop :=
  json_value v = true -> forall f r, need v <= f -> number_end r = true ->
  parse_value f (stringify v ++ r) = Some (v, r).

Ltac side := first [done | lia | reflexivity].

Lemma parse_elems_back l :
  Forall roundtrips l -> forallb json_value l = true -> l <> [] ->
  forall g r, need_elems l <= g -> parse_elems g (stringify_elems l ++ String "]" r) = Some (l, r).
Proof.
  induction 1 as [|x l Hx Hl IH]; intros Hj Hne g r Hg; [done|].
  cbn [forallb] in Hj. apply andb_true_iff in Hj as [Hjx Hjl].
  destruct g as [|g]; [destruct l; simpl in Hg; lia|].
  destruct l as [|y l'].
  - cbn [stringify_elems parse_elems]. rewrite Hx by (simpl in Hg; side).
    reflexivity.
  - change (need_elems (x :: y :: l')) with (S (Nat.max (need x) (need_elems (y :: l')))) in Hg.
    change (stringify_elems (x :: y :: l'))
      with (stringify x ++ "," ++ stringify_elems (y :: l')).
    remember (stringify_elems (y :: l')) as rest eqn:Erest.
    rewrite !string_app_assoc, string_app_cons, string_app_nil_l.
    cbn [parse_elems]. rewrite Hx by side. cbn.
    change (is_ws ",") with false. cbn.
    subst rest. rewrite IH by (try discriminate; side). reflexivity.
Qed.

Lemma parse_members_back ps :
  Forall (fun kv => roundtrips (snd kv)) ps -> forallb (fun kv => json_value (snd kv)) ps = true ->
  ps <> [] -> forall g r, need_members ps <= g ->
  parse_members g (stringify_members ps ++ String "}" r) = Some (ps, r).
Proof.
  induction 1 as [|[k x] ps Hx Hps IH]; intros Hj Hne g r Hg; [done|].
  cbn [forallb snd] in Hj, Hx. apply andb_true_iff in Hj as [Hjx Hjl].
  destruct g as [|g]; [destruct ps as [|[]]; simpl in Hg; lia|].
  destruct ps as [|[k' y] ps'].
  - change (stringify_members [(k, x)]) with (quote k ++ ":" ++ stringify x).
    change (need_members [(k, x)]) with (S (need x)) in Hg.
    rewrite !string_app_assoc, quote_app, string_app_one. cbn [parse_members].
    cbn. change (is_ws dq) with false. cbn. rewrite parse_chars_escape. cbn.
    rewrite Ascii.eqb_refl. change (is_ws ":") with false. simpl.
    rewrite Hx by side. reflexivity.
  - change (need_members ((k, x) :: (k', y) :: ps'))
      with (S (Nat.max (need x) (need_members ((k', y) :: ps')))) in Hg.
    change (stringify_members ((k, x) :: (k', y) :: ps'))
      with (quote k ++ ":" ++ stringify x ++ "," ++ stringify_members ((k', y) :: ps')).
    remember (stringify_members ((k', y) :: ps')) as rest eqn:Erest.
    rewrite !string_app_assoc, quote_app, !string_app_one. cbn [parse_members].
    cbn. change (is_ws dq) with false. cbn. rewrite parse_chars_escape. cbn.
    rewrite Ascii.eqb_refl. change (is_ws ":") with false. simpl.
    rewrite Hx by side. simpl. change (is_ws ",") with false. simpl.
    subst rest. rewrite IH by (try discriminate; side). reflexivity.
Qed.

Lemma stringify_elems_head x l :
  json_value x = true -> exists c t, stringify_elems (x :: l) = String c t /\ value_start c.
Proof.
  intros Hx. destruct (stringify_head x Hx) as (c & t & Ht & Hc).
  destruct l as [|y l]; cbn [stringify_elems]; rewrite Ht; [by exists c, t|].
  exists c, (t ++ "," ++ stringify_elems (y :: l)). by rewrite string_app_cons.
Qed.

Lemma stringify_members_head k x ps :
  exists t, stringify_members ((k, x) :: ps) = String dq t.
Proof.
  destruct ps as [|[k' y] ps]; cbn [stringify_members]; rewrite quote_app; by eexists.
Qed.

Lemma stringify_roundtrips v : roundtrips v.
Proof.
  induction v as [| |b|n| |s|l Hl|ps Hps|n m ps _|st b] using jsval_ind;
    unfold roundtrips; intros Hj f r Hf Hr; cbn [json_value] in Hj; try discriminate;
    (destruct f as [|f]; [cbn [need] in Hf; lia|]).
  - reflexivity.
  - destruct b; reflexivity.
  - destruct (Z_to_string_head n) as (c & t & Ht & Hc). cbn [stringify].
    rewrite Ht, string_app_cons, parse_value_number by done.
    rewrite <- string_app_cons, <- Ht, parse_number_Z by done. reflexivity.
  - cbn [stringify]. rewrite quote_app. simpl. by rewrite parse_chars_escape.
  - destruct l as [|x l']; [reflexivity|].
    cbn [forallb] in Hj. apply andb_true_iff in Hj as [Hjx Hjl].
    rewrite stringify_arr, !string_app_assoc, !string_app_one.
    destruct (stringify_elems_head x l' Hjx) as (c & t & Ht & Hcs & Hcb).
    rewrite Ht, string_app_cons. simpl. rewrite Hcs, Hcb.
    rewrite <- string_app_cons, <- Ht, parse_elems_back; try done.
    + cbn [forallb]. by rewrite Hjx, Hjl.
    + rewrite need_arr in Hf. lia.
  - destruct ps as [|[k x] ps']; [reflexivity|].
    rewrite stringify_obj, !string_app_assoc, !string_app_one.
    destruct (stringify_members_head k x ps') as (t & Ht).
    rewrite Ht, string_app_cons. simpl. rewrite <- string_app_cons, <- Ht.
    rewrite parse_members_back; try done. rewrite need_obj in Hf. lia.
Qed.

(** ** The input's length is enough fuel *)

Ltac slen := repeat first [rewrite string_length_app | progress cbn [String.length]].

Definition fits (v : jsval) : Prop :=
  json_value v = true -> need v <= String.length (stringify v).

Lemma need_elems_fits l :
  Forall fits l -> forallb json_value l = true ->
  need_elems l <= S (String.length (stringify_elems l)).
Proof.
  induction 1 as [|x l Hx Hl IH]; cbn [forallb need_elems]; [lia|].
  intros [Hjx Hjl]%andb_true_iff. specialize (Hx Hjx).
  destruct l as [|y l]; cbn [need_elems stringify_elems] in *; [lia|].
  rewrite !string_length_app. cbn [String.length]. specialize (IH Hjl). lia.
Qed.

Lemma need_members_fits ps :
  Forall (fun kv => fits (snd kv)) ps -> forallb (fun kv => json_value (snd kv)) ps = true ->
  need_members ps <= S (String.length (stringify_members ps)).
Proof.
  induction 1 as [|[k x] ps Hx Hps IH]; cbn [forallb snd need_members] in *; [lia|].
  intros [Hjx Hjps]%andb_true_iff. specialize (Hx Hjx).
  destruct ps as [|[k' y] ps]; cbn [need_members stringify_members] in *;
    rewrite quote_app; slen; [lia|].
  specialize (IH Hjps). lia.
Qed.

Lemma stringify_fits v : fits v.
Proof.
  induction v as [| |b|n| |s|l Hl|ps Hps|n m ps _|st b] using jsval_ind;
    unfold fits; intros Hj; cbn [json_value] in Hj; try discriminate.
  - cbn. lia.
  - destruct b; cbn; lia.
  - destruct (Z_to_string_head n) as (c & t & Ht & _). cbn [stringify need].
    rewrite Ht. cbn. lia.
  - cbn [stringify need]. unfold quote. cbn [String.length]. lia.
  - rewrite need_arr, stringify_arr, !string_length_app. cbn [String.length].
    pose proof (need_elems_fits l Hl Hj). lia.
  - rewrite need_obj, stringify_obj, !string_length_app. cbn [String.length].
    pose proof (need_members_fits ps Hps Hj). lia.
Qed.

(** ** The round trip *)

Theorem parse_stringify v : json_value v = true -> parse (stringify v) = Some v.
Proof.
  intros Hj. unfold parse.
  pose proof (stringify_fits v Hj) as Hn.
  rewrite <- (string_app_nil_r (stringify v)) at 2.
  rewrite (stringify_roundtrips v Hj) by side. reflexivity.
Qed.

(** [JSON.parse(JSON.stringify(v))] gives [v] back on JSON data. *)
Lemma json_parse_stringify v : json_value v = true -> json_parse (stringify v) = Normal v.
Proof. intros Hj. unfold json_parse. by rewrite parse_stringify. Qed.

(** The printer is injective on JSON data. *)
Lemma stringify_inj v w :
  json_value v = true -> json_value w = true -> stringify v = stringify w -> v = w.
Proof.
  intros Hv Hw H. apply (f_equal parse) in H.
  rewrite !parse_stringify in H by done. congruence.
Qed.
