(* ===== verification/Schema.v ===== *)
(** * Schemas of the JSON answers and the type safety of property access

    The handlers read fixed paths of the parsed answer ([data[0]],
    [data.results[0].name.first], [data.bpi.USD.rate], ...); reading a field
    of [undefined] throws a [TypeError].  A schema ([jty]) describes the
    answers for which those reads succeed: [TRec fs] is an object with at
    least the fields [fs] (other fields are allowed, as for an open record
    type), [TList1 t] a non-empty array of [t], [TStr] a string, [TAny]
    anything.  [has_type v t] is the typing relation, [type_check] its
    executable decision procedure ([type_check_spec], [Decision] instance).

    [get_path_typed] is the type safety of property access: along a path
    the schema allows ([path_type]), [get_path] on a well-typed value never
    throws and returns a value of the path's type. *)

From stdpp Require Import base list strings.
From S2P Require Import Prelude JsValue.
Local Open Scope string_scope.

(** The nested induction principles are written by hand below. *)
Local Unset Elimination Schemes.

Inductive jty : Type :=
| TAny
| TStr
| TNum
| TBool
| TList1 (t : jty)
| TRec (fs : list (string * jty)).

(** The field [k] of [ps], as property access reads it. *)
Definition field (ps : list (string * jsval)) (k : string) : option jsval := assoc_last k ps.

Inductive has_type : jsval -> jty -> Prop :=
| ht_any v : has_type v TAny
| ht_str s : has_type (JStr s) TStr
| ht_num n : has_type (JNum n) TNum
| ht_bool b : has_type (JBool b) TBool
| ht_list1 x l t : Forall (fun y => has_type y t) (x :: l) -> has_type (JArr (x :: l)) (TList1 t)
| ht_rec ps fs :
    Forall (fun kt => exists w, field ps kt.1 = Some w /\ has_type w kt.2) fs ->
    has_type (JObj ps) (TRec fs).

Fixpoint type_check (t : jty) (v : jsval) : bool :=
  match t, v with
  | TAny, _ => true
  | TStr, JStr _ | TNum, JNum _ | TBool, JBool _ => true
  | TList1 t', JArr (x :: l) => forallb (type_check t') (x :: l)
  | TRec fs, JObj ps =>
      (fix go (fs : list (string * jty)) : bool :=
         match fs with
         | [] => true
         | (k, t') :: r =>
             match field ps k with Some w => type_check t' w | None => false end && go r
         end) fs
  | _, _ => false
  end.

(** Induction on schemas, through the fields of records. *)
Section JtyInd.
Variable P : jty -> Prop.
Hypothesis HAny : P TAny.
Hypothesis HStr : P TStr.
Hypothesis HNum : P TNum.
Hypothesis HBool : P TBool.
Hypothesis HList1 : forall t, P t -> P (TList1 t).
Hypothesis HRec : forall fs, Forall (fun kt => P kt.2) fs -> P (TRec fs).

Fixpoint jty_ind' (t : jty) : P t :=
  match t with
  | TAny => HAny
  | TStr => HStr
  | TNum => HNum
  | TBool => HBool
  | TList1 t' => HList1 t' (jty_ind' t')
  | TRec fs =>
      HRec fs ((fix go (fs : list (string * jty)) : Forall (fun kt => P kt.2) fs :=
                  match fs with
                  | [] => @List.Forall_nil _ _
                  | (k, t') :: r => @List.Forall_cons _ _ (k, t') r (jty_ind' t') (go r)
                  end) fs)
  end.
End JtyInd.

Lemma type_check_rec fs ps :
  type_check (TRec fs) (JObj ps) =
  forallb (fun kt => match field ps kt.1 with Some w => type_check kt.2 w | None => false end) fs.
Proof. induction fs as [|[k t] fs IH]; simpl; [done|]. by rewrite <- IH. Qed.

Lemma type_check_spec t v : type_check t v = true <-> has_type v t.
Proof.
  revert v. induction t as [| | | |t IH|fs IH] using jty_ind'; intros v.
  - split; [constructor|done].
  - split; [destruct v; try done; constructor|by inversion 1].
  - split; [destruct v; try done; constructor|by inversion 1].
  - split; [destruct v; try done; constructor|by inversion 1].
  - split.
    + destruct v as [| | | | | |[|x l]| | |]; try done. intros H. constructor.
      apply Forall_forall. intros y Hy. apply IH.
      apply forallb_forall with (x := y) in H; [done|]. by apply list_elem_of_In.
    + inversion 1 as [| | | |x l t' Hl| ]; subst.
      change (forallb (type_check t) (x :: l) = true). apply forallb_forall. intros y Hy. apply IH.
      rewrite Forall_forall in Hl. by apply Hl, list_elem_of_In.
  - split.
    + destruct v; try done. rewrite type_check_rec, forallb_forall. intros H.
      constructor. apply Forall_forall. intros [k t] Hkt.
      specialize (H (k, t) (proj1 (list_elem_of_In _ _) Hkt)). simpl in H.
      destruct (field _ k) as [w|] eqn:Hw; [|done]. exists w. split; [done|].
      rewrite Forall_forall in IH. by apply (IH (k, t) Hkt).
    + inversion 1 as [| | | | |ps fs' Hfs]; subst. rewrite type_check_rec, forallb_forall.
      intros [k t] Hkt%list_elem_of_In. rewrite Forall_forall in Hfs, IH.
      destruct (Hfs (k, t) Hkt) as (w & Hw & Ht). simpl in *. rewrite Hw.
      by apply (IH (k, t) Hkt).
Qed.

#[export] Instance has_type_dec v t : Decision (has_type v t).
Proof.
  destruct (type_check t v) eqn:H; [left; by apply type_check_spec|].
  right. intros Ht%type_check_spec. congruence.
Defined.

(** ** Paths *)

(** The schema of field [k] of a value of schema [t]. *)
Definition field_type (t : jty) (k : string) : option jty :=
  match t with
  | TRec fs => assoc_last k fs
  | TList1 t' => if String.eqb k "0" then Some t' else None
  | _ => None
  end.

Fixpoint path_type (t : jty) (ks : list string) : option jty :=
  match ks with
  | [] => Some t
  | k :: r => match field_type t k with Some t' => path_type t' r | None => None end
  end.

Lemma assoc_last_elem {A} k (l : list (string * A)) x : assoc_last k l = Some x -> (k, x) ∈ l.
Proof.
  induction l as [|[k' y] l IH]; simpl; [done|].
  destruct (assoc_last k l) as [w|] eqn:Hl.
  - intros [= ->]. right. by apply IH.
  - destruct (String.eqb_spec k k') as [->|]; [intros [= ->]; left|done].
Qed.

(** One property access on a well-typed value. *)
Lemma get_typed v t k t' :
  has_type v t -> field_type t k = Some t' -> exists w, get v k = Normal w /\ has_type w t'.
Proof.
  destruct 1 as [v|s|n|b|x l t0 Hl|ps fs Hfs]; simpl; try discriminate.
  - destruct (String.eqb_spec k "0") as [->|]; [intros [= <-]|discriminate].
    exists x. split; [reflexivity|]. by inversion Hl.
  - intros Hk%assoc_last_elem. rewrite Forall_forall in Hfs.
    destruct (Hfs _ Hk) as (w & Hw & Ht). exists w. unfold field in Hw. simpl in *.
    by rewrite Hw.
Qed.

(** Type safety of property access along a path. *)
Lemma get_path_typed v t ks t' :
  has_type v t -> path_type t ks = Some t' -> exists w, get_path v ks = Normal w /\ has_type w t'.
Proof.
  revert v t. induction ks as [|k ks IH]; intros v t Hv; simpl; [intros [= <-]; eauto|].
  destruct (field_type t k) as [t1|] eqn:Hk; [|discriminate]. intros Hp.
  destruct (get_typed v t k t1 Hv Hk) as (w & -> & Hw). by apply (IH w t1).
Qed.

(** A well-typed string is a string. *)
Lemma has_type_str v : has_type v TStr -> exists s, v = JStr s.
Proof. inversion 1; eauto. Qed.

(** One more access at the end of a path. *)
Lemma get_path_snoc v ks k :
  get_path v (ks ++ [k]) = match get_path v ks with Normal w => get w k | Throw e => Throw e end.
Proof.
  revert v. induction ks as [|k' ks IH]; intros v; simpl; [by destruct (get v k)|].
  destruct (get v k'); [apply IH|done].
Qed.
