(* ===== verification/Page.v ===== *)
(** * The page: DOM elements, console and error reports

    The state every handler of the demos changes.  The DOM is a finite map
    from element id to element (the demos reach every element through an id:
    [document.querySelector("#quote")], [$("#image")], the window's named
    property [avatar]); an element holds its content and its [src]
    attribute.  [globals] holds the properties scripts add to [window].
    The console is the list of logged values, and the error
    reports are the exceptions no JavaScript code caught.  The setters follow
    the WebIDL types of the DOM attributes and jQuery 3's [.text]/[.attr]. *)

From stdpp Require Import gmap.
From S2P Require Import Prelude JsValue.
Local Open Scope string_scope.

Inductive content : Type :=
| CText (s : string)     (** set through [innerText] or [textContent] *)
| CHtml (s : string).    (** set through [innerHTML]: markup, unparsed *)

Record element : Type := mkElement {
  el_content : content;
  el_src : option string
}.

(** An exception that reached the event loop: thrown by an event handler,
    or the reason of a promise rejection no handler caught. *)
Inductive report : Type :=
| Uncaught (e : jsval)
| Unhandled (e : jsval).

Record page : Type := mkPage {
  dom : gmap string element;
  globals : gmap string jsval;   (** properties of [window] set by scripts *)
  console : list jsval;
  reports : list report
}.

Definition with_dom (s : page) (d : gmap string element) : page :=
  mkPage d (globals s) (console s) (reports s).

(** ** DOM setters *)

(** A DOMString attribute marked [LegacyNullToEmptyString] ([innerHTML],
    [innerText]; [textContent] is nullable): null becomes the empty string,
    every other value its ToString. *)
Definition dom_string (v : jsval) : string :=
  match v with JNull => "" | _ => to_string v end.

Definition set_error (what : string) : jsval :=
  type_error ("Cannot set properties of null (setting '" ++ what ++ "')").

(** [el.prop = v] for an element held in a variable initialised by
    [document.querySelector("#id")]: when the page has no such element the
    variable is [null] and the assignment throws. *)
Definition set_content (what : string) (mk : string -> content) (id : string) (v : jsval)
  : M page jsval jsval :=
  fun s => match dom s !! id with
           | Some e => (with_dom s (<[id := mkElement (mk (dom_string v)) (el_src e)]> (dom s)),
                        Normal JUndefined)
           | None => (s, Throw (set_error what))
           end.

Definition set_innerHTML : string -> jsval -> M page jsval jsval := set_content "innerHTML" CHtml.
Definition set_innerText : string -> jsval -> M page jsval jsval := set_content "innerText" CText.
Definition set_textContent : string -> jsval -> M page jsval jsval := set_content "textContent" CText.

(** [img.src = v] through the window's named property [id]: a missing
    element is an undeclared variable, a [ReferenceError].  [src] is a
    USVString without null conversion: null becomes ["null"]. *)
Definition set_src_named (id : string) (v : jsval) : M page jsval jsval :=
  fun s => match dom s !! id with
           | Some e => (with_dom s (<[id := mkElement (el_content e) (Some (to_string v))]> (dom s)),
                        Normal JUndefined)
           | None => (s, Throw (JError "ReferenceError" (id ++ " is not defined") []))
           end.

(** Resolving the window's named property [id] as the base of an
    assignment target: a missing element is an undeclared variable, and
    the [ReferenceError] is thrown before the right-hand side is
    evaluated. *)
Definition resolve_named (id : string) : M page jsval jsval :=
  fun s => match dom s !! id with
           | Some _ => (s, Normal JUndefined)
           | None => (s, Throw (JError "ReferenceError" (id ++ " is not defined") []))
           end.

(** jQuery's [$("#id").text(v)]: an empty selection does nothing; [undefined]
    makes the call a getter, which changes nothing; otherwise [textContent]
    is set on the element. *)
Definition jq_text (id : string) (v : jsval) : M page jsval jsval :=
  fun s => match v, dom s !! id with
           | JUndefined, _ | _, None => (s, Normal JUndefined)
           | _, Some e =>
               (with_dom s (<[id := mkElement (CText (dom_string v)) (el_src e)]> (dom s)),
                Normal JUndefined)
           end.

(** jQuery's [$("#id").attr("src", v)]: [undefined] is a getter call, [null]
    removes the attribute, any other value is set as [v + ""]. *)
Definition jq_attr_src (id : string) (v : jsval) : M page jsval jsval :=
  fun s => match v, dom s !! id with
           | JUndefined, _ | _, None => (s, Normal JUndefined)
           | JNull, Some e =>
               (with_dom s (<[id := mkElement (el_content e) None]> (dom s)), Normal JUndefined)
           | _, Some e =>
               (with_dom s (<[id := mkElement (el_content e) (Some (to_string v))]> (dom s)),
                Normal JUndefined)
           end.

(** [console.log(v)]. *)
Definition console_log (v : jsval) : M page jsval jsval :=
  fun s => (mkPage (dom s) (globals s) (console s ++ [v]) (reports s), Normal JUndefined).

(** An assignment to an undeclared name in sloppy mode, or a top-level
    [var]: a property of the global object. *)
Definition set_global (x : string) (v : jsval) : M page jsval jsval :=
  fun s => (mkPage (dom s) (<[x := v]> (globals s)) (console s) (reports s), Normal JUndefined).

Definition add_report (r : report) (s : page) : page :=
  mkPage (dom s) (globals s) (console s) (reports s ++ [r]).

(** ** Lemmas on the setters *)

Lemma set_content_found what mk id v s e :
  dom s !! id = Some e ->
  set_content what mk id v s =
  (with_dom s (<[id := mkElement (mk (dom_string v)) (el_src e)]> (dom s)), Normal JUndefined).
Proof. intros H. unfold set_content. by rewrite H. Qed.

Lemma set_content_missing what mk id v s :
  dom s !! id = None -> set_content what mk id v s = (s, Throw (set_error what)).
Proof. intros H. unfold set_content. by rewrite H. Qed.

Lemma resolve_named_found id s : is_Some (dom s !! id) -> resolve_named id s = (s, Normal JUndefined).
Proof. intros [e He]. unfold resolve_named. by rewrite He. Qed.

Lemma resolve_named_missing id s :
  dom s !! id = None ->
  resolve_named id s = (s, Throw (JError "ReferenceError" (id ++ " is not defined") [])).
Proof. intros He. unfold resolve_named. by rewrite He. Qed.

Lemma console_log_run v s :
  console_log v s = (mkPage (dom s) (globals s) (console s ++ [v]) (reports s), Normal JUndefined).
Proof. reflexivity. Qed.

#[export] Hint Rewrite console_log_run : js_rw.

(** The same updates read as [alter]: they keep the set of element ids. *)
Definition retext (mk : string -> content) (x : string) (e : element) : element :=
  mkElement (mk x) (el_src e).
Definition resrc (x : string) (e : element) : element :=
  mkElement (el_content e) (Some x).

Lemma set_content_alter what mk id v s :
  is_Some (dom s !! id) ->
  set_content what mk id v s =
  (with_dom s (alter (retext mk (dom_string v)) id (dom s)), Normal JUndefined).
Proof.
  intros [e He]. rewrite (set_content_found _ _ _ _ _ e He). do 3 f_equal.
  apply map_eq. intros j. rewrite lookup_alter, lookup_insert, He.
  by case_decide.
Qed.

Lemma set_src_named_alter id v s :
  is_Some (dom s !! id) ->
  set_src_named id v s = (with_dom s (alter (resrc (to_string v)) id (dom s)), Normal JUndefined).
Proof.
  intros [e He]. unfold set_src_named. rewrite He. do 3 f_equal.
  apply map_eq. intros j. rewrite lookup_alter, lookup_insert, He.
  by case_decide.
Qed.
