(* ===== verification/Promise.v ===== *)
(** * Promises and event handlers over the page

    [JS] is the monad of JavaScript code run on the page: it may change the
    page and it ends in a value or a thrown one.  A settled promise is a
    [JS] computation whose [Throw] is the rejection reason: [.then(f)] runs
    [f] on a fulfilled value and passes a rejection on, [.catch(h)] runs [h]
    on a rejection and passes a value on; a reaction that throws rejects the
    derived promise, and a reaction that returns a promise is flattened
    (every reaction here already is a [JS] computation).  Within one click
    the reactions of a chain run one after the other with nothing in
    between, so the chain's final page is its sequential composition.

    At the end of a chain ([run_chain]) a rejection nobody caught is
    reported as an unhandled rejection; an exception escaping an event
    handler ([dispatch]) is reported as uncaught, and the event loop goes
    on. *)

From S2P Require Import Prelude JsValue Page.
Local Open Scope js_scope.

Abbreviation JS := (M page jsval jsval).

(** [p.then(f)] *)
Definition then_ (p : JS) (f : jsval -> JS) : JS := bind p f.

(** [p.catch(h)] *)
Definition catch_ (p : JS) (h : jsval -> JS) : JS := catch p h.

(** A promise chain left to settle: its final page, with the unhandled
    rejection reported. *)
Definition run_chain (p : JS) (s : page) : page :=
  match p s with
  | (s', Normal _) => s'
  | (s', Throw e) => add_report (Unhandled e) s'
  end.

(** An event handler run by the event loop. *)
Definition dispatch (h : JS) (s : page) : page :=
  match h s with
  | (s', Normal _) => s'
  | (s', Throw e) => add_report (Uncaught e) s'
  end.

(** ** Laws of the reactions *)

Lemma then_throw e f s : then_ (throw e) f s = (s, Throw e).
Proof. reflexivity. Qed.

Lemma then_ret v f s : then_ (ret v) f s = f v s.
Proof. reflexivity. Qed.

Lemma catch_throw_ e h s : catch_ (throw e) h s = h e s.
Proof. reflexivity. Qed.

Lemma catch_ret_ v h s : catch_ (ret v) h s = (s, Normal v).
Proof. reflexivity. Qed.

(** A chain that ends in [.catch(h)] with a handler that does not throw
    never reports an unhandled rejection. *)
Lemma run_chain_catch_total p h s :
  (forall e s0, exists s1 v, h e s0 = (s1, Normal v)) ->
  exists s' v, catch_ p h s = (s', Normal v) /\ run_chain (catch_ p h) s = s'.
Proof.
  intros Hh. unfold run_chain, catch_, catch.
  destruct (p s) as [s0 [a|e]].
  - by exists s0, a.
  - destruct (Hh e s0) as (s1 & v & ->). by exists s1, v.
Qed.

Lemma run_chain_normal p s s' v : p s = (s', Normal v) -> run_chain p s = s'.
Proof. intros H. unfold run_chain. by rewrite H. Qed.

Lemma run_chain_throw p s s' e :
  p s = (s', Throw e) -> run_chain p s = add_report (Unhandled e) s'.
Proof. intros H. unfold run_chain. by rewrite H. Qed.

Lemma dispatch_normal h s s' v : h s = (s', Normal v) -> dispatch h s = s'.
Proof. intros H. unfold dispatch. by rewrite H. Qed.

Lemma dispatch_throw h s s' e :
  h s = (s', Throw e) -> dispatch h s = add_report (Uncaught e) s'.
Proof. intros H. unfold dispatch. by rewrite H. Qed.

(** ** Page code does not write the error reports

    Only the event loop ([run_chain], [dispatch]) adds a report; every
    operation of the page leaves them as they are. *)

Definition keeps_reports (c : JS) : Prop := forall s, reports (fst (c s)) = reports s.

Lemma ret_keeps v : keeps_reports (ret v).
Proof. done. Qed.
Lemma throw_keeps e : keeps_reports (throw e).
Proof. done. Qed.
Lemma lift_keeps c : keeps_reports (lift c).
Proof. done. Qed.
Lemma console_log_keeps v : keeps_reports (console_log v).
Proof. done. Qed.
Lemma set_content_keeps what mk id v : keeps_reports (set_content what mk id v).
Proof. intros s. unfold set_content. by destruct (dom s !! id). Qed.
Lemma set_innerHTML_keeps id v : keeps_reports (set_innerHTML id v).
Proof. apply set_content_keeps. Qed.
Lemma set_innerText_keeps id v : keeps_reports (set_innerText id v).
Proof. apply set_content_keeps. Qed.
Lemma set_textContent_keeps id v : keeps_reports (set_textContent id v).
Proof. apply set_content_keeps. Qed.
Lemma set_src_named_keeps id v : keeps_reports (set_src_named id v).
Proof. intros s. unfold set_src_named. by destruct (dom s !! id). Qed.
Lemma resolve_named_keeps id : keeps_reports (resolve_named id).
Proof. intros s. unfold resolve_named. by destruct (dom s !! id). Qed.
Lemma jq_text_keeps id v : keeps_reports (jq_text id v).
Proof. intros s. unfold jq_text. by destruct v, (dom s !! id). Qed.
Lemma jq_attr_src_keeps id v : keeps_reports (jq_attr_src id v).
Proof. intros s. unfold jq_attr_src. by destruct v, (dom s !! id). Qed.
Lemma set_global_keeps x v : keeps_reports (set_global x v).
Proof. done. Qed.

Lemma bind_keeps c k :
  keeps_reports c -> (forall a, keeps_reports (k a)) -> keeps_reports (bind c k).
Proof.
  intros Hc Hk s. unfold bind. specialize (Hc s).
  destruct (c s) as [s' [a|e]]; simpl in *; [by rewrite Hk|done].
Qed.

Lemma catch_keeps c h :
  keeps_reports c -> (forall e, keeps_reports (h e)) -> keeps_reports (catch c h).
Proof.
  intros Hc Hh s. unfold catch. specialize (Hc s).
  destruct (c s) as [s' [a|e]]; simpl in *; [done|by rewrite Hh].
Qed.

Lemma if_keeps (b : bool) c1 c2 :
  keeps_reports c1 -> keeps_reports c2 -> keeps_reports (if b then c1 else c2).
Proof. by destruct b. Qed.

#[export] Hint Resolve ret_keeps throw_keeps lift_keeps console_log_keeps set_content_keeps
  set_innerHTML_keeps set_innerText_keeps set_textContent_keeps
  set_src_named_keeps resolve_named_keeps jq_text_keeps jq_attr_src_keeps set_global_keeps if_keeps : js.

(** Prove [keeps_reports] of a computation built from the page operations. *)
Ltac keeps :=
  repeat (intros; first [ apply bind_keeps | apply catch_keeps | apply if_keeps
                        | progress (unfold then_, catch_) ]);
  auto with js.

(** A chain whose handlers never throw ends without a report. *)
Lemma run_chain_keeps p s :
  keeps_reports p -> (exists v, snd (p s) = Normal v) -> reports (run_chain p s) = reports s.
Proof.
  intros Hk [v Hv]. unfold run_chain. specialize (Hk s).
  destruct (p s) as [s' c]; simpl in *; by subst.
Qed.

#[export] Hint Rewrite then_throw then_ret catch_throw_ catch_ret_ : js_rw.
