(* ===== verification/Net.v ===== *)
(** * The network and three promise-style transports

    A request's reply is decided by the environment: [network] maps a URL to
    a [net_reply], either a transport failure (DNS, refused connection) or
    an HTTP reply with its status, Content-Type and body text.  This is the
    mocked transport of the specification's testable properties, and it is
    deterministic: the same URL always gets the same reply.

    The transports are the platform and library functions the demos call:
    - [fetch(url)]: fulfils with a [Response] for every HTTP reply, whatever
      its status, and rejects with a [TypeError] on a transport failure;
      [response.json()] parses the body or rejects with a [SyntaxError];
    - [axios.get(url)] (axios 1.x defaults): the body is passed through
      [JSON.parse] and silently kept as a string when it is not JSON; the
      promise fulfils with [{data, status, ...}] when [validateStatus]
      (200 to 299) holds and rejects with an [AxiosError] carrying
      [response] otherwise, or carrying only [request] on a transport
      failure;
    - jQuery 3's [$.get(url)]: success for 200 to 299 and 304; the data is
      converted by the Content-Type ("json" parses, a parse failure is a
      ["parsererror"] failure, other types give the text); a 204 or 304
      success carries no data.  Its callbacks run inside the transport's
      load event, so an exception thrown by one is uncaught. *)

From S2P Require Import Prelude JsValue Json Page Promise.
Local Open Scope string_scope.
Local Open Scope js_scope.

Inductive net_reply : Type :=
| NetFailure
| Reply (status : Z) (content_type : string) (body : string).

Definition network : Type := string -> net_reply.

Definition ok_status (st : Z) : bool := ((200 <=? st) && (st <=? 299))%Z.

(** ** fetch *)

Definition fetch (net : network) (url : string) : JS :=
  match net url with
  | NetFailure => throw (type_error "Failed to fetch")
  | Reply st _ body => ret (JResponse st body)
  end.

(** [response.json()] *)
Definition response_json (r : jsval) : JS :=
  match r with
  | JResponse _ body => lift (json_parse body)
  | _ => throw (type_error "response.json is not a function")
  end.

(** ** axios *)

Definition axios_data (body : string) : jsval :=
  if String.eqb body "" then JStr ""
  else match parse body with Some v => v | None => JStr body end.

Definition axios_response (st : Z) (ct body : string) : jsval :=
  JObj [("data", axios_data body); ("status", JNum st);
        ("headers", JObj [("content-type", JStr ct)]); ("request", JObj [])].

Definition axios_get (net : network) (url : string) : JS :=
  match net url with
  | NetFailure =>
      throw (JError "AxiosError" "Network Error"
               [("code", JStr "ERR_NETWORK"); ("request", JObj [])])
  | Reply st ct body =>
      if ok_status st then ret (axios_response st ct body)
      else throw (JError "AxiosError" ("Request failed with status code " ++ Z_to_string st)
                    [("request", JObj []); ("response", axios_response st ct body)])
  end.

(** ** jQuery *)

Fixpoint contains (needle hay : string) : bool :=
  match strip_prefix needle hay with
  | Some _ => true
  | None => match hay with EmptyString => false | String _ r => contains needle r end
  end.

Definition jq_success (st : Z) : bool := ok_status st || (st =? 304)%Z.

Definition jq_xhr (st : Z) (text : string) : jsval :=
  JObj [("readyState", JNum 4); ("status", JNum st); ("statusText", JStr text)].

(** The settled [$.get] request: [Normal data] runs the [done] callbacks,
    [Throw jqXHR] the [fail] callbacks. *)
Definition jq_result (r : net_reply) : completion :=
  match r with
  | NetFailure => Throw (jq_xhr 0 "error")
  | Reply st ct body =>
      if jq_success st then
        if (st =? 204)%Z || (st =? 304)%Z then Normal JUndefined
        else if contains "json" ct then
          match parse body with
          | Some v => Normal v
          | None => Throw (jq_xhr st "parsererror")
          end
        else Normal (JStr body)
      else Throw (jq_xhr st "error")
  end.

(** [$.get(url).done(ok).fail(ko)]: the callback runs as part of the
    request's load event. *)
Definition jq_get (net : network) (url : string) (ok ko : jsval -> JS) : page -> page :=
  dispatch (match jq_result (net url) with
            | Normal data => ok data
            | Throw x => ko x
            end).

(** ** Lemmas *)

Lemma fetch_failure net url :
  net url = NetFailure -> forall s, fetch net url s = (s, Throw (type_error "Failed to fetch")).
Proof. intros H s. unfold fetch. by rewrite H. Qed.

Lemma fetch_reply net url st ct body :
  net url = Reply st ct body -> forall s, fetch net url s = (s, Normal (JResponse st body)).
Proof. intros H s. unfold fetch. by rewrite H. Qed.

Lemma get_response_ok st body :
  get (JResponse st body) "ok" = Normal (JBool (ok_status st)).
Proof. reflexivity. Qed.

Lemma get_axios_response_data st ct body :
  get (axios_response st ct body) "data" = Normal (axios_data body).
Proof. reflexivity. Qed.
