(* ===== verification/Xhr.v ===== *)
(** * XMLHttpRequest: the readyState machine

    The object the two XHR handlers of the demos poll
    ([ron-swanson.js] lines 8-19, [price-checker.js] lines 4-16).  Its state
    is [readyState] (0 UNSENT, 1 OPENED, 2 HEADERS_RECEIVED, 3 LOADING,
    4 DONE), [status] and the response text received so far.  After the
    XHR standard: [open()] moves to OPENED; the reply's headers move to
    HEADERS_RECEIVED and set the status; each body chunk moves to LOADING
    and appends to the text; the end of the body moves to DONE; a network
    error moves to DONE with status 0 and an empty response.  Every one of
    these transitions fires [readystatechange], so the handler runs once per
    event: once for [open()], once for the headers, once per chunk, once at
    the end.

    The machine is a step relation [xhr_step] with its executable twin
    [xhr_apply]; [reply_events] is the event sequence a reply produces for a
    given chunking of its body, and [xhr_request] runs a handler over the
    whole sequence. *)

From S2P Require Import Prelude JsValue Page Promise Net.
Local Open Scope string_scope.

Record xhr : Type := mkXhr {
  ready_state : nat;
  xstatus : Z;
  response_text : string
}.

Definition xhr_unsent : xhr := mkXhr 0 0 "".

Inductive xhr_event : Type :=
| EvOpen
| EvHeaders (status : Z)
| EvChunk (chunk : string)
| EvDone
| EvError.

Inductive xhr_step : xhr -> xhr_event -> xhr -> Prop :=
| step_open x :
    ready_state x = 0 -> xhr_step x EvOpen (mkXhr 1 0 "")
| step_headers x st :
    ready_state x = 1 -> xhr_step x (EvHeaders st) (mkXhr 2 st "")
| step_chunk x c :
    ready_state x = 2 \/ ready_state x = 3 ->
    xhr_step x (EvChunk c) (mkXhr 3 (xstatus x) (response_text x ++ c))
| step_done x :
    ready_state x = 2 \/ ready_state x = 3 ->
    xhr_step x EvDone (mkXhr 4 (xstatus x) (response_text x))
| step_error x :
    (1 <= ready_state x <= 3)%nat -> xhr_step x EvError (mkXhr 4 0 "").

Definition receiving (x : xhr) : bool := ((ready_state x =? 2) || (ready_state x =? 3))%nat.

Definition xhr_apply (x : xhr) (e : xhr_event) : option xhr :=
  match e with
  | EvOpen => if (ready_state x =? 0)%nat then Some (mkXhr 1 0 "") else None
  | EvHeaders st => if (ready_state x =? 1)%nat then Some (mkXhr 2 st "") else None
  | EvChunk c =>
      if receiving x then Some (mkXhr 3 (xstatus x) (response_text x ++ c)) else None
  | EvDone => if receiving x then Some (mkXhr 4 (xstatus x) (response_text x)) else None
  | EvError => if ((1 <=? ready_state x) && (ready_state x <=? 3))%nat then Some (mkXhr 4 0 "")
               else None
  end.

Fixpoint join_chunks (cs : list string) : string :=
  match cs with [] => "" | c :: r => c ++ join_chunks r end.

(** The events of one request after [open()]: a transport failure is a
    network error; an HTTP reply is its headers, its body in [chunks], and
    its end. *)
Definition reply_events (r : net_reply) (chunks : list string) : list xhr_event :=
  match r with
  | NetFailure => [EvError]
  | Reply st _ _ => EvHeaders st :: map EvChunk chunks ++ [EvDone]
  end.

(** [chunks] is a way the reply's body can arrive. *)
Definition chunking (r : net_reply) (chunks : list string) : Prop :=
  match r with
  | NetFailure => True
  | Reply _ _ body => join_chunks chunks = body
  end.

(** The state the request ends in. *)
Definition final_xhr (r : net_reply) : xhr :=
  match r with
  | NetFailure => mkXhr 4 0 ""
  | Reply st _ body => mkXhr 4 st body
  end.

(** Run the [readystatechange] handler after each event. *)
Fixpoint xhr_run (h : xhr -> JS) (x : xhr) (evs : list xhr_event) (s : page) : xhr * page :=
  match evs with
  | [] => (x, s)
  | e :: r =>
      match xhr_apply x e with
      | Some x' => xhr_run h x' r (dispatch (h x') s)
      | None => (x, s)
      end
  end.

(** [XHR.open("GET", url); XHR.send()] with the handler installed, and the
    reply's events. *)
Definition xhr_request (h : xhr -> JS) (net : network) (url : string) (chunks : list string)
    (s : page) : page :=
  snd (xhr_run h xhr_unsent (EvOpen :: reply_events (net url) chunks) s).

(** ** The step relation and its executable form agree *)

Lemma xhr_apply_step x e y : xhr_apply x e = Some y <-> xhr_step x e y.
Proof.
  destruct x as [rs st t]. split.
  - destruct e; destruct rs as [|[|[|[|[|rs]]]]]; simpl; intros H; simplify_eq;
      constructor; simpl; lia.
  - inversion 1; subst; simpl in *;
      repeat match goal with H : _ \/ _ |- _ => destruct H end; subst; try reflexivity.
    destruct rs as [|[|[|[|rs]]]]; simpl; reflexivity || lia.
Qed.

(** DONE is terminal: no event moves the machine out of it. *)
Lemma xhr_done_terminal x e : ready_state x = 4 -> xhr_apply x e = None.
Proof.
  intros H. destruct e; simpl; unfold receiving; rewrite H; reflexivity.
Qed.

(** The machine is deterministic. *)
Lemma xhr_step_det x e y y' : xhr_step x e y -> xhr_step x e y' -> y = y'.
Proof. intros H1 H2. apply xhr_apply_step in H1, H2. congruence. Qed.

(** ** The states reachable from UNSENT

    By rule induction on the transitions: the state number stays within
    0-4, the status is 0 until the headers arrive, and the text is empty
    until the first chunk. *)

Definition xhr_any (x y : xhr) : Prop := exists e, xhr_step x e y.

Definition xhr_wf (x : xhr) : Prop :=
  (ready_state x <= 4)%nat /\
  ((ready_state x <= 1)%nat -> xstatus x = 0%Z) /\
  ((ready_state x <= 2)%nat -> response_text x = "").

Lemma xhr_step_wf x e y : xhr_wf x -> xhr_step x e y -> xhr_wf y.
Proof.
  intros (H4 & Hs & Ht) Hst. inversion Hst; subst; unfold xhr_wf; simpl; repeat split;
    try lia; try done; intros; lia.
Qed.

Lemma xhr_reachable_wf w : star xhr_any xhr_unsent w -> xhr_wf w.
Proof.
  assert (Hgen : forall x y, star xhr_any x y -> xhr_wf x -> xhr_wf y).
  { intros x y. induction 1 as [|a b c [e Hs] _ IH]; [done|]. intros Ha. apply IH.
    exact (xhr_step_wf _ _ _ Ha Hs). }
  intros H. apply (Hgen _ _ H). unfold xhr_wf; simpl; repeat split; lia.
Qed.

(** ** Running a handler that acts only at DONE

    The two XHR handlers test [readyState == 4] first and do nothing
    otherwise.  Such a handler runs to an effect exactly once per request,
    on the final state. *)

Section DoneOnly.
Variable h : xhr -> JS.
Hypothesis h_idle : forall x s, ready_state x <> 4 -> h x s = (s, Normal JUndefined).

Lemma dispatch_idle x s : ready_state x <> 4 -> dispatch (h x) s = s.
Proof. intros Hx. unfold dispatch. by rewrite h_idle. Qed.

Lemma xhr_run_body x cs s :
  receiving x = true ->
  xhr_run h x (map EvChunk cs ++ [EvDone]) s
  = (mkXhr 4 (xstatus x) (response_text x ++ join_chunks cs),
     dispatch (h (mkXhr 4 (xstatus x) (response_text x ++ join_chunks cs))) s).
Proof.
  revert x s. induction cs as [|c cs IH]; intros x s Hx; simpl; rewrite Hx.
  - by rewrite string_app_nil_r.
  - rewrite dispatch_idle by (simpl; lia).
    rewrite IH by reflexivity. simpl. by rewrite string_app_assoc.
Qed.

(** Whatever the reply and however its body is cut into chunks, the
    request's effect on the page is one run of the handler on the final
    state. *)
Theorem xhr_request_done_once net url cs s :
  chunking (net url) cs ->
  xhr_request h net url cs s = dispatch (h (final_xhr (net url))) s.
Proof.
  unfold xhr_request, chunking, final_xhr. intros Hc. simpl.
  rewrite dispatch_idle by (simpl; lia).
  destruct (net url) as [|st ct body]; simpl.
  - reflexivity.
  - rewrite dispatch_idle by (simpl; lia).
    rewrite xhr_run_body by reflexivity. simpl. by rewrite Hc.
Qed.
End DoneOnly.
