(* ===== verification/Lifecycle.v ===== *)
(** * The request-lifecycle contract of the specification

    The specification normalises the four transports into one contract:
    [issue(url)] settles exactly once to a SuccessResult [{status, body}]
    (status 200 to 299 and a body that is JSON) or to a FailureResult
    [{kind, detail}] with kind NetworkError (no reply), HttpError (detail:
    the status) or ParseError; per request the states are
    [Idle -> InFlight -> {Succeeded, Failed}], the last two terminal.

    This file states that contract abstractly ([issue], [lstep]) and relates
    the XMLHttpRequest machine to it by an abstraction function
    ([xhr_phase]) and a stuttering simulation.  The demos' files relate
    their handlers to [issue]. *)

From S2P Require Import Prelude JsValue Json Page Promise Net Xhr.
Local Open Scope string_scope.

Inductive failure_kind : Type :=
| NetworkError
| HttpError
| ParseError.

Inductive outcome : Type :=
| SuccessResult (status : Z) (body : jsval)
| FailureResult (kind : failure_kind) (detail : string).

(** The classification of a reply (section 4.1 of the specification). *)
Definition issue (r : net_reply) : outcome :=
  match r with
  | NetFailure => FailureResult NetworkError ""
  | Reply st _ body =>
      if ok_status st then
        match parse body with
        | Some v => SuccessResult st v
        | None => FailureResult ParseError ""
        end
      else FailureResult HttpError (Z_to_string st)
  end.

(** ** The lifecycle machine *)

Inductive lstate : Type := Idle | InFlight | Succeeded | Failed.

Inductive lstep : lstate -> lstate -> Prop :=
| l_issue : lstep Idle InFlight
| l_succeed : lstep InFlight Succeeded
| l_fail : lstep InFlight Failed.

Definition terminal (q : lstate) : bool :=
  match q with Succeeded | Failed => true | _ => false end.

Definition outcome_state (o : outcome) : lstate :=
  match o with SuccessResult _ _ => Succeeded | FailureResult _ _ => Failed end.

Lemma terminal_no_step q q' : terminal q = true -> ~ lstep q q'.
Proof. destruct q; simpl; intros H Hs; inversion Hs; discriminate. Qed.

(** ** XMLHttpRequest as an implementation of the lifecycle *)

(** The lifecycle phase an XHR state stands for: UNSENT is Idle, OPENED to
    LOADING are InFlight, DONE is Succeeded exactly when the status is a
    success and the text is JSON. *)
Definition xhr_phase (x : xhr) : lstate :=
  match ready_state x with
  | 0 => Idle
  | 1 | 2 | 3 => InFlight
  | _ => if ok_status (xstatus x) then
           match parse (response_text x) with Some _ => Succeeded | None => Failed end
         else Failed
  end.

(** Every XHR transition is a lifecycle transition or a stutter. *)
Lemma xhr_step_simulates x e y :
  xhr_step x e y -> xhr_phase x = xhr_phase y \/ lstep (xhr_phase x) (xhr_phase y).
Proof.
  unfold xhr_phase. inversion 1; subst; simpl;
    repeat match goal with H : _ \/ _ |- _ => destruct H as [H|H] end;
    repeat match goal with H : ready_state _ = _ |- _ => rewrite H end;
    try (left; reflexivity).
  - right. constructor.
  - right. destruct (ok_status (xstatus x)); [destruct (parse _)|]; constructor.
  - right. destruct (ok_status (xstatus x)); [destruct (parse _)|]; constructor.
  - right. destruct (ready_state x) as [|[|[|[|n]]]]; try lia; constructor.
Qed.

(** A lifecycle step or a stutter. *)
Definition lstep_or_stay (q q' : lstate) : Prop := q = q' \/ lstep q q'.

(** The machine alone, over a sequence of events; [None] when an event is
    not allowed in the state reached. *)
Fixpoint xhr_apply_all (x : xhr) (evs : list xhr_event) : option xhr :=
  match evs with
  | [] => Some x
  | e :: r => match xhr_apply x e with Some y => xhr_apply_all y r | None => None end
  end.

Lemma xhr_apply_all_star x evs y : xhr_apply_all x evs = Some y -> star xhr_any x y.
Proof.
  revert x. induction evs as [|e evs IH]; intros x; simpl.
  - intros [= <-]. constructor.
  - destruct (xhr_apply x e) as [x'|] eqn:Hx; [|discriminate]. intros Hr.
    apply xhr_apply_step in Hx. eapply star_step; [by exists e|]. by apply IH.
Qed.

Lemma xhr_star_simulates x y :
  star xhr_any x y -> star lstep_or_stay (xhr_phase x) (xhr_phase y).
Proof.
  induction 1 as [|a b c [e Hs] _ IH]; [constructor|].
  eapply star_step; [exact (xhr_step_simulates _ _ _ Hs)|exact IH].
Qed.

Lemma xhr_apply_all_body x cs :
  receiving x = true ->
  xhr_apply_all x (map EvChunk cs ++ [EvDone])
  = Some (mkXhr 4 (xstatus x) (response_text x ++ join_chunks cs)).
Proof.
  revert x. induction cs as [|c cs IH]; intros x Hx; simpl; rewrite Hx.
  - by rewrite string_app_nil_r.
  - rewrite IH by reflexivity. simpl. by rewrite string_app_assoc.
Qed.

(** The events of any reply, however its body is chunked, drive the machine
    from UNSENT to [final_xhr]. *)
Lemma xhr_apply_all_reply r cs :
  chunking r cs -> xhr_apply_all xhr_unsent (EvOpen :: reply_events r cs) = Some (final_xhr r).
Proof.
  destruct r as [|st ct body]; simpl; [reflexivity|]. intros Hc.
  rewrite xhr_apply_all_body by reflexivity. simpl. by rewrite Hc.
Qed.

(** DONE classifies the reply as the contract does. *)
Lemma xhr_phase_final r : xhr_phase (final_xhr r) = outcome_state (issue r).
Proof.
  destruct r as [|st ct body]; [reflexivity|]. unfold xhr_phase, issue. cbn -[parse].
  destruct (ok_status st); [destruct (parse body)|]; reflexivity.
Qed.

(** The XHR machine refines the lifecycle: the run over the events of any
    reply ends in a DONE state whose phase is the contract's outcome, and
    every step on the way is a lifecycle step or a stutter. *)
Lemma xhr_refines_lifecycle r cs :
  chunking r cs ->
  xhr_apply_all xhr_unsent (EvOpen :: reply_events r cs) = Some (final_xhr r) /\
  star xhr_any xhr_unsent (final_xhr r) /\
  star lstep_or_stay Idle (outcome_state (issue r)).
Proof.
  intros Hc. pose proof (xhr_apply_all_reply r cs Hc) as Hr.
  pose proof (xhr_apply_all_star _ _ _ Hr) as Hs. split; [done|split; [done|]].
  rewrite <- xhr_phase_final. exact (xhr_star_simulates _ _ Hs).
Qed.

(** Running a handler over the events follows the machine. *)
Lemma xhr_run_follows h x evs y s :
  xhr_apply_all x evs = Some y -> fst (xhr_run h x evs s) = y.
Proof.
  revert x s. induction evs as [|e evs IH]; intros x s; simpl; [by intros [= ->]|].
  destruct (xhr_apply x e) as [x'|]; [apply IH|discriminate].
Qed.
