(* ===== verification/Transport.v ===== *)
(** * What a promise-style transport promises its callbacks

    The demos reach the network through three promise-style transports:
    [fetch] (read the body with [response.json()]), [axios.get] (read
    [response.data]) and jQuery's [$.get] (the data is the callback's
    argument).  The class [Transport get data] states the part of the
    specification's lifecycle contract all three keep: the request leaves
    the page alone, a transport failure rejects, and a 2xx reply with a JSON
    Content-Type and a JSON body (other than 204 No Content, which has no
    body and for which jQuery passes no data) fulfils with a value from which [data]
    reads the parsed body.  A client chain [get(url).then(data).then(render)
    .catch(report)] is proved correct against the class once
    ([client_success], [client_network_error]).

    The stronger promises are separate classes, and the transports differ
    on them: [HttpErrorsReject] (a non-2xx status rejects) holds for axios
    only: fetch fulfils every HTTP reply and jQuery counts 304 as a
    success; [ParseErrorsReject] (a 2xx JSON-typed body that is not JSON
    fails) holds for fetch and jQuery and not for axios, which keeps the
    text.  This is why the demos' fetch chains carry a status check of
    their own. *)

From S2P Require Import Prelude JsValue Json Page Promise Net.
Local Open Scope string_scope.
Local Open Scope js_scope.

Class Transport (get : network -> string -> JS) (data : jsval -> JS) : Prop := {
  transport_network_error net url :
    net url = NetFailure -> exists e, forall s, get net url s = (s, Throw e);
  transport_json net url st ct body v :
    net url = Reply st ct body -> ok_status st = true -> st <> 204%Z -> contains "json" ct = true ->
    parse body = Some v ->
    exists x, (forall s, get net url s = (s, Normal x)) /\ (forall s, data x s = (s, Normal v))
}.

Class HttpErrorsReject (get : network -> string -> JS) : Prop :=
  http_error_rejects net url st ct body :
    net url = Reply st ct body -> ok_status st = false -> exists e, forall s, get net url s = (s, Throw e).

Class ParseErrorsReject (get : network -> string -> JS) (data : jsval -> JS) : Prop :=
  parse_error_rejects net url st ct body s :
    net url = Reply st ct body -> ok_status st = true -> st <> 204%Z -> contains "json" ct = true ->
    parse body = None -> exists e, then_ (get net url) data s = (s, Throw e).

(** ** The three transports *)

Definition axios_read (r : jsval) : JS := lift (get r "data").
Definition jq_promise (net : network) (url : string) : JS := lift (jq_result (net url)).

#[export] Instance fetch_transport : Transport fetch response_json.
Proof.
  split.
  - intros net url H. eexists. intros s. unfold fetch. by rewrite H.
  - intros net url st ct body v H _ _ _ Hp. exists (JResponse st body). split.
    + intros s. unfold fetch. by rewrite H.
    + intros s. unfold response_json, lift, json_parse. by rewrite Hp.
Qed.

#[export] Instance axios_transport : Transport axios_get axios_read.
Proof.
  split.
  - intros net url H. eexists. intros s. unfold axios_get. by rewrite H.
  - intros net url st ct body v H Hok _ _ Hp. exists (axios_response st ct body). split.
    + intros s. unfold axios_get. by rewrite H, Hok.
    + intros s. unfold axios_read, lift. rewrite get_axios_response_data. unfold axios_data.
      destruct (String.eqb_spec body ""); [by subst|]. by rewrite Hp.
Qed.

#[export] Instance jq_transport : Transport jq_promise ret.
Proof.
  split.
  - intros net url H. eexists. intros s. unfold jq_promise, lift. by rewrite H.
  - intros net url st ct body v H Hok H204 Hct Hp. exists v. split; [|done].
    intros s. unfold jq_promise, lift, jq_result, jq_success. rewrite H, Hok. simpl.
    destruct (Z.eqb_spec st 204); [done|].
    destruct (Z.eqb_spec st 304); [subst; discriminate|]. simpl. by rewrite Hct, Hp.
Qed.

#[export] Instance axios_rejects_http : HttpErrorsReject axios_get.
Proof. intros net url st ct body H Hok. eexists. intros s. unfold axios_get. by rewrite H, Hok. Qed.

#[export] Instance fetch_rejects_parse : ParseErrorsReject fetch response_json.
Proof.
  intros net url st ct body s H _ _ _ Hp. eexists.
  unfold then_, bind, fetch. rewrite H. unfold response_json, lift, json_parse.
  cbn -[parse]. by rewrite Hp.
Qed.

#[export] Instance jq_rejects_parse : ParseErrorsReject jq_promise ret.
Proof.
  intros net url st ct body s H Hok H204 Hct Hp. eexists.
  unfold then_, bind, jq_promise, lift, jq_result, jq_success. rewrite H, Hok. simpl.
  destruct (Z.eqb_spec st 204); [done|].
  destruct (Z.eqb_spec st 304); [subst; discriminate|]. simpl. by rewrite Hct, Hp.
Qed.

(** ** Where the transports differ *)

Definition any_page : page := mkPage ∅ ∅ [] [].

(** fetch fulfils with the [Response] of a 404. *)
Lemma fetch_fulfils_http_errors : ~ HttpErrorsReject fetch.
Proof.
  intros H. destruct (H (fun _ => Reply 404 "text/html" "") "" 404%Z "text/html" "")
    as [e He]; [done..|].
  specialize (He any_page). discriminate He.
Qed.

(** jQuery runs the [done] callbacks for a 304. *)
Lemma jq_succeeds_on_304 : ~ HttpErrorsReject jq_promise.
Proof.
  intros H. destruct (H (fun _ => Reply 304 "application/json" "") "" 304%Z "application/json" "")
    as [e He]; [done..|].
  specialize (He any_page). discriminate He.
Qed.

(** axios fulfils a 200 JSON-typed reply whose body is not JSON, with the
    text as its data. *)
Lemma axios_keeps_non_json : ~ ParseErrorsReject axios_get axios_read.
Proof.
  intros H. destruct (H (fun _ => Reply 200 "application/json" "x") "" 200%Z "application/json" "x"
    any_page) as [e He]; [done..|].
  discriminate He.
Qed.

(** ** A client proved against the interface

    [tget(url).then(tdata).then(render).catch(report)], for any transport
    [Transport tget tdata]. *)

Section Client.
Context (tget : network -> string -> JS) (tdata : jsval -> JS) `{!Transport tget tdata}.
Variables render report : jsval -> JS.

Definition client (net : network) (url : string) : JS :=
  catch_ (then_ (then_ (tget net url) tdata) render) report.

Lemma client_success net url st ct body v s :
  net url = Reply st ct body -> ok_status st = true -> st <> 204%Z ->
  contains "json" ct = true -> parse body = Some v ->
  client net url s = catch_ (render v) report s.
Proof.
  intros Hn Hok H204 Hct Hp.
  destruct (transport_json net url st ct body v Hn Hok H204 Hct Hp) as (x & Hg & Hd).
  unfold client, catch_, catch, then_, bind. by rewrite Hg, Hd.
Qed.

Lemma client_network_error net url s :
  net url = NetFailure -> exists e, client net url s = report e s.
Proof.
  intros Hn. destruct (transport_network_error net url Hn) as (e & Hg).
  exists e. unfold client, catch_, catch, then_, bind. by rewrite Hg.
Qed.
End Client.
