(* ===== verification/RonSwanson.v ===== *)
(** * [src/JS/AJAX/Axios/ron-swanson.js]

    Four buttons fetch a quote from the same URL and write [data[0]] into
    the element [#quote], each with another mechanism.  One Definition per
    function and per anonymous handler of the file; the clicks are
    [xhr_click], [jquery_click], [sendRequest] (the axios listener) and
    [fetch_click].

    The file declares [function handleErrors] twice (lines 45 and 67).
    Function declarations of one scope are instantiated before the code
    runs, and a later declaration of a name replaces the earlier binding;
    [scope_functions] lists the declarations in source order and [hoisted]
    resolves a name the way the engine does.  The axios chain's
    [.catch(handleErrors)] therefore calls the fetch-status check of line
    67, not the error classifier of line 45. *)

From stdpp Require Import gmap.
From S2P Require Import Prelude JsValue Json JsonRoundtrip Page Promise Net Xhr Lifecycle.
Local Open Scope string_scope.
Local Open Scope js_scope.

Module RonSwanson.

Definition quote_url : string := "https://ron-swanson-quotes.herokuapp.com/v2/quotes".

(** ** XHR (lines 8-19) *)

(** [XHR.onreadystatechange] *)
Definition xhr_onreadystatechange (x : xhr) : JS :=
  if (ready_state x =? 4)%nat && (xstatus x =? 200)%Z then
    data <- lift (json_parse (response_text x)) ;;
    quote <- lift (get data "0") ;;
    set_innerHTML "quote" quote
  else ret JUndefined.

(** The click listener: a fresh request to [quote_url]; [chunks] is how the
    reply's body arrives. *)
Definition xhr_click (net : network) (chunks : list string) : page -> page :=
  xhr_request xhr_onreadystatechange net quote_url chunks.

(** ** jQuery (lines 22-30) *)

Definition jquery_done (data : jsval) : JS :=
  q <- lift (get data "0") ;;
  jq_text "quote" q.

Definition jquery_fail (error : jsval) : JS :=
  console_log (js_plus (JStr "Error: ") error).

Definition jquery_click (net : network) : page -> page :=
  jq_get net quote_url jquery_done jquery_fail.

(** ** The functions of the file (lines 35-86) *)

Definition addQuote (response : jsval) : JS :=
  data <- lift (get response "data") ;;
  q <- lift (get data "0") ;;
  set_innerHTML "quote" q.

(** The first declaration of [handleErrors] (line 45). *)
Definition handleErrors_classify (error : jsval) : JS :=
  r <- lift (get error "response") ;;
  if truthy r then console_log (JStr "There was a response error")
  else
    rq <- lift (get error "request") ;;
    if truthy rq then console_log (JStr "There was a request error")
    else console_log (js_plus (JStr "Unknown error: ") error).

(** The second declaration of [handleErrors] (line 67). *)
Definition handleErrors (response : jsval) : JS :=
  ok <- lift (get response "ok") ;;
  if negb (truthy ok) then throw (make_error (JStr "There was an error with the fetch"))
  else ret response.

Definition parseJSON (response : jsval) : JS :=
  then_ (response_json response) (fun parsedData => ret parsedData).

Definition updateQuote (data : jsval) : JS := set_innerText "quote" data.

Definition displayErrors (error : jsval) : JS :=
  console_log (js_plus (JStr "Error: ") error).

(** The function declarations of the script's scope, in source order. *)
Definition scope_functions : list (string * (jsval -> JS)) :=
  [("addQuote", addQuote); ("handleErrors", handleErrors_classify);
   ("handleErrors", handleErrors); ("parseJSON", parseJSON);
   ("updateQuote", updateQuote); ("displayErrors", displayErrors)].

(** The function a name denotes once the declarations are instantiated. *)
Definition hoisted (name : string) : jsval -> JS :=
  match assoc_last name scope_functions with
  | Some f => f
  | None => fun _ => throw (JError "ReferenceError" (name ++ " is not defined") [])
  end.

(** ** axios (lines 33-39) *)

Definition sendRequest (net : network) : page -> page :=
  run_chain (catch_ (then_ (axios_get net quote_url) (hoisted "addQuote"))
                    (hoisted "handleErrors")).

(** ** fetch (lines 58-65) *)

Definition fetch_click (net : network) : page -> page :=
  run_chain
    (catch_ (then_ (then_ (then_ (fetch net quote_url) (hoisted "handleErrors"))
                          (hoisted "parseJSON"))
                   (hoisted "updateQuote"))
            (hoisted "displayErrors")).

(** ** Name resolution *)

Lemma hoisted_addQuote : hoisted "addQuote" = addQuote.
Proof. reflexivity. Qed.
Lemma hoisted_parseJSON : hoisted "parseJSON" = parseJSON.
Proof. reflexivity. Qed.
Lemma hoisted_updateQuote : hoisted "updateQuote" = updateQuote.
Proof. reflexivity. Qed.
Lemma hoisted_displayErrors : hoisted "displayErrors" = displayErrors.
Proof. reflexivity. Qed.

#[local] Hint Rewrite hoisted_addQuote hoisted_parseJSON hoisted_updateQuote
  hoisted_displayErrors : js_rw.

(** The line-67 declaration is the one both chains see: [hoisted
    "handleErrors"] computes to [handleErrors], and the proofs below use
    that conversion ([change]). *)

(** ** The fetch chain *)

(** The error the fetch chain's [displayErrors] receives for each kind of
    failure of the lifecycle contract. *)
Definition fetch_chain_error (k : failure_kind) : jsval :=
  match k with
  | NetworkError => type_error "Failed to fetch"
  | HttpError => make_error (JStr "There was an error with the fetch")
  | ParseError => syntax_error "Unexpected token in JSON"
  end.

Lemma displayErrors_run e s :
  displayErrors e s =
  (mkPage (dom s) (globals s) (console s ++ [JStr ("Error: " ++ to_string e)]) (reports s),
   Normal JUndefined).
Proof. reflexivity. Qed.

(** C: the fetch button implements the lifecycle contract: a success
    writes the parsed body into [#quote] as text, each failure is logged
    once with its own error, and nothing else changes. *)
Lemma fetch_click_run net s e :
  dom s !! "quote" = Some e ->
  fetch_click net s =
  match issue (net quote_url) with
  | SuccessResult _ v => with_dom s (<["quote" := mkElement (CText (dom_string v)) (el_src e)]> (dom s))
  | FailureResult k _ =>
      mkPage (dom s) (globals s) (console s ++ [JStr ("Error: " ++ to_string (fetch_chain_error k))])
        (reports s)
  end.
Proof.
  intros He. unfold fetch_click, run_chain, catch_, then_.
  autorewrite with js_rw. change (hoisted "handleErrors") with handleErrors.
  unfold issue, fetch. destruct (net quote_url) as [|st ct body]; [reflexivity|].
  unfold handleErrors, parseJSON, updateQuote, then_, json_parse, set_innerText.
  js_unfold. cbn -[parse]. unfold ok_status.
  destruct ((200 <=? st)%Z && (st <=? 299)%Z); cbn -[parse]; [|reflexivity].
  unfold json_parse. destruct (parse body); cbn -[parse]; [|reflexivity].
  by rewrite set_content_found with (e := e).
Qed.

(** C1: The fetch button of ron-swanson.js implements the lifecycle contract:
    a success writes the parsed body into #quote as text; a network, HTTP or
    parse failure is logged once as "Error: " followed by its error; nothing
    else changes. *)
Theorem fetch_click_refines net s e :
  dom s !! "quote" = Some e ->
  fetch_click net s =
  match issue (net quote_url) with
  | SuccessResult _ v => with_dom s (<["quote" := mkElement (CText (dom_string v)) (el_src e)]> (dom s))
  | FailureResult k _ =>
      mkPage (dom s) (globals s) (console s ++ [JStr ("Error: " ++ to_string (fetch_chain_error k))])
        (reports s)
  end.
Proof. apply fetch_click_run. Qed.

(** ** The axios chain *)

Definition fetch_error_text : string := "There was an error with the fetch".

(** An [AxiosError] has no [ok] property, so the hoisted [handleErrors]
    throws from inside [.catch]; the error classifier of line 45 is never
    reached. *)
Lemma handleErrors_axios_error msg props s :
  assoc_last "ok" props = None ->
  handleErrors (JError "AxiosError" msg props) s = (s, Throw (make_error (JStr fetch_error_text))).
Proof. intros H. unfold handleErrors. js_unfold. cbn. by rewrite H. Qed.

(** C4: Because the second declaration of handleErrors (line 67) is the one
    hoisted, the axios button's .catch(handleErrors) throws for every failed
    request (no reply or a non-2xx status): nothing is logged and the chain
    ends in an unhandled rejection. *)
Theorem sendRequest_rejection_unhandled net s :
  match net quote_url with NetFailure => True | Reply st _ _ => ok_status st = false end ->
  sendRequest net s = add_report (Unhandled (make_error (JStr fetch_error_text))) s.
Proof.
  intros H. unfold sendRequest, run_chain, catch_, then_. autorewrite with js_rw.
  change (hoisted "handleErrors") with handleErrors.
  unfold axios_get. destruct (net quote_url) as [|st ct body].
  - js_unfold. cbn -[handleErrors]. by rewrite handleErrors_axios_error.
  - rewrite H. js_unfold. cbn -[handleErrors]. by rewrite handleErrors_axios_error.
Qed.

Lemma sendRequest_fulfilled net s e st ct body q :
  net quote_url = Reply st ct body -> ok_status st = true ->
  dom s !! "quote" = Some e -> get (axios_data body) "0" = Normal q ->
  sendRequest net s = with_dom s (<["quote" := mkElement (CHtml (dom_string q)) (el_src e)]> (dom s)).
Proof.
  intros Hnet Hok He Hq. unfold sendRequest, run_chain, catch_, then_. autorewrite with js_rw.
  change (hoisted "handleErrors") with handleErrors.
  unfold axios_get. rewrite Hnet, Hok. unfold addQuote, set_innerHTML. js_unfold.
  cbn -[axios_data get]. rewrite get_axios_response_data, Hq. by rewrite set_content_found with (e := e).
Qed.

(** C25: The axios button of ron-swanson.js, for a 2xx reply, writes
    response.data[0] into #quote as HTML. *)
Theorem sendRequest_success net s e st ct body q :
  net quote_url = Reply st ct body -> ok_status st = true ->
  dom s !! "quote" = Some e -> get (axios_data body) "0" = Normal q ->
  sendRequest net s = with_dom s (<["quote" := mkElement (CHtml (dom_string q)) (el_src e)]> (dom s)).
Proof. apply sendRequest_fulfilled. Qed.

Lemma axios_data_not_json c r :
  parse (String c r) = None -> axios_data (String c r) = JStr (String c r).
Proof. intros H. unfold axios_data. cbn -[parse]. by rewrite H. Qed.

(** C26: The axios button of ron-swanson.js, for a 2xx reply whose body is not
    JSON, does not fail: axios keeps the body as a string and #quote shows its
    first character. *)
Theorem sendRequest_non_json net s e st ct c r :
  net quote_url = Reply st ct (String c r) -> ok_status st = true ->
  parse (String c r) = None -> dom s !! "quote" = Some e ->
  sendRequest net s
  = with_dom s (<["quote" := mkElement (CHtml (String c EmptyString)) (el_src e)]> (dom s)).
Proof.
  intros Hnet Hok Hp He.
  rewrite (sendRequest_fulfilled net s e st ct (String c r) (JStr (String c EmptyString))); try done.
  by rewrite axios_data_not_json.
Qed.

(** ** The XHR handler *)

Lemma xhr_onreadystatechange_idle x s :
  ready_state x <> 4 -> xhr_onreadystatechange x s = (s, Normal JUndefined).
Proof.
  intros H. unfold xhr_onreadystatechange.
  by destruct (Nat.eqb_spec (ready_state x) 4).
Qed.

Lemma xhr_click_final net cs s :
  chunking (net quote_url) cs ->
  xhr_click net cs s = dispatch (xhr_onreadystatechange (final_xhr (net quote_url))) s.
Proof. apply (xhr_request_done_once _ xhr_onreadystatechange_idle). Qed.

(** C17: The XHR button's request settles exactly once: for every reply and
    every chunking of its body the request runs through all its events to
    DONE, and the page is the one of a single run of the handler on that final
    state. *)
Theorem xhr_click_settles net cs s :
  chunking (net quote_url) cs ->
  fst (xhr_run xhr_onreadystatechange xhr_unsent (EvOpen :: reply_events (net quote_url) cs) s)
  = final_xhr (net quote_url) /\
  ready_state (final_xhr (net quote_url)) = 4%nat /\
  xhr_click net cs s = dispatch (xhr_onreadystatechange (final_xhr (net quote_url))) s.
Proof.
  intros Hc. split; [|split].
  - apply xhr_run_follows, xhr_apply_all_reply, Hc.
  - by destruct (net quote_url).
  - by apply xhr_click_final.
Qed.

(** C10: The XHR button of ron-swanson.js leaves the same page however the
    reply's body is split into chunks: its effect depends on the reply only.
    *)
Theorem xhr_click_chunking net cs cs' s :
  chunking (net quote_url) cs -> chunking (net quote_url) cs' ->
  xhr_click net cs s = xhr_click net cs' s.
Proof. intros Hc Hc'. by rewrite !xhr_click_final. Qed.

(** C23: The XHR button of ron-swanson.js leaves the page unchanged for any
    outcome but status 200: a network failure, 201, 404 or 500 is neither
    rendered nor logged nor reported. *)
Theorem xhr_click_ignores_non_200 net cs s :
  chunking (net quote_url) cs ->
  match net quote_url with NetFailure => True | Reply st _ _ => st <> 200%Z end ->
  xhr_click net cs s = s.
Proof.
  intros Hc Hst. rewrite xhr_click_final by done.
  unfold final_xhr, xhr_onreadystatechange, dispatch.
  destruct (net quote_url) as [|st ct body]; [reflexivity|].
  cbn -[Z.eqb]. by destruct (Z.eqb_spec st 200).
Qed.

Lemma xhr_click_json net cs s e ct body v q :
  net quote_url = Reply 200 ct body -> chunking (net quote_url) cs ->
  parse body = Some v -> get v "0" = Normal q -> dom s !! "quote" = Some e ->
  xhr_click net cs s = with_dom s (<["quote" := mkElement (CHtml (dom_string q)) (el_src e)]> (dom s)).
Proof.
  intros Hnet Hc Hp Hq He. rewrite xhr_click_final, Hnet by done.
  unfold dispatch, xhr_onreadystatechange, json_parse, set_innerHTML. js_unfold.
  cbn -[parse get]. rewrite Hp, Hq. by rewrite set_content_found with (e := e).
Qed.

(** C22: The XHR button of ron-swanson.js, for a 200 reply whose body is JSON,
    writes data[0] into #quote as HTML exactly once, however the body is split
    into chunks. *)
Theorem xhr_click_success net cs s e ct body v q :
  net quote_url = Reply 200 ct body -> chunking (net quote_url) cs ->
  parse body = Some v -> get v "0" = Normal q -> dom s !! "quote" = Some e ->
  xhr_click net cs s = with_dom s (<["quote" := mkElement (CHtml (dom_string q)) (el_src e)]> (dom s)).
Proof. apply xhr_click_json. Qed.

(** C24: The XHR button of ron-swanson.js, for a 200 reply that is not JSON,
    throws the SyntaxError of JSON.parse out of the readystatechange handler:
    an uncaught error and no change to #quote. *)
Theorem xhr_click_parse_error net cs s ct body :
  net quote_url = Reply 200 ct body -> chunking (net quote_url) cs -> parse body = None ->
  xhr_click net cs s = add_report (Uncaught (syntax_error "Unexpected token in JSON")) s.
Proof.
  intros Hnet Hc Hp. rewrite xhr_click_final, Hnet by done.
  unfold dispatch, xhr_onreadystatechange, json_parse. js_unfold.
  cbn -[parse]. by rewrite Hp.
Qed.

(** C28: The jQuery button of ron-swanson.js logs "Error: [object Object]" for
    every failure: the jqXHR object is concatenated to a string and the status
    is lost. *)
Theorem jquery_click_failure net s st text :
  jq_result (net quote_url) = Throw (jq_xhr st text) ->
  jquery_click net s =
  mkPage (dom s) (globals s) (console s ++ [JStr "Error: [object Object]"]) (reports s).
Proof. intros H. unfold jquery_click, jq_get. rewrite H. reflexivity. Qed.

Lemma jquery_click_data net s e data q :
  jq_result (net quote_url) = Normal data -> get data "0" = Normal q -> q <> JUndefined ->
  dom s !! "quote" = Some e ->
  jquery_click net s = with_dom s (<["quote" := mkElement (CText (dom_string q)) (el_src e)]> (dom s)).
Proof.
  intros Hr Hq Hu He. unfold jquery_click, jq_get. rewrite Hr.
  unfold dispatch, jquery_done, jq_text. js_unfold. cbn -[get]. rewrite Hq, He.
  by destruct q.
Qed.

(** C27: The jQuery button of ron-swanson.js writes data[0] into #quote as
    text when $.get succeeds and data[0] is defined. *)
Theorem jquery_click_success net s e data q :
  jq_result (net quote_url) = Normal data -> get data "0" = Normal q -> q <> JUndefined ->
  dom s !! "quote" = Some e ->
  jquery_click net s = with_dom s (<["quote" := mkElement (CText (dom_string q)) (el_src e)]> (dom s)).
Proof. apply jquery_click_data. Qed.

Lemma buttons_render net cs s e ct q :
  net quote_url = Reply 200 ct (stringify (JArr [JStr q])) -> contains "json" ct = true ->
  chunking (net quote_url) cs -> dom s !! "quote" = Some e ->
  fetch_click net s = with_dom s (<["quote" := mkElement (CText q) (el_src e)]> (dom s)) /\
  sendRequest net s = with_dom s (<["quote" := mkElement (CHtml q) (el_src e)]> (dom s)) /\
  xhr_click net cs s = with_dom s (<["quote" := mkElement (CHtml q) (el_src e)]> (dom s)) /\
  jquery_click net s = with_dom s (<["quote" := mkElement (CText q) (el_src e)]> (dom s)).
Proof.
  intros Hnet Hct Hc He.
  assert (Hp : parse (stringify (JArr [JStr q])) = Some (JArr [JStr q]))
    by (apply parse_stringify; reflexivity).
  assert (Hne : String.eqb (stringify (JArr [JStr q])) "" = false)
    by (rewrite stringify_arr, string_app_cons; reflexivity).
  split; [|split; [|split]].
  - rewrite (fetch_click_run _ _ e He). unfold issue. by rewrite Hnet, Hp.
  - apply (sendRequest_fulfilled _ _ _ _ _ _ (JStr q) Hnet eq_refl He).
    unfold axios_data. by rewrite Hne, Hp.
  - by apply (xhr_click_json _ _ _ _ ct _ (JArr [JStr q]) (JStr q) Hnet).
  - apply (jquery_click_data _ _ _ (JArr [JStr q]) (JStr q)); try done.
    unfold jq_result. rewrite Hnet. cbn -[parse contains stringify]. by rewrite Hct, Hp.
Qed.

(** C7: For every quote the API sends as a one-element JSON array with status
    200 and a JSON Content-Type, the four buttons of ron-swanson.js all show
    that quote in #quote, as text (fetch, jQuery) or as HTML (XHR, axios), and
    change nothing else; the fetch button writes the whole array, whose string
    form is the quote when it has one element. *)
Theorem buttons_agree net cs s e ct q :
  net quote_url = Reply 200 ct (stringify (JArr [JStr q])) -> contains "json" ct = true ->
  chunking (net quote_url) cs -> dom s !! "quote" = Some e ->
  fetch_click net s = with_dom s (<["quote" := mkElement (CText q) (el_src e)]> (dom s)) /\
  sendRequest net s = with_dom s (<["quote" := mkElement (CHtml q) (el_src e)]> (dom s)) /\
  xhr_click net cs s = with_dom s (<["quote" := mkElement (CHtml q) (el_src e)]> (dom s)) /\
  jquery_click net s = with_dom s (<["quote" := mkElement (CText q) (el_src e)]> (dom s)).
Proof. apply buttons_render. Qed.

(** C11: For a 200 reply with an empty quote list, data[0] reads past the end
    of the array and is undefined: the XHR and axios buttons write "undefined"
    into #quote, the jQuery button's .text(undefined) changes nothing, and the
    fetch button writes the empty string of String([]). *)
Theorem empty_quote_list net cs s e ct :
  net quote_url = Reply 200 ct "[]" -> contains "json" ct = true ->
  chunking (net quote_url) cs -> dom s !! "quote" = Some e ->
  fetch_click net s = with_dom s (<["quote" := mkElement (CText "") (el_src e)]> (dom s)) /\
  sendRequest net s = with_dom s (<["quote" := mkElement (CHtml "undefined") (el_src e)]> (dom s)) /\
  xhr_click net cs s = with_dom s (<["quote" := mkElement (CHtml "undefined") (el_src e)]> (dom s)) /\
  jquery_click net s = s.
Proof.
  intros Hnet Hct Hc He. split; [|split; [|split]].
  - rewrite (fetch_click_run _ _ e He). unfold issue. by rewrite Hnet.
  - exact (sendRequest_fulfilled _ _ _ _ _ _ JUndefined Hnet eq_refl He eq_refl).
  - exact (xhr_click_json _ _ _ _ ct _ (JArr []) JUndefined Hnet Hc eq_refl eq_refl He).
  - unfold jquery_click, jq_get, jq_result. rewrite Hnet. cbn -[contains]. rewrite Hct.
    reflexivity.
Qed.

(** ** Two clicks

    The network is deterministic and the handlers keep no state of their
    own: a second click classifies its reply as the first did. *)

(** C29: Two clicks of the fetch button against a deterministic network
    classify the reply the same way: a success leaves the page as one click
    does, a failure logs the same line twice. *)
Theorem fetch_click_twice net s e :
  dom s !! "quote" = Some e ->
  fetch_click net (fetch_click net s) =
  match issue (net quote_url) with
  | SuccessResult _ _ => fetch_click net s
  | FailureResult k _ =>
      mkPage (dom s) (globals s)
        (console s ++ [JStr ("Error: " ++ to_string (fetch_chain_error k));
                       JStr ("Error: " ++ to_string (fetch_chain_error k))])%list (reports s)
  end.
Proof.
  intros He. pose proof (fetch_click_run net s e He) as H1.
  destruct (issue (net quote_url)) as [st v|k d] eqn:Hi; rewrite H1.
  - rewrite (fetch_click_run net _ (mkElement (CText (dom_string v)) (el_src e)))
      by (simpl; apply lookup_insert_eq).
    rewrite Hi. simpl. by rewrite insert_insert_eq.
  - rewrite (fetch_click_run net _ e) by exact He. rewrite Hi. simpl. by rewrite <- (app_assoc (console s)).
Qed.

(** ** Fixtures and witnesses *)

Definition blank : element := mkElement (CText "") None.
Definition test_page : page := mkPage {[ "quote" := blank ]} ∅ [] [].
Definition const_net (r : net_reply) : network := fun _ => r.
Definition fried : string :=
  "Fried chicken is the best thing that man has ever done for the world.".
Definition fried_body : string := String "["%char (Json.quote fried ++ "]").
Definition fried_reply : net_reply := Reply 200 "application/json; charset=utf-8" fried_body.
Definition quote_page (c : content) : page :=
  mkPage {[ "quote" := mkElement c None ]} ∅ [] [].

Lemma fetch_click_refines_witness :
  dom test_page !! "quote" = Some blank /\
  fetch_click (const_net fried_reply) test_page = quote_page (CText fried).
Proof.
  split; [reflexivity|].
  rewrite (fetch_click_refines _ _ blank) by reflexivity. vm_compute. reflexivity.
Defined.

Lemma fetch_click_twice_witness :
  dom test_page !! "quote" = Some blank /\
  fetch_click (const_net (Reply 404 "text/html" "Not Found"))
    (fetch_click (const_net (Reply 404 "text/html" "Not Found")) test_page) =
  mkPage {[ "quote" := blank ]} ∅
    [JStr "Error: Error: There was an error with the fetch";
     JStr "Error: Error: There was an error with the fetch"] [].
Proof.
  split; [reflexivity|].
  rewrite (fetch_click_twice _ _ blank) by reflexivity. vm_compute. reflexivity.
Defined.

Lemma sendRequest_rejection_unhandled_witness :
  ok_status 404 = false /\
  sendRequest (const_net (Reply 404 "application/json" "{}")) test_page =
  mkPage {[ "quote" := blank ]} ∅ []
    [Unhandled (JError "Error" "There was an error with the fetch" [])].
Proof.
  split; [reflexivity|]. by apply sendRequest_rejection_unhandled.
Defined.

Lemma sendRequest_success_witness :
  ok_status 200 = true /\ dom test_page !! "quote" = Some blank /\
  get (axios_data fried_body) "0" = Normal (JStr fried) /\
  sendRequest (const_net fried_reply) test_page = quote_page (CHtml fried).
Proof.
  split; [reflexivity|]. split; [reflexivity|]. split; [vm_compute; reflexivity|].
  rewrite (sendRequest_success _ _ blank 200 "application/json; charset=utf-8" fried_body
             (JStr fried)); try reflexivity; try (vm_compute; reflexivity).
Defined.

Lemma sendRequest_non_json_witness :
  parse "not-json" = None /\
  sendRequest (const_net (Reply 200 "text/plain" "not-json")) test_page
  = quote_page (CHtml "n").
Proof.
  split; [vm_compute; reflexivity|].
  rewrite (sendRequest_non_json _ _ blank 200 "text/plain" "n"%char "ot-json");
    try reflexivity; try (vm_compute; reflexivity).
Defined.

Lemma xhr_click_success_witness :
  parse fried_body = Some (JArr [JStr fried]) /\
  xhr_click (const_net fried_reply) ["[" ; Json.quote fried; "]"] test_page
  = quote_page (CHtml fried).
Proof.
  split; [vm_compute; reflexivity|].
  rewrite (xhr_click_success _ _ _ blank "application/json; charset=utf-8" fried_body
             (JArr [JStr fried]) (JStr fried)); try reflexivity; try (vm_compute; reflexivity).
Defined.

Lemma xhr_click_ignores_non_200_witness :
  (201 <> 200)%Z /\
  xhr_click (const_net (Reply 201 "application/json" fried_body)) [fried_body] test_page
  = test_page.
Proof.
  split; [lia|]. apply xhr_click_ignores_non_200; simpl; [reflexivity|lia].
Defined.

Lemma xhr_click_parse_error_witness :
  parse "not-json" = None /\
  xhr_click (const_net (Reply 200 "text/plain" "not-json")) ["not-"; "json"] test_page
  = add_report (Uncaught (syntax_error "Unexpected token in JSON")) test_page.
Proof.
  split; [vm_compute; reflexivity|].
  apply (xhr_click_parse_error _ _ _ "text/plain" "not-json"); try reflexivity; try (vm_compute; reflexivity).
Defined.

Lemma jquery_click_failure_witness :
  jq_result (Reply 500 "text/html" "oops") = Throw (jq_xhr 500 "error") /\
  jquery_click (const_net (Reply 500 "text/html" "oops")) test_page
  = mkPage {[ "quote" := blank ]} ∅ [JStr "Error: [object Object]"] [].
Proof.
  split; [reflexivity|]. rewrite (jquery_click_failure _ _ 500 "error"); reflexivity.
Defined.

Lemma jquery_click_success_witness :
  jq_result fried_reply = Normal (JArr [JStr fried]) /\
  jquery_click (const_net fried_reply) test_page = quote_page (CText fried).
Proof.
  split; [vm_compute; reflexivity|].
  rewrite (jquery_click_success _ _ blank (JArr [JStr fried]) (JStr fried));
    try reflexivity; try discriminate; try (vm_compute; reflexivity).
Defined.

Lemma buttons_agree_witness :
  const_net fried_reply quote_url = Reply 200 "application/json; charset=utf-8"
                                      (stringify (JArr [JStr fried])) /\
  fetch_click (const_net fried_reply) test_page = quote_page (CText fried) /\
  sendRequest (const_net fried_reply) test_page = quote_page (CHtml fried) /\
  xhr_click (const_net fried_reply) [fried_body] test_page = quote_page (CHtml fried) /\
  jquery_click (const_net fried_reply) test_page = quote_page (CText fried).
Proof.
  split; [vm_compute; reflexivity|].
  apply (buttons_agree (const_net fried_reply) [fried_body] test_page blank
           "application/json; charset=utf-8" fried); vm_compute; reflexivity.
Defined.

Lemma xhr_click_chunking_witness :
  chunking (const_net fried_reply quote_url) [fried_body] /\
  chunking (const_net fried_reply quote_url) ["[" ; Json.quote fried; "]"] /\
  xhr_click (const_net fried_reply) [fried_body] test_page
  = xhr_click (const_net fried_reply) ["[" ; Json.quote fried; "]"] test_page.
Proof.
  split; [vm_compute; reflexivity|]. split; [vm_compute; reflexivity|].
  apply xhr_click_chunking; vm_compute; reflexivity.
Defined.

Lemma empty_quote_list_witness :
  contains "json" "application/json" = true /\
  xhr_click (const_net (Reply 200 "application/json" "[]")) ["["; "]"] test_page
  = quote_page (CHtml "undefined") /\
  jquery_click (const_net (Reply 200 "application/json" "[]")) test_page = test_page.
Proof.
  split; [reflexivity|].
  destruct (empty_quote_list (const_net (Reply 200 "application/json" "[]")) ["["; "]"]
              test_page blank "application/json") as (_ & _ & Hx & Hj);
    try reflexivity.
  split; [exact Hx|exact Hj].
Defined.

Lemma xhr_click_settles_witness :
  chunking (const_net fried_reply quote_url) ["[" ; Json.quote fried; "]"] /\
  ready_state (final_xhr (const_net fried_reply quote_url)) = 4%nat.
Proof.
  split; [vm_compute; reflexivity|].
  exact (proj1 (proj2 (xhr_click_settles (const_net fried_reply) ["[" ; Json.quote fried; "]"]
                         test_page ltac:(vm_compute; reflexivity)))).
Defined.

End RonSwanson.
