(* ===== verification/RandomUser.v ===== *)
(** * [src/JS/AJAX/Fetch/RandomUser/random-user.js]

    A button fetches a random user and writes five of its fields into the
    profile card.  The chain is
    [fetch(url).then(handleErrors).then(parseJSON).then(updateProfile)
    .catch(displayErrors)]: [handleErrors] throws [Error(res.status)] for a
    status outside 200-299, [parseJSON] selects [results[0]] of the parsed
    body, [updateProfile] writes the card and [displayErrors] logs.  The
    click listener also assigns the undeclared name [url], which creates a
    global.  The avatar is reached through [avatar], the window's named
    property for the element with id [avatar] (the script's own variable is
    [avatarImage], never used).  In [avatar.src = data.picture.medium]
    the target's base [avatar] is resolved first ([resolve_named]): without
    an element [#avatar] the line throws a [ReferenceError] before it reads
    [data.picture]. *)

From stdpp Require Import gmap.
From S2P Require Import Prelude JsValue Json JsonRoundtrip Schema Page Promise Net Lifecycle.
Local Open Scope string_scope.
Local Open Scope js_scope.

Module RandomUser.

Definition user_url : string := "https://randomuser.me/api/".

Definition parseJSON (res : jsval) : JS :=
  then_ (response_json res) (fun parsedData =>
    results <- lift (get parsedData "results") ;;
    lift (get results "0")).

(** [a.b.c] *)
Definition get2 (v : jsval) (a b : string) : completion :=
  match get v a with Normal w => get w b | Throw e => Throw e end.

Definition updateProfile (data : jsval) : JS :=
  first <- lift (get2 data "name" "first") ;;
  last <- lift (get2 data "name" "last") ;;
  let fullName := js_plus (js_plus first (JStr " ")) last in
  set_innerText "fullname" fullName ;;;
  resolve_named "avatar" ;;;
  medium <- lift (get2 data "picture" "medium") ;;
  set_src_named "avatar" medium ;;;
  uname <- lift (get2 data "login" "username") ;;
  set_innerText "username" uname ;;;
  mail <- lift (get data "email") ;;
  set_innerText "email" mail ;;;
  town <- lift (get2 data "location" "city") ;;
  set_innerText "city" town.

Definition handleErrors (res : jsval) : JS :=
  ok <- lift (get res "ok") ;;
  if negb (truthy ok) then
    st <- lift (get res "status") ;;
    throw (make_error st)
  else ret res.

Definition displayErrors (error : jsval) : JS :=
  console_log (JStr "Inside displayErrors") ;;;
  console_log error.

(** The click listener (lines 9-16). *)
Definition click (net : network) : page -> page :=
  fun s =>
    let s1 := fst (set_global "url" (JStr user_url) s) in
    run_chain
      (catch_ (then_ (then_ (then_ (fetch net user_url) handleErrors) parseJSON) updateProfile)
              displayErrors) s1.

(** ** What the chain hands to [updateProfile] or [displayErrors] *)

(** The error [displayErrors] receives for each failure of the lifecycle
    contract; for an HTTP error it is [Error(status)], whose message is
    the contract's detail. *)
Definition failure_error (k : failure_kind) (d : string) : jsval :=
  match k with
  | NetworkError => type_error "Failed to fetch"
  | HttpError => JError "Error" d []
  | ParseError => syntax_error "Unexpected token in JSON"
  end.

Definition user_result (r : net_reply) : completion :=
  match issue r with
  | SuccessResult _ v => get2 v "results" "0"
  | FailureResult k d => Throw (failure_error k d)
  end.

Lemma chain_prefix net s :
  then_ (then_ (fetch net user_url) handleErrors) parseJSON s = (s, user_result (net user_url)).
Proof.
  unfold user_result, issue, then_, fetch. destruct (net user_url) as [|st ct body]; [reflexivity|].
  unfold handleErrors, parseJSON, then_, response_json, json_parse. js_unfold.
  cbn -[parse get]. rewrite get_response_ok. cbn -[parse get].
  destruct (ok_status st); cbn -[parse get]; [|reflexivity].
  destruct (parse body); [|reflexivity]. unfold get2. cbn -[get]. by destruct (get _ "results").
Qed.

Lemma user_displayErrors_run e s :
  displayErrors e s =
  (mkPage (dom s) (globals s) (console s ++ [JStr "Inside displayErrors"; e]) (reports s),
   Normal JUndefined).
Proof.
  unfold displayErrors. js_unfold. cbn. rewrite console_log_run. cbn. by rewrite <- (app_assoc (console s)).
Qed.

Definition url_set (s : page) : page := fst (set_global "url" (JStr user_url) s).

Lemma click_run net s :
  click net s =
  match user_result (net user_url) with
  | Normal u => run_chain (catch_ (updateProfile u) displayErrors) (url_set s)
  | Throw e => fst (displayErrors e (url_set s))
  end.
Proof.
  unfold click, run_chain, catch_, catch. fold (url_set s).
  unfold then_ at 1. unfold bind at 1. rewrite (chain_prefix net (url_set s)).
  destruct (user_result (net user_url)) as [u|e]; [reflexivity|].
  by rewrite user_displayErrors_run.
Qed.

(** ** The rendered card *)

Definition card_ids : list string := ["fullname"; "avatar"; "username"; "email"; "city"].

(** The DOM after [updateProfile] has written the card. *)
Definition profile_card (full pic un mail town : string) (d : gmap string element)
  : gmap string element :=
  alter (retext CText town) "city"
    (alter (retext CText mail) "email"
      (alter (retext CText un) "username"
        (alter (resrc pic) "avatar"
          (alter (retext CText full) "fullname" d)))).

(** Writing the card twice leaves the second card. *)
Lemma profile_card_idem a b c d e a' b' c' d' e' m :
  profile_card a b c d e (profile_card a' b' c' d' e' m) = profile_card a b c d e m.
Proof.
  apply map_eq. intros i. unfold profile_card.
  destruct (decide (i = "city")) as [->|H1]; [|destruct (decide (i = "email")) as [->|H2]];
    [| |destruct (decide (i = "username")) as [->|H3]];
    [| | |destruct (decide (i = "avatar")) as [->|H4]];
    [| | | |destruct (decide (i = "fullname")) as [->|H5]];
    repeat first [rewrite lookup_alter_eq | rewrite lookup_alter_ne by (intro; congruence)];
    try reflexivity; by destruct (m !! _).
Qed.

Lemma profile_card_ids a b c d e m id :
  is_Some (profile_card a b c d e m !! id) <-> is_Some (m !! id).
Proof. unfold profile_card. by rewrite !lookup_alter_is_Some. Qed.

Section Render.
Variables (u : jsval) (f l pic un mail town : string).
Hypothesis Hfirst : get2 u "name" "first" = Normal (JStr f).
Hypothesis Hlast : get2 u "name" "last" = Normal (JStr l).
Hypothesis Hpic : get2 u "picture" "medium" = Normal (JStr pic).
Hypothesis Huser : get2 u "login" "username" = Normal (JStr un).
Hypothesis Hmail : get u "email" = Normal (JStr mail).
Hypothesis Htown : get2 u "location" "city" = Normal (JStr town).

Lemma updateProfile_renders s :
  (forall id, id ∈ card_ids -> is_Some (dom s !! id)) ->
  updateProfile u s =
  (with_dom s (profile_card (f ++ " " ++ l) pic un mail town (dom s)), Normal JUndefined).
Proof.
  intros Hd. unfold updateProfile, set_innerText. js_unfold. cbn -[get get2 set_content resolve_named].
  rewrite Hfirst, Hlast. cbn -[get get2 set_content resolve_named].
  rewrite set_content_alter by (apply Hd; set_solver). cbn -[get get2 set_content resolve_named].
  rewrite resolve_named_found by (simpl; rewrite lookup_alter_is_Some; apply Hd; set_solver).
  cbn -[get get2 set_content resolve_named]. rewrite Hpic. cbn -[get get2 set_content resolve_named].
  rewrite set_src_named_alter by (simpl; rewrite lookup_alter_is_Some; apply Hd; set_solver).
  cbn -[get get2 set_content resolve_named]. rewrite Huser. cbn -[get get2 set_content resolve_named].
  rewrite set_content_alter by (simpl; rewrite !lookup_alter_is_Some; apply Hd; set_solver).
  cbn -[get get2 set_content resolve_named]. rewrite Hmail. cbn -[get get2 set_content resolve_named].
  rewrite set_content_alter by (simpl; rewrite !lookup_alter_is_Some; apply Hd; set_solver).
  cbn -[get get2 set_content resolve_named]. rewrite Htown. cbn -[get get2 set_content resolve_named].
  rewrite set_content_alter by (simpl; rewrite !lookup_alter_is_Some; apply Hd; set_solver).
  unfold with_dom, profile_card. cbn. by rewrite string_app_assoc.
Qed.

Lemma user_click_renders net s st v :
  issue (net user_url) = SuccessResult st v -> get2 v "results" "0" = Normal u ->
  (forall id, id ∈ card_ids -> is_Some (dom s !! id)) ->
  click net s =
  mkPage (profile_card (f ++ " " ++ l) pic un mail town (dom s))
    (<["url" := JStr user_url]> (globals s)) (console s) (reports s).
Proof.
  intros Hi Hu Hd. rewrite click_run. unfold user_result. rewrite Hi, Hu.
  unfold run_chain, catch_, catch. rewrite updateProfile_renders by exact Hd.
  reflexivity.
Qed.

(** C3: In random-user.js a successful reply whose results[0] has the six
    fields writes the full name, avatar src, username, email and city into the
    card, logs nothing and reports nothing. *)
Theorem user_click_success net s st v :
  issue (net user_url) = SuccessResult st v -> get2 v "results" "0" = Normal u ->
  (forall id, id ∈ card_ids -> is_Some (dom s !! id)) ->
  click net s =
  mkPage (profile_card (f ++ " " ++ l) pic un mail town (dom s))
    (<["url" := JStr user_url]> (globals s)) (console s) (reports s).
Proof. apply user_click_renders. Qed.
End Render.

Lemma click_failure_run net s k d :
  issue (net user_url) = FailureResult k d ->
  click net s =
  mkPage (dom s) (<["url" := JStr user_url]> (globals s))
    (console s ++ [JStr "Inside displayErrors"; failure_error k d]) (reports s).
Proof. intros H. rewrite click_run. unfold user_result. rewrite H. by rewrite user_displayErrors_run. Qed.

(** C2: In random-user.js every failure of the lifecycle contract reaches
    displayErrors, which logs "Inside displayErrors" and the error; an HTTP
    error is Error(res.status), whose message is the status (the contract's
    detail); the DOM is untouched and the global url is set. *)
Theorem user_click_failure net s k d :
  issue (net user_url) = FailureResult k d ->
  click net s =
  mkPage (dom s) (<["url" := JStr user_url]> (globals s))
    (console s ++ [JStr "Inside displayErrors"; failure_error k d]) (reports s).
Proof. apply click_failure_run. Qed.

(** C5: In random-user.js a result without picture.medium makes updateProfile
    throw after it wrote the full name, and .catch(displayErrors) logs the
    error: the request both renders and fails. The error logged is the
    TypeError of reading data.picture.medium when the page has #avatar, and a
    ReferenceError for avatar otherwise, since line 28 resolves its target
    avatar before it reads data.picture. *)
Theorem click_render_then_error net s st v u f l e :
  issue (net user_url) = SuccessResult st v -> get2 v "results" "0" = Normal u ->
  get2 u "name" "first" = Normal (JStr f) -> get2 u "name" "last" = Normal (JStr l) ->
  get2 u "picture" "medium" = Throw e -> is_Some (dom s !! "fullname") ->
  click net s =
  mkPage (alter (retext CText (f ++ " " ++ l)) "fullname" (dom s))
    (<["url" := JStr user_url]> (globals s))
    (console s ++ [JStr "Inside displayErrors";
                   match dom s !! "avatar" with
                   | Some _ => e
                   | None => JError "ReferenceError" "avatar is not defined" []
                   end])
    (reports s).
Proof.
  intros Hi Hu Hf Hl Hp Hd. rewrite click_run. unfold user_result. rewrite Hi, Hu.
  unfold run_chain, catch_, catch, updateProfile, set_innerText. js_unfold.
  cbn -[get get2 set_content resolve_named]. rewrite Hf, Hl.
  cbn -[get get2 set_content resolve_named].
  rewrite set_content_alter by exact Hd. cbn -[get get2 set_content resolve_named].
  destruct (dom s !! "avatar") as [a|] eqn:Ha.
  - rewrite resolve_named_found
      by (simpl; rewrite lookup_alter_ne by (intro; congruence); rewrite Ha; eauto).
    cbn -[get get2 set_content resolve_named]. rewrite Hp.
    rewrite console_log_run. cbn. by rewrite string_app_assoc, <- (app_assoc (console s)).
  - rewrite resolve_named_missing
      by (simpl; rewrite lookup_alter_ne by (intro; congruence); exact Ha).
    rewrite console_log_run. cbn. by rewrite string_app_assoc, <- (app_assoc (console s)).
Qed.

(** C6: Whatever the network does, the random-user click ends without an
    unhandled rejection or uncaught error: every failure is caught by
    displayErrors. *)
Theorem click_no_report net s : reports (click net s) = reports s.
Proof.
  rewrite click_run. destruct (user_result (net user_url)) as [u|e].
  - transitivity (reports (url_set s)); [|reflexivity]. apply run_chain_keeps.
    + unfold updateProfile, displayErrors. keeps.
    + unfold catch_, catch. destruct (updateProfile u (url_set s)) as [s' [a|e]].
      * by exists a.
      * rewrite user_displayErrors_run. by eexists.
  - by rewrite user_displayErrors_run.
Qed.

(** ** Fixtures and witnesses *)

Definition blank : element := mkElement (CText "") None.
Definition card_page : page :=
  mkPage (list_to_map [("fullname", blank); ("avatar", blank); ("username", blank);
                       ("email", blank); ("city", blank)]) ∅ [] [].
Definition ann : jsval :=
  JObj [("name", JObj [("first", JStr "Ann"); ("last", JStr "Lee")]);
        ("picture", JObj [("medium", JStr "a.jpg")]);
        ("login", JObj [("username", JStr "ann1")]);
        ("email", JStr "ann@example.org");
        ("location", JObj [("city", JStr "Oslo")])].
Definition results_of (u : jsval) : jsval := JObj [("results", JArr [u])].
Definition const_net (r : net_reply) : network := fun _ => r.

(** The schema of the API's answer that the chain reads: [results[0]] with
    the name, picture, login, email and location fields [updateProfile]
    writes. *)
Definition user_schema : jty :=
  TRec [("name", TRec [("first", TStr); ("last", TStr)]);
        ("picture", TRec [("medium", TStr)]);
        ("login", TRec [("username", TStr)]);
        ("email", TStr);
        ("location", TRec [("city", TStr)])].
Definition users_schema : jty := TRec [("results", TList1 user_schema)].

Lemma get2_path v a b : get2 v a b = get_path v [a; b].
Proof. unfold get2. simpl. destruct (get v a) as [w|]; [|done]. by destruct (get w b). Qed.

Lemma get_path_one v k : get_path v [k] = get v k.
Proof. simpl. by destruct (get v k). Qed.

(** A string field of a well-typed value, by its path. *)
Ltac typed_string Hv path name :=
  let w := fresh "w" in let Hg := fresh "Hg" in let Hw := fresh "Hw" in
  destruct (get_path_typed _ _ path TStr Hv eq_refl) as (w & Hg & Hw);
  destruct (has_type_str _ Hw) as [name ->]; clear Hw.

(** C12: Type safety of the random-user chain: for every successful answer of
    the schema the chain reads (results[0] with string name.first, name.last,
    picture.medium, login.username, email and location.city), the click writes
    the whole card from exactly those fields, logs nothing and reports
    nothing; no property access throws. *)
Theorem user_click_typed net s st v :
  issue (net user_url) = SuccessResult st v -> has_type v users_schema ->
  (forall id, id ∈ card_ids -> is_Some (dom s !! id)) ->
  exists u f l pic un mail town,
    get_path v ["results"; "0"] = Normal u /\
    get_path u ["name"; "first"] = Normal (JStr f) /\
    get_path u ["name"; "last"] = Normal (JStr l) /\
    get_path u ["picture"; "medium"] = Normal (JStr pic) /\
    get_path u ["login"; "username"] = Normal (JStr un) /\
    get_path u ["email"] = Normal (JStr mail) /\
    get_path u ["location"; "city"] = Normal (JStr town) /\
    click net s =
    mkPage (profile_card (f ++ " " ++ l) pic un mail town (dom s))
      (<["url" := JStr user_url]> (globals s)) (console s) (reports s).
Proof.
  intros Hi Hv Hd.
  destruct (get_path_typed v users_schema ["results"; "0"] user_schema Hv eq_refl)
    as (u & Hu & Hut).
  typed_string Hut ["name"; "first"] f. typed_string Hut ["name"; "last"] l.
  typed_string Hut ["picture"; "medium"] pic. typed_string Hut ["login"; "username"] un.
  typed_string Hut ["email"] mail. typed_string Hut ["location"; "city"] town.
  exists u, f, l, pic, un, mail, town. do 7 (split; [done|]).
  apply (user_click_renders u f l pic un mail town) with (st := st) (v := v);
    rewrite ?get2_path, <- ?get_path_one; done.
Qed.

(** A user record as the API encodes it, with the fields the page reads. *)
Definition user_record (f l pic un mail town : string) : jsval :=
  JObj [("name", JObj [("first", JStr f); ("last", JStr l)]);
        ("picture", JObj [("medium", JStr pic)]);
        ("login", JObj [("username", JStr un)]);
        ("email", JStr mail);
        ("location", JObj [("city", JStr town)])].

Lemma click_user_record net s ct f l pic un mail town :
  net user_url = Reply 200 ct (stringify (results_of (user_record f l pic un mail town))) ->
  (forall id, id ∈ card_ids -> is_Some (dom s !! id)) ->
  click net s =
  mkPage (profile_card (f ++ " " ++ l) pic un mail town (dom s))
    (<["url" := JStr user_url]> (globals s)) (console s) (reports s).
Proof.
  intros Hnet Hd.
  apply (user_click_renders (user_record f l pic un mail town) f l pic un mail town)
    with (st := 200%Z) (v := results_of (user_record f l pic un mail town));
    try reflexivity; [|exact Hd].
  unfold issue. rewrite Hnet. cbn -[parse stringify]. by rewrite parse_stringify.
Qed.

(** C9: For every user record the API encodes with JSON.stringify in a 200
    reply, random-user.js decodes it with res.json() and writes back exactly
    its fields: first and last name joined by a space, the picture as the
    avatar's src, the username, the email and the city. *)
Theorem user_roundtrip net s ct f l pic un mail town :
  net user_url = Reply 200 ct (stringify (results_of (user_record f l pic un mail town))) ->
  (forall id, id ∈ card_ids -> is_Some (dom s !! id)) ->
  click net s =
  mkPage (profile_card (f ++ " " ++ l) pic un mail town (dom s))
    (<["url" := JStr user_url]> (globals s)) (console s) (reports s).
Proof. apply click_user_record. Qed.
Definition ann_net : network := const_net (Reply 200 "application/json" (stringify (results_of ann))).

Lemma card_page_ids id : id ∈ card_ids -> is_Some (dom card_page !! id).
Proof.
  unfold card_ids. rewrite !elem_of_cons, elem_of_nil.
  intros [->|[->|[->|[->|[->|[]]]]]]; vm_compute; eauto.
Qed.

Lemma user_click_success_witness :
  issue (ann_net user_url) = SuccessResult 200 (results_of ann) /\
  click ann_net card_page =
  mkPage (profile_card "Ann Lee" "a.jpg" "ann1" "ann@example.org" "Oslo" (dom card_page))
    {[ "url" := JStr user_url ]} [] [].
Proof.
  split; [vm_compute; reflexivity|].
  rewrite (user_click_success ann "Ann" "Lee" "a.jpg" "ann1" "ann@example.org" "Oslo"
             ltac:(reflexivity) ltac:(reflexivity) ltac:(reflexivity) ltac:(reflexivity)
             ltac:(reflexivity) ltac:(reflexivity) ann_net card_page 200 (results_of ann));
    [reflexivity | vm_compute; reflexivity | reflexivity | apply card_page_ids].
Defined.

Lemma user_click_failure_witness :
  issue (Reply 404 "text/html" "Not Found") = FailureResult HttpError "404" /\
  click (const_net (Reply 404 "text/html" "Not Found")) card_page =
  mkPage (dom card_page) {[ "url" := JStr user_url ]}
    [JStr "Inside displayErrors"; JError "Error" "404" []] [].
Proof.
  split; [reflexivity|].
  rewrite (user_click_failure _ _ HttpError "404"); reflexivity.
Defined.

Lemma click_render_then_error_witness :
  get2 (JObj [("name", JObj [("first", JStr "Ann"); ("last", JStr "Lee")])]) "picture" "medium"
  = Throw (read_error "undefined" "medium") /\
  click (const_net (Reply 200 "application/json"
           (stringify (results_of (JObj [("name", JObj [("first", JStr "Ann"); ("last", JStr "Lee")])])))))
        card_page =
  mkPage (alter (retext CText "Ann Lee") "fullname" (dom card_page)) {[ "url" := JStr user_url ]}
    [JStr "Inside displayErrors"; read_error "undefined" "medium"] [].
Proof.
  split; [reflexivity|].
  rewrite (click_render_then_error _ _ 200
             (results_of (JObj [("name", JObj [("first", JStr "Ann"); ("last", JStr "Lee")])]))
             (JObj [("name", JObj [("first", JStr "Ann"); ("last", JStr "Lee")])]) "Ann" "Lee"
             (read_error "undefined" "medium"));
    try reflexivity; vm_compute; try reflexivity; eauto.
Defined.

Lemma user_roundtrip_witness :
  ann = user_record "Ann" "Lee" "a.jpg" "ann1" "ann@example.org" "Oslo" /\
  click ann_net card_page =
  mkPage (profile_card "Ann Lee" "a.jpg" "ann1" "ann@example.org" "Oslo" (dom card_page))
    {[ "url" := JStr user_url ]} [] [].
Proof.
  split; [reflexivity|].
  rewrite (user_roundtrip ann_net card_page "application/json" "Ann" "Lee" "a.jpg" "ann1"
             "ann@example.org" "Oslo"); [reflexivity | reflexivity | apply card_page_ids].
Defined.

Lemma user_click_typed_witness :
  issue (ann_net user_url) = SuccessResult 200 (results_of ann) /\
  has_type (results_of ann) users_schema /\
  (forall id, id ∈ card_ids -> is_Some (dom card_page !! id)).
Proof.
  split; [vm_compute; reflexivity|]. split; [apply type_check_spec; reflexivity|].
  destruct (user_click_typed ann_net card_page 200 (results_of ann)) as (u & _);
    [vm_compute; reflexivity | apply type_check_spec; reflexivity | apply card_page_ids|].
  apply card_page_ids.
Defined.

End RandomUser.
