(* ===== verification/FetchExample.v ===== *)
(** * [src/JS/AJAX/Fetch/fetch-example.js]

    A script run at page load: a top-level [var url] (a global) and the
    chain [fetch(url).then(res => res.json()).then(data =>
    console.log(data.bpi.USD.rate)).catch(() => console.log("There was a
    problem!"))].  The chain never looks at [res.ok]: an HTTP error whose
    body is JSON goes down the success path.  The URL's host is [api]
    (["https://api/coindesk.com/..."]), not [api.coindesk.com].

    [json_stage] and [chain] are the chain's stages before its [.catch];
    [comment_account] is the account the closing comment (lines 14-18)
    gives of when [.then] and [.catch] run, compared with the code by
    [comment_account_iff]. *)

From S2P Require Import Prelude JsValue Json Page Promise Net Lifecycle.
Local Open Scope string_scope.
Local Open Scope js_scope.

Module FetchExample.

Definition url : string := "https://api/coindesk.com/v1/bpi/currentprice.json".

Definition parse_res (res : jsval) : JS := response_json res.

Definition log_rate (data : jsval) : JS :=
  rate <- lift (get_path data ["bpi"; "USD"; "rate"]) ;;
  console_log rate.

Definition report_problem (_ : jsval) : JS := console_log (JStr "There was a problem!").

(** Lines 6-7: [fetch(url).then(res => res.json())]. *)
Definition json_stage (net : network) : JS := then_ (fetch net url) parse_res.

(** Lines 6-9: the chain up to its [.catch]. *)
Definition chain (net : network) : JS := then_ (json_stage net) log_rate.

(** The script (lines 1-12). *)
Definition load (net : network) : page -> page :=
  fun s => run_chain (catch_ (chain net) report_problem) (fst (set_global "url" (JStr url) s)).

(** Whether a computation settles by an exception (a rejected promise). *)
Definition rejects (c : JS) (s : page) : bool :=
  match snd (c s) with Throw _ => true | Normal _ => false end.

(** "res.json() returned an error": the fetch resolved with [res], and
    [res.json()] rejected. *)
Definition json_rejected (net : network) (s : page) : bool :=
  match fetch net url s with
  | (s1, Normal res) => rejects (parse_res res) s1
  | (_, Throw _) => false
  end.

(** The account the comment of lines 14-18 gives of the chain: "If .then()
    is called, the res.json() method successfully returned data.  If
    .catch() is called, the res.json() method returned an error."  The
    [.catch] callback runs exactly when [res.json()] rejected. *)
Definition comment_account (net : network) : Prop :=
  forall s, rejects (chain net) s = true <-> json_rejected net s = true.

(** The path of line 9 reads a rate out of a parsed body. *)
Definition has_rate (v : jsval) : Prop :=
  exists rate, get_path v ["bpi"; "USD"; "rate"] = Normal rate.

(** What the chain logs for a reply. *)
Definition logged (r : net_reply) : jsval :=
  match r with
  | NetFailure => JStr "There was a problem!"
  | Reply _ _ body =>
      match parse body with
      | Some v => match get_path v ["bpi"; "USD"; "rate"] with
                  | Normal rate => rate
                  | Throw _ => JStr "There was a problem!"
                  end
      | None => JStr "There was a problem!"
      end
  end.

Lemma load_run net s :
  load net s =
  mkPage (dom s) (<["url" := JStr url]> (globals s)) (console s ++ [logged (net url)]) (reports s).
Proof.
  unfold load, chain, json_stage, logged, run_chain, catch_, then_, fetch.
  destruct (net url) as [|st ct body]; [reflexivity|].
  unfold parse_res, response_json, json_parse, log_rate. js_unfold. cbn -[parse get_path].
  destruct (parse body) as [v|]; [|reflexivity].
  cbn -[get_path]. by destruct (get_path v _).
Qed.

(** C30: The fetch-example.js script, whatever the reply, sets the global url
    and logs exactly one line: data.bpi.USD.rate when the body is JSON with
    that path, "There was a problem!" otherwise. *)
Theorem load_logs_one_line net s :
  load net s =
  mkPage (dom s) (<["url" := JStr url]> (globals s)) (console s ++ [logged (net url)]) (reports s).
Proof. apply load_run. Qed.

(** C31: The fetch-example.js chain never checks res.ok: an HTTP error reply
    whose JSON body has bpi.USD.rate logs that rate like a success. *)
Theorem load_ignores_status net s st ct body v rate :
  net url = Reply st ct body -> parse body = Some v ->
  get_path v ["bpi"; "USD"; "rate"] = Normal rate ->
  console (load net s) = (console s ++ [rate])%list.
Proof. intros Hn Hp Hr. rewrite load_run, Hn. cbn -[parse get_path]. by rewrite Hp, Hr. Qed.

Lemma chain_rejects_reply net s :
  rejects (chain net) s =
  match net url with
  | NetFailure => true
  | Reply _ _ body =>
      match parse body with
      | Some v => match get_path v ["bpi"; "USD"; "rate"] with Normal _ => false | Throw _ => true end
      | None => true
      end
  end.
Proof.
  unfold rejects, chain, json_stage, then_, fetch. destruct (net url) as [|st ct body]; [done|].
  unfold parse_res, response_json, json_parse, log_rate. js_unfold. cbn -[parse get_path].
  destruct (parse body) as [v|]; [|done]. cbn -[get_path]. by destruct (get_path v _).
Qed.

Lemma json_rejected_reply net s :
  json_rejected net s =
  match net url with
  | NetFailure => false
  | Reply _ _ body => match parse body with Some _ => false | None => true end
  end.
Proof.
  unfold json_rejected, rejects, fetch. destruct (net url) as [|st ct body]; [done|].
  unfold parse_res, response_json, json_parse. js_unfold. cbn -[parse].
  by destruct (parse body).
Qed.

(** C20: The .catch of fetch-example.js runs exactly when the fetch rejects
    (no reply), when the body is not JSON, or when the parsed body has no
    data.bpi.USD.rate. *)
Theorem catch_runs_when net s :
  rejects (chain net) s = true <->
  net url = NetFailure \/
  exists st ct body, net url = Reply st ct body /\
    (parse body = None \/ exists v, parse body = Some v /\ ~ has_rate v).
Proof.
  rewrite chain_rejects_reply. unfold has_rate.
  destruct (net url) as [|st ct body]; [split; auto|].
  split.
  - intros H. right. exists st, ct, body. split; [done|].
    destruct (parse body) as [v|]; [|by left]. right. exists v. split; [done|].
    intros [r Hr]. by rewrite Hr in H.
  - intros [Hn|(st' & ct' & body' & [= <- <- <-] & [Hp|(v & Hp & Hr)])]; [done| |];
      rewrite Hp; [done|].
    destruct (get_path v _) eqn:Hg; [|done]. exfalso. eauto.
Qed.

(** C21: The comment of lines 14-18 (if .catch() is called, the res.json()
    method returned an error) describes the chain only for a network where the
    fetch resolves and every JSON body it answers has data.bpi.USD.rate:
    otherwise the .catch also runs for a failed fetch, where res.json() is
    never called, or for a JSON body without the rate, where res.json()
    succeeded. *)
Theorem comment_account_iff net :
  comment_account net <->
  net url <> NetFailure /\
  (forall st ct body v, net url = Reply st ct body -> parse body = Some v -> has_rate v).
Proof.
  unfold comment_account, has_rate.
  setoid_rewrite chain_rejects_reply. setoid_rewrite json_rejected_reply.
  destruct (net url) as [|st ct body].
  - split; [|by intros [[] _]]. intros H. exfalso.
    destruct (H (mkPage ∅ ∅ [] [])) as [H1 _]. by specialize (H1 eq_refl).
  - destruct (parse body) as [v|] eqn:Hp; [destruct (get_path v _) as [r|e] eqn:Hg|].
    + split; [|done]. intros _. split; [done|].
      intros st' ct' body' v' [= <- <- <-] Hp'. rewrite Hp in Hp'. injection Hp' as <-. eauto.
    + split.
      * intros H. exfalso. destruct (H (mkPage ∅ ∅ [] [])) as [H1 _]. by specialize (H1 eq_refl).
      * intros [_ H]. destruct (H st ct body v eq_refl Hp) as [r Hr]. congruence.
    + split; [|done]. intros _. split; [done|]. intros st' ct' body' v' [= <- <- <-]. congruence.
Qed.

(** ** Witness *)

Definition price_body : jsval :=
  JObj [("bpi", JObj [("USD", JObj [("code", JStr "USD"); ("rate", JStr "23,456.7800")])])].

Lemma load_ignores_status_witness :
  parse (stringify price_body) = Some price_body /\
  console (load (fun _ => Reply 404 "application/json" (stringify price_body))
                (mkPage ∅ ∅ [] [])) = [JStr "23,456.7800"].
Proof.
  split; [vm_compute; reflexivity|].
  rewrite (load_ignores_status _ _ 404 "application/json" (stringify price_body) price_body (JStr "23,456.7800"));
    try reflexivity; vm_compute; reflexivity.
Defined.

End FetchExample.
