(* ===== verification/RandomDog.v ===== *)
(** * [src/JS/AJAX/jQuery/RandomDogGenerator/random-dog.js]

    A button asks [$.get] for a random dog picture; [done] logs the data
    and sets the [src] of [#image] to [data.message]; [fail] logs a fixed
    message.  Both callbacks run inside the request's load event. *)

From stdpp Require Import gmap.
From S2P Require Import Prelude JsValue Json Page Promise Net.
Local Open Scope string_scope.
Local Open Scope js_scope.

Module RandomDog.

Definition dog_url : string := "https://dog.ceo/api/breeds/image/random".

Definition done_cb (data : jsval) : JS :=
  console_log data ;;;
  m <- lift (get data "message") ;;
  jq_attr_src "image" m.

Definition fail_cb (_ : jsval) : JS := console_log (JStr "There was an error").

(** The click listener (lines 1-10). *)
Definition click (net : network) : page -> page := jq_get net dog_url done_cb fail_cb.

Lemma done_cb_run data m s e :
  get data "message" = Normal m -> m <> JUndefined -> m <> JNull -> dom s !! "image" = Some e ->
  done_cb data s =
  (mkPage (<["image" := mkElement (el_content e) (Some (to_string m))]> (dom s)) (globals s)
     (console s ++ [data])%list (reports s), Normal JUndefined).
Proof.
  intros Hm Hu Hn He. unfold done_cb, jq_attr_src. js_unfold. cbn -[get]. rewrite Hm.
  cbn. rewrite He. by destruct m.
Qed.

(** C35: The random-dog.js done callback logs the data and sets the src of
    #image to data.message. *)
Theorem dog_click_success net s data m e :
  jq_result (net dog_url) = Normal data -> get data "message" = Normal m ->
  m <> JUndefined -> m <> JNull -> dom s !! "image" = Some e ->
  click net s =
  mkPage (<["image" := mkElement (el_content e) (Some (to_string m))]> (dom s)) (globals s)
    (console s ++ [data])%list (reports s).
Proof.
  intros Hr Hm Hu Hn He. unfold click, jq_get, dispatch. rewrite Hr.
  by rewrite (done_cb_run data m s e).
Qed.

(** C36: The random-dog.js fail callback logs "There was an error" for every
    failed $.get, and nothing else changes. *)
Theorem dog_click_failure net s x :
  jq_result (net dog_url) = Throw x ->
  click net s =
  mkPage (dom s) (globals s) (console s ++ [JStr "There was an error"])%list (reports s).
Proof. intros Hr. unfold click, jq_get. by rewrite Hr. Qed.

(** C37: A 204 reply is a jQuery success without data: the random-dog.js done
    callback logs undefined, then data.message throws an uncaught TypeError.
    *)
Theorem dog_click_no_content net s ct body :
  net dog_url = Reply 204 ct body ->
  click net s =
  add_report (Uncaught (read_error "undefined" "message"))
    (mkPage (dom s) (globals s) (console s ++ [JUndefined])%list (reports s)).
Proof. intros Hn. unfold click, jq_get, jq_result. rewrite Hn. reflexivity. Qed.

(** ** Fixtures and witnesses *)

Definition blank : element := mkElement (CText "") None.
Definition dog_page : page := mkPage {[ "image" := blank ]} ∅ [] [].
Definition dog_json : jsval :=
  JObj [("message", JStr "https://images.dog.ceo/breeds/hound/1.jpg"); ("status", JStr "success")].
Definition dog_net : network := fun _ => Reply 200 "application/json" (stringify dog_json).

Lemma dog_click_success_witness :
  jq_result (dog_net dog_url) = Normal dog_json /\
  click dog_net dog_page =
  mkPage {[ "image" := mkElement (CText "") (Some "https://images.dog.ceo/breeds/hound/1.jpg") ]}
    ∅ [dog_json] [].
Proof.
  split; [vm_compute; reflexivity|].
  rewrite (dog_click_success _ _ dog_json (JStr "https://images.dog.ceo/breeds/hound/1.jpg") blank);
    try reflexivity; try discriminate; vm_compute; reflexivity.
Defined.

Lemma dog_click_failure_witness :
  jq_result NetFailure = Throw (jq_xhr 0 "error") /\
  click (fun _ => NetFailure) dog_page =
  mkPage {[ "image" := blank ]} ∅ [JStr "There was an error"] [].
Proof.
  split; [reflexivity|]. rewrite (dog_click_failure _ _ (jq_xhr 0 "error")); reflexivity.
Defined.

Lemma dog_click_no_content_witness :
  click (fun _ => Reply 204 "application/json" "") dog_page =
  add_report (Uncaught (read_error "undefined" "message"))
    (mkPage {[ "image" := blank ]} ∅ [JUndefined] []).
Proof. rewrite (dog_click_no_content _ _ "application/json" ""); reflexivity. Defined.

End RandomDog.
