(* ===== verification/PriceChecker.v ===== *)
(** * [src/JS/AJAX/XHR/Bitcoin-Price-Checker/price-checker.js]

    A button sends an [XMLHttpRequest] for the Bitcoin price; the
    [readystatechange] handler acts when [readyState == 4 && status == 200]
    and writes ["$" + rate.rate + " " + rate.code] into [#price], where
    [rate] is [JSON.parse(XHR.responseText).bpi.USD]. *)

From stdpp Require Import gmap.
From S2P Require Import Prelude JsValue Json Schema Page Promise Net Xhr.
Local Open Scope string_scope.
Local Open Scope js_scope.

Module PriceChecker.

Definition price_url : string := "https://api.coindesk.com/v1/bpi/currentprice.json".

(** [XHR.onreadystatechange] (lines 7-12) *)
Definition onreadystatechange (x : xhr) : JS :=
  if (ready_state x =? 4)%nat && (xstatus x =? 200)%Z then
    rate <- lift (match json_parse (response_text x) with
                  | Normal d => get_path d ["bpi"; "USD"]
                  | Throw e => Throw e
                  end) ;;
    r <- lift (get rate "rate") ;;
    c <- lift (get rate "code") ;;
    set_textContent "price" (js_plus (js_plus (js_plus (JStr "$") r) (JStr " ")) c)
  else ret JUndefined.

(** The click listener (lines 4-16). *)
Definition click (net : network) (chunks : list string) : page -> page :=
  xhr_request onreadystatechange net price_url chunks.

Lemma onreadystatechange_idle x s :
  ready_state x <> 4 -> onreadystatechange x s = (s, Normal JUndefined).
Proof. intros H. unfold onreadystatechange. by destruct (Nat.eqb_spec (ready_state x) 4). Qed.

Lemma price_click_final net cs s :
  chunking (net price_url) cs ->
  click net cs s = dispatch (onreadystatechange (final_xhr (net price_url))) s.
Proof. apply (xhr_request_done_once _ onreadystatechange_idle). Qed.

Lemma price_click_renders net cs s e ct body v rate r c :
  net price_url = Reply 200 ct body -> chunking (net price_url) cs ->
  parse body = Some v -> get_path v ["bpi"; "USD"] = Normal rate ->
  get rate "rate" = Normal (JStr r) -> get rate "code" = Normal (JStr c) ->
  dom s !! "price" = Some e ->
  click net cs s =
  with_dom s (<["price" := mkElement (CText ("$" ++ r ++ " " ++ c)) (el_src e)]> (dom s)).
Proof.
  intros Hn Hc Hp Hv Hr Hcode He. rewrite price_click_final, Hn by done.
  unfold dispatch, onreadystatechange, json_parse, set_textContent. js_unfold.
  cbn -[parse get get_path]. rewrite Hp, Hv. cbn -[get get_path]. rewrite Hr, Hcode.
  rewrite set_content_found with (e := e) by done. cbn. by rewrite !string_app_assoc.
Qed.

(** C32: The price-checker.js handler, for a 200 reply with bpi.USD.rate and
    code, writes "$" + rate + " " + code into #price, however the body is
    chunked. *)
Theorem price_click_success net cs s e ct body v rate r c :
  net price_url = Reply 200 ct body -> chunking (net price_url) cs ->
  parse body = Some v -> get_path v ["bpi"; "USD"] = Normal rate ->
  get rate "rate" = Normal (JStr r) -> get rate "code" = Normal (JStr c) ->
  dom s !! "price" = Some e ->
  click net cs s =
  with_dom s (<["price" := mkElement (CText ("$" ++ r ++ " " ++ c)) (el_src e)]> (dom s)).
Proof. apply price_click_renders. Qed.

(** C33: The price-checker.js handler leaves the page unchanged for every
    outcome but status 200. *)
Theorem price_click_ignores_non_200 net cs s :
  chunking (net price_url) cs ->
  match net price_url with NetFailure => True | Reply st _ _ => st <> 200%Z end ->
  click net cs s = s.
Proof.
  intros Hc Hst. rewrite price_click_final by done. unfold final_xhr, onreadystatechange, dispatch.
  destruct (net price_url) as [|st ct body]; [reflexivity|].
  cbn -[Z.eqb]. by destruct (Z.eqb_spec st 200).
Qed.

(** C34: The price-checker.js handler, for a 200 reply whose JSON has no bpi
    field, throws a TypeError reading USD of undefined out of the
    readystatechange handler: an uncaught error, #price unchanged. *)
Theorem price_click_no_bpi net cs s ct body v :
  net price_url = Reply 200 ct body -> chunking (net price_url) cs ->
  parse body = Some v -> get v "bpi" = Normal JUndefined ->
  click net cs s = add_report (Uncaught (read_error "undefined" "USD")) s.
Proof.
  intros Hn Hc Hp Hb. rewrite price_click_final, Hn by done.
  unfold dispatch, onreadystatechange, json_parse. js_unfold.
  cbn -[parse get]. rewrite Hp. cbn -[get]. by rewrite Hb.
Qed.

(** The schema of the answer the handler reads: [bpi.USD] with string
    fields [rate] and [code]. *)
Definition price_schema : jty :=
  TRec [("bpi", TRec [("USD", TRec [("rate", TStr); ("code", TStr)])])].

(** C13: Type safety of the price-checker handler: for a 200 reply whose JSON
    answer has the schema the handler reads (bpi.USD with string rate and
    code), #price is set to "$" + rate + " " + code from exactly those fields
    and no property access throws. *)
Theorem price_click_typed net cs s e ct body v :
  net price_url = Reply 200 ct body -> chunking (net price_url) cs ->
  parse body = Some v -> has_type v price_schema -> dom s !! "price" = Some e ->
  exists r c,
    get_path v ["bpi"; "USD"; "rate"] = Normal (JStr r) /\
    get_path v ["bpi"; "USD"; "code"] = Normal (JStr c) /\
    click net cs s =
    with_dom s (<["price" := mkElement (CText ("$" ++ r ++ " " ++ c)) (el_src e)]> (dom s)).
Proof.
  intros Hn Hc Hp Hv He.
  destruct (get_path_typed v price_schema ["bpi"; "USD"] _ Hv eq_refl) as (rate & Hr & Hrt).
  destruct (get_typed rate _ "rate" TStr Hrt eq_refl) as (w1 & H1 & Hw1).
  destruct (get_typed rate _ "code" TStr Hrt eq_refl) as (w2 & H2 & Hw2).
  destruct (has_type_str _ Hw1) as [r ->]. destruct (has_type_str _ Hw2) as [c ->].
  exists r, c. split; [|split].
  - change ["bpi"; "USD"; "rate"] with (["bpi"; "USD"] ++ ["rate"])%list.
    by rewrite get_path_snoc, Hr, H1.
  - change ["bpi"; "USD"; "code"] with (["bpi"; "USD"] ++ ["code"])%list.
    by rewrite get_path_snoc, Hr, H2.
  - exact (price_click_renders net cs s e ct body v rate r c Hn Hc Hp Hr H1 H2 He).
Qed.

(** ** Fixtures and witnesses *)

Definition blank : element := mkElement (CText "") None.
Definition price_page : page := mkPage {[ "price" := blank ]} ∅ [] [].
Definition usd : jsval := JObj [("code", JStr "USD"); ("rate", JStr "23,456.7800")].
Definition coindesk : jsval := JObj [("bpi", JObj [("USD", usd)])].
Definition coindesk_net : network := fun _ => Reply 200 "application/json" (stringify coindesk).

Lemma price_click_success_witness :
  parse (stringify coindesk) = Some coindesk /\
  click coindesk_net [stringify coindesk] price_page =
  mkPage {[ "price" := mkElement (CText "$23,456.7800 USD") None ]} ∅ [] [].
Proof.
  split; [vm_compute; reflexivity|].
  rewrite (price_click_success _ _ _ blank "application/json" (stringify coindesk) coindesk usd
             "23,456.7800" "USD"); try reflexivity; vm_compute; reflexivity.
Defined.

Lemma price_click_ignores_non_200_witness :
  (500 <> 200)%Z /\
  click (fun _ => Reply 500 "text/html" "down") ["do"; "wn"] price_page = price_page.
Proof. split; [lia|]. apply price_click_ignores_non_200; simpl; [reflexivity|lia]. Defined.

(** The retired API's answer: an error object without [bpi]. *)
Definition retired : jsval := JObj [("error", JStr "gone")].

Lemma price_click_no_bpi_witness :
  parse (stringify retired) = Some retired /\ get retired "bpi" = Normal JUndefined /\
  click (fun _ => Reply 200 "application/json" (stringify retired)) [stringify retired] price_page
  = mkPage {[ "price" := blank ]} ∅ []
      [Uncaught (JError "TypeError" "Cannot read properties of undefined (reading 'USD')" [])].
Proof.
  split; [vm_compute; reflexivity|]. split; [reflexivity|].
  rewrite (price_click_no_bpi _ _ _ "application/json" (stringify retired) retired);
    try reflexivity; vm_compute; reflexivity.
Defined.

Lemma price_click_typed_witness :
  parse (stringify coindesk) = Some coindesk /\ has_type coindesk price_schema /\
  exists r c,
    get_path coindesk ["bpi"; "USD"; "rate"] = Normal (JStr r) /\
    get_path coindesk ["bpi"; "USD"; "code"] = Normal (JStr c) /\
    click coindesk_net [stringify coindesk] price_page =
    with_dom price_page (<["price" := mkElement (CText ("$" ++ r ++ " " ++ c)) None]>
                           (dom price_page)).
Proof.
  split; [vm_compute; reflexivity|]. split; [apply type_check_spec; reflexivity|].
  exact (price_click_typed coindesk_net [stringify coindesk] price_page blank "application/json"
           (stringify coindesk) coindesk eq_refl eq_refl ltac:(vm_compute; reflexivity)
           ltac:(apply type_check_spec; reflexivity) eq_refl).
Defined.

End PriceChecker.
