(* ===== verification/EventLoop.v ===== *)
(** * The event loop: requests in flight, replies in any order

    A click runs its handler's synchronous part at once (for the demos:
    nothing, or the assignment to the global [url]) and sends a request;
    the request's callbacks run later, when its reply arrives, and replies
    arrive in any order.  [loop] is the state of one page with its requests
    in flight, each with an id; [loop_apply] is one event, [Start] (a click
    that sends request [next_id]) or [Arrive n rep] (the reply [rep] to
    request [n] arrives and its callbacks run to completion, as JavaScript
    runs one task at a time).  The log [handled] records the requests
    whose callbacks ran, in order.

    The section is generic in the requests ([Req]), their replies ([Rep]),
    the synchronous part [start] and the callbacks [handle]; [Races]
    instantiates it with the demos' buttons.  The invariant [loop_inv]: the
    ids in flight and the ids handled are, up to order, exactly the ids
    issued; so no reply is handled twice and none is lost. *)

From stdpp Require Import list.
From S2P Require Import Prelude JsValue Page.

Section Loop.
Context {Req Rep : Type}.
Variable start : Req -> page -> page.
Variable handle : Req -> Rep -> page -> page.

Record loop : Type := mkLoop {
  lpage : page;
  next_id : nat;
  inflight : list (nat * Req);
  handled : list (nat * Req * Rep)
}.

Definition loop_init (s : page) : loop := mkLoop s 0 [] [].

Inductive loop_event : Type :=
| Start (q : Req)
| Arrive (n : nat) (rep : Rep).

(** Remove request [n] from the requests in flight. *)
Fixpoint take_req (n : nat) (l : list (nat * Req)) : option (Req * list (nat * Req)) :=
  match l with
  | [] => None
  | (m, q) :: t =>
      if Nat.eqb m n then Some (q, t)
      else match take_req n t with
           | Some (q', t') => Some (q', (m, q) :: t')
           | None => None
           end
  end.

Definition loop_apply (l : loop) (ev : loop_event) : option loop :=
  match ev with
  | Start q =>
      Some (mkLoop (start q (lpage l)) (S (next_id l)) (inflight l ++ [(next_id l, q)]) (handled l))
  | Arrive n rep =>
      match take_req n (inflight l) with
      | Some (q, rest) =>
          Some (mkLoop (handle q rep (lpage l)) (next_id l) rest (handled l ++ [(n, q, rep)]))
      | None => None
      end
  end.

Fixpoint loop_run (l : loop) (evs : list loop_event) : option loop :=
  match evs with
  | [] => Some l
  | ev :: r => match loop_apply l ev with Some l' => loop_run l' r | None => None end
  end.

(** A property every event preserves holds after any run. *)
Lemma loop_run_ind (P : loop -> Prop) l evs l' :
  (forall l ev l', P l -> loop_apply l ev = Some l' -> P l') ->
  P l -> loop_run l evs = Some l' -> P l'.
Proof.
  intros Hstep. revert l. induction evs as [|ev evs IH]; intros l Hl; simpl; [by intros [= <-]|].
  destruct (loop_apply l ev) as [l1|] eqn:Ha; [|discriminate].
  apply IH. exact (Hstep l ev l1 Hl Ha).
Qed.

(** The same, for the runs whose events all satisfy [Q]. *)
Lemma loop_run_ind_on (Q : loop_event -> Prop) (P : loop -> Prop) l evs l' :
  (forall l ev l', Q ev -> P l -> loop_apply l ev = Some l' -> P l') ->
  Forall Q evs -> P l -> loop_run l evs = Some l' -> P l'.
Proof.
  intros Hstep HQ. revert l. induction HQ as [|ev evs Hev _ IH]; intros l Hl; simpl;
    [by intros [= <-]|].
  destruct (loop_apply l ev) as [l1|] eqn:Ha; [|discriminate].
  apply IH. exact (Hstep l ev l1 Hev Hl Ha).
Qed.

Definition handled_id (h : nat * Req * Rep) : nat := h.1.1.

Definition loop_inv (l : loop) : Prop :=
  map fst (inflight l) ++ map handled_id (handled l) ≡ₚ seq 0 (next_id l).

Lemma take_req_perm n l q t : take_req n l = Some (q, t) -> (n, q) :: t ≡ₚ l.
Proof.
  revert t. induction l as [|[m q0] l IH]; intros t; simpl; [discriminate|].
  destruct (Nat.eqb_spec m n) as [->|_]; [by intros [= -> ->]|].
  destruct (take_req n l) as [[q' t']|]; [|discriminate]. intros [= -> <-].
  rewrite Permutation_swap. by constructor; apply IH.
Qed.

Lemma loop_init_inv s : loop_inv (loop_init s).
Proof. unfold loop_inv. simpl. constructor. Qed.

Lemma loop_apply_inv l ev l' : loop_inv l -> loop_apply l ev = Some l' -> loop_inv l'.
Proof.
  unfold loop_inv. destruct ev as [q|n rep]; simpl.
  - intros Hi [= <-]. cbn [inflight handled next_id]. rewrite seq_S, map_app, <- Hi.
    by rewrite <- !app_assoc, (Permutation_app_comm [next_id l]).
  - destruct (take_req n (inflight l)) as [[q rest]|] eqn:Ht; [|discriminate].
    intros Hi [= <-]. cbn [inflight handled next_id]. rewrite <- Hi, <- (take_req_perm _ _ _ _ Ht), map_app. simpl.
    by rewrite app_assoc, Permutation_app_comm.
Qed.

Lemma loop_run_inv l evs l' : loop_inv l -> loop_run l evs = Some l' -> loop_inv l'.
Proof. apply loop_run_ind, loop_apply_inv. Qed.

(** Every request issued is in flight or handled, and handled once. *)
Lemma loop_run_exactly_once s evs l' :
  loop_run (loop_init s) evs = Some l' ->
  map fst (inflight l') ++ map handled_id (handled l') ≡ₚ seq 0 (next_id l') /\
  NoDup (map handled_id (handled l')).
Proof.
  intros Hr. pose proof (loop_run_inv _ _ _ (loop_init_inv s) Hr) as Hi. split; [done|].
  pose proof (NoDup_seq 0 (next_id l')) as Hn. unfold loop_inv in Hi. rewrite <- Hi in Hn.
  by apply NoDup_app in Hn as (_ & _ & Hn).
Qed.

(** ** Liveness: every request in flight can be answered *)

Lemma take_req_some n l : n ∈ map fst l -> exists q t, take_req n l = Some (q, t).
Proof.
  induction l as [|[m q] l IH]; simpl; [by intros ?%elem_of_nil|].
  intros [->|Hn]%elem_of_cons; [rewrite Nat.eqb_refl; eauto|].
  destruct (Nat.eqb_spec m n) as [->|_]; [eauto|].
  destruct (IH Hn) as (q' & t & ->). eauto.
Qed.

(** Answering the requests in flight, in any order and with any replies,
    never gets stuck and leaves nothing in flight. *)
Lemma loop_drain l ids reps :
  map fst (inflight l) ≡ₚ ids -> List.length reps = List.length ids ->
  exists l', loop_run l (zip_with Arrive ids reps) = Some l' /\ inflight l' = [] /\
             map handled_id (handled l') = map handled_id (handled l) ++ ids.
Proof.
  revert l reps. induction ids as [|n ids IH]; intros l reps Hp Hlen.
  - exists l. apply Permutation_nil_r in Hp. apply map_eq_nil in Hp. by rewrite app_nil_r.
  - destruct reps as [|rep reps]; [done|]. simpl in Hlen.
    assert (Hn : n ∈ map fst (inflight l)) by (rewrite Hp; left).
    destruct (take_req_some n (inflight l) Hn) as (q & t & Ht).
    pose proof (take_req_perm _ _ _ _ Ht) as Hqt.
    assert (Hp' : map fst t ≡ₚ ids).
    { apply (Permutation_cons_inv (a := n)).
      change (map fst ((n, q) :: t) ≡ₚ n :: ids). by rewrite Hqt. }
    destruct (IH (mkLoop (handle q rep (lpage l)) (next_id l) t (handled l ++ [(n, q, rep)]))
                reps Hp' ltac:(lia)) as (l' & Hr & Hi & Hh).
    exists l'. simpl. rewrite Ht. split; [done|]. split; [done|].
    rewrite Hh. simpl. by rewrite map_app, <- app_assoc.
Qed.
End Loop.

Arguments Start {Req Rep} q.
Arguments Arrive {Req Rep} n rep.
