(* ===== verification/Races.v ===== *)
(** * Requests in flight on the quote page

    [ron-swanson.js] lets the user press its four buttons in any order
    before any reply has come back; each press sends its own request to
    the quote API, and the replies (each a fresh random quote) come back in
    any order.  [QuoteRace] runs the buttons on the event loop of
    [EventLoop]: a press is a [Start] with the button, the reply carrying
    quote [q] is an [Arrive] with [q], and the callbacks a reply runs are the
    button's click on a network that answers [q] (no button does anything
    visible before its reply: the XHR handler ignores every state before
    DONE, [Xhr.xhr_request_done_once]).

    [quote_race]: whatever the presses and the order of the replies,
    [#quote] shows the quote of the reply that arrived last, in the format
    of the button that sent it, and nothing else of the page changes: the
    last reply wins, and earlier replies leave no trace. *)

From stdpp Require Import gmap.
From S2P Require Import Prelude JsValue Json Page Promise Net Xhr RonSwanson EventLoop.
Local Open Scope string_scope.

Module QuoteRace.
Import RonSwanson.

Inductive button : Type := XhrButton | JqueryButton | AxiosButton | FetchButton.

(** The API's answer: a JSON array holding one quote. *)
Definition quote_body (q : string) : string := stringify (JArr [JStr q]).
Definition quote_reply (q : string) : net_reply :=
  Reply 200 "application/json; charset=utf-8" (quote_body q).

(** The callbacks of a press whose reply carries [q]. *)
Definition press (b : button) (q : string) : page -> page :=
  let net := fun _ : string => quote_reply q in
  match b with
  | XhrButton => xhr_click net [quote_body q]
  | JqueryButton => jquery_click net
  | AxiosButton => sendRequest net
  | FetchButton => fetch_click net
  end.

(** Nothing happens on the page when a button is pressed. *)
Definition on_press (b : button) (s : page) : page := s.

Definition shown (b : button) (q : string) : content :=
  match b with XhrButton | AxiosButton => CHtml q | JqueryButton | FetchButton => CText q end.

(** [#quote] after the replies of log [h] were handled, starting from [e]. *)
Definition quote_after (e : element) (h : list (nat * button * string)) : element :=
  match last h with
  | None => e
  | Some (_, b, q) => mkElement (shown b q) (el_src e)
  end.

Abbreviation race_run := (loop_run on_press press).

Lemma press_render b q s e :
  dom s !! "quote" = Some e ->
  press b q s = with_dom s (<["quote" := mkElement (shown b q) (el_src e)]> (dom s)).
Proof.
  intros He.
  destruct (buttons_render (fun _ => quote_reply q) [quote_body q] s e
              "application/json; charset=utf-8" q) as (Hf & Ha & Hx & Hj); try done.
  - simpl. by rewrite string_app_nil_r.
  - destruct b; assumption.
Qed.

Lemma quote_after_src e h : el_src (quote_after e h) = el_src e.
Proof. unfold quote_after. by destruct (last h) as [[[? ?] ?]|]. Qed.

Lemma race_step s e l ev l' :
  dom s !! "quote" = Some e ->
  lpage l = with_dom s (<["quote" := quote_after e (handled l)]> (dom s)) ->
  loop_apply on_press press l ev = Some l' ->
  lpage l' = with_dom s (<["quote" := quote_after e (handled l')]> (dom s)).
Proof.
  intros He Hl. destruct ev as [b|n q]; simpl.
  - by intros [= <-].
  - destruct (take_req n (inflight l)) as [[b rest]|]; [|discriminate]. intros [= <-]. simpl.
    rewrite Hl, (press_render _ _ _ (quote_after e (handled l))) by (simpl; apply lookup_insert_eq).
    rewrite quote_after_src. unfold quote_after. rewrite last_snoc. simpl.
    by rewrite insert_insert_eq.
Qed.

Lemma race_run_from s e l evs l' :
  dom s !! "quote" = Some e ->
  lpage l = with_dom s (<["quote" := quote_after e (handled l)]> (dom s)) ->
  race_run l evs = Some l' ->
  lpage l' = with_dom s (<["quote" := quote_after e (handled l')]> (dom s)).
Proof.
  intros He. apply (loop_run_ind on_press press
    (fun l => lpage l = with_dom s (<["quote" := quote_after e (handled l)]> (dom s)))).
  intros l0 ev l1. by apply race_step.
Qed.

(** C8: Whatever buttons of ron-swanson.js are pressed and in whatever order
    their replies arrive, #quote ends showing the quote of the reply that
    arrived last, in the format of the button that sent it; nothing else of
    the page changes and no reply is handled twice. *)
Theorem quote_race s e evs l' :
  dom s !! "quote" = Some e ->
  race_run (loop_init s) evs = Some l' ->
  lpage l' = with_dom s (<["quote" := quote_after e (handled l')]> (dom s)) /\
  NoDup (map handled_id (handled l')).
Proof.
  intros He Hr. split.
  - apply (race_run_from s e (loop_init s) evs); [done| |done].
    simpl. rewrite insert_id by done. by destruct s.
  - exact (proj2 (loop_run_exactly_once _ _ s evs l' Hr)).
Qed.

(** Fetch, then XHR; the XHR reply ("B") arrives first, the fetch reply
    ("A") last. *)
Definition race_events : list (loop_event (Req:=button) (Rep:=string)) :=
  [Start FetchButton; Start XhrButton; Arrive 1 "B"; Arrive 0 "A"].

Definition race_end : loop :=
  mkLoop (quote_page (CText "A")) 2 [] [(1, XhrButton, "B"); (0, FetchButton, "A")].

Lemma quote_race_witness :
  dom test_page !! "quote" = Some blank /\
  race_run (loop_init test_page) race_events = Some race_end /\
  lpage race_end = quote_page (CText "A").
Proof.
  split; [reflexivity|]. split; [vm_compute; reflexivity|].
  rewrite (proj1 (quote_race test_page blank race_events race_end eq_refl
                    ltac:(vm_compute; reflexivity))).
  vm_compute. reflexivity.
Defined.

End QuoteRace.
