(* ===== verification/UserRace.v ===== *)
(** * Requests in flight on the random-user page

    The button of [random-user.js] can be clicked again before the answer
    to the previous click has come back; the answers then arrive in any
    order, some of them failures (no network, an HTTP error, a body that is
    not JSON).  [UserRace] runs the button on the event loop of
    [EventLoop]: a click is a [Start], whose synchronous part is the
    assignment to the global [url] (line 10); the answer [x] to a request is
    an [Arrive], whose callbacks are the click's chain on a network
    answering [reply_of x] (running [click] again at that point assigns
    [url] once more, to the same value).

    [user_race]: whatever the order, the card shows the fields of the
    successful answer that arrived last, and the card written before a
    failure stays: a failure only logs.  With failures arriving last the
    page keeps an older user, and with successes it shows the user of the
    last answer to arrive, which need not be the last click's. *)

From stdpp Require Import gmap.
From S2P Require Import Prelude JsValue Json Page Promise Net Lifecycle RandomUser EventLoop.
Local Open Scope string_scope.

Module UserRace.
Import RandomUser.

Record user : Type := mkUser {
  u_first : string; u_last : string; u_picture : string;
  u_username : string; u_email : string; u_city : string
}.

(** An answer: a user the API sends, or any other reply. *)
Inductive user_reply : Type :=
| UserOk (u : user)
| UserFail (r : net_reply).

Definition reply_of (x : user_reply) : net_reply :=
  match x with
  | UserOk u =>
      Reply 200 "application/json"
        (stringify (results_of (user_record (u_first u) (u_last u) (u_picture u)
                                  (u_username u) (u_email u) (u_city u))))
  | UserFail r => r
  end.

(** The synchronous part of a click: [url = ...]. *)
Definition on_click (_ : unit) (s : page) : page := url_set s.

(** The callbacks run when the answer arrives. *)
Definition answer (_ : unit) (x : user_reply) : page -> page := click (const_net (reply_of x)).

Abbreviation user_run := (loop_run on_click answer).

Definition card_of (u : user) (d : gmap string element) : gmap string element :=
  profile_card (u_first u ++ " " ++ u_last u) (u_picture u) (u_username u) (u_email u)
    (u_city u) d.

(** The last successful answer of a log. *)
Definition last_ok (h : list (nat * unit * user_reply)) : option user :=
  fold_left (fun acc e => match e.2 with UserOk u => Some u | UserFail _ => acc end) h None.

(** The card after the answers of log [h], from the DOM [d]. *)
Definition card_after (d : gmap string element) (h : list (nat * unit * user_reply))
  : gmap string element :=
  match last_ok h with None => d | Some u => card_of u d end.

(** The failures are failures of the lifecycle contract. *)
Definition failing (ev : loop_event (Req:=unit) (Rep:=user_reply)) : Prop :=
  match ev with
  | Arrive _ (UserFail r) => exists k d, issue r = FailureResult k d
  | _ => True
  end.

Lemma last_ok_snoc h e :
  last_ok (h ++ [e]) = match e.2 with UserOk u => Some u | UserFail _ => last_ok h end.
Proof. unfold last_ok. by rewrite fold_left_app. Qed.

Lemma card_after_ids d h id : is_Some (card_after d h !! id) <-> is_Some (d !! id).
Proof. unfold card_after, card_of. destruct (last_ok h); [apply profile_card_ids|done]. Qed.

Lemma card_of_after u d h : card_of u (card_after d h) = card_of u d.
Proof. unfold card_after, card_of. destruct (last_ok h); [apply profile_card_idem|done]. Qed.

Lemma user_race_step s l ev l' :
  (forall id, id ∈ card_ids -> is_Some (dom s !! id)) -> failing ev ->
  dom (lpage l) = card_after (dom s) (handled l) ->
  loop_apply on_click answer l ev = Some l' ->
  dom (lpage l') = card_after (dom s) (handled l').
Proof.
  intros Hd Hev Hl. destruct ev as [q|n x]; simpl.
  - intros [= <-]. exact Hl.
  - destruct (take_req n (inflight l)) as [[q rest]|]; [|discriminate]. intros [= <-]. simpl.
    unfold card_after at 1. rewrite last_ok_snoc. simpl. unfold answer.
    destruct x as [u|r]; simpl in Hev.
    + rewrite (click_user_record _ _ "application/json" (u_first u) (u_last u) (u_picture u)
                 (u_username u) (u_email u) (u_city u)); [|reflexivity|].
      * simpl. rewrite Hl. apply card_of_after.
      * intros id Hid. rewrite Hl, card_after_ids. by apply Hd.
    + destruct Hev as (k & d & Hr). rewrite (click_failure_run _ _ k d Hr). simpl.
      rewrite Hl. reflexivity.
Qed.

(** C18: Whatever the clicks of random-user.js and the order in which their
    answers arrive, successes and failures mixed, the card ends showing the
    fields of the successful answer that arrived last, or stays as it was when
    none succeeded: a failure arriving later does not erase it. *)
Theorem user_race s evs l' :
  (forall id, id ∈ card_ids -> is_Some (dom s !! id)) -> Forall failing evs ->
  user_run (loop_init s) evs = Some l' ->
  dom (lpage l') = card_after (dom s) (handled l').
Proof.
  intros Hd Hf. apply (loop_run_ind_on on_click answer failing
    (fun l => dom (lpage l) = card_after (dom s) (handled l))); [|done|done].
  intros l ev l1 Hev. by apply user_race_step.
Qed.

(** Two clicks; the second one's answer (Bea) arrives first, the first
    one's, a 500, last: the card shows Bea. *)
Definition bea : user := mkUser "Bea" "Kim" "b.jpg" "bea7" "bea@example.org" "Lima".

Definition user_events : list (loop_event (Req:=unit) (Rep:=user_reply)) :=
  [Start tt; Start tt; Arrive 1 (UserOk bea); Arrive 0 (UserFail (Reply 500 "text/plain" "down"))].

Lemma user_race_witness :
  (forall id, id ∈ card_ids -> is_Some (dom card_page !! id)) /\ Forall failing user_events /\
  exists l', user_run (loop_init card_page) user_events = Some l' /\
             dom (lpage l') = card_of bea (dom card_page).
Proof.
  split; [apply card_page_ids|].
  assert (Hf : Forall failing user_events).
  { repeat constructor. simpl. exists HttpError, "500". reflexivity. }
  split; [exact Hf|].
  destruct (user_run (loop_init card_page) user_events) as [l'|] eqn:Hr;
    [|vm_compute in Hr; discriminate].
  exists l'. split; [reflexivity|].
  rewrite (user_race card_page user_events l' card_page_ids Hf Hr).
  vm_compute in Hr. injection Hr as <-. reflexivity.
Defined.

End UserRace.
