(* ===== verification/Replay.v ===== *)
(** * A second click against the same network

    Section 8 of the specification asks that issuing the same request twice
    against a deterministic network give two independent outcomes of the
    same classification, with no state carried from one to the other.  For
    the handlers of the demos this is a property of the page: a handler
    only overwrites properties of elements and globals with values computed
    from the network's reply, and appends to the console and the error
    reports, so running it a second time rewrites the same values and logs
    the same lines again.

    An [effect] is what a computation does to a page: a sequence of
    overwrites ([write]: the content or the [src] of an element, a global),
    the values it logs, and the errors it reports.  [replays c] says that
    [c]'s effect and result depend on nothing but the page's element ids;
    the combinators keep it, and the hints of database [replay] with the
    tactic [replays] assemble it for a whole handler.  [apply_effect_idem]: applying an effect twice leaves the
    DOM and the globals as applying it once. *)

From stdpp Require Import gmap.
From S2P Require Import Prelude JsValue Page Promise Net Xhr.
From S2P Require Import RonSwanson RandomUser FetchExample RandomDog PriceChecker.
Local Open Scope js_scope.

(** ** Effects *)

(** Two DOMs with the same element ids. *)
Definition same_ids (d d' : gmap string element) : Prop :=
  forall id, is_Some (d !! id) <-> is_Some (d' !! id).

Inductive write : Type :=
| WContent (id : string) (c : content)
| WSrc (id : string) (o : option string)
| WGlobal (x : string) (v : jsval).

Definition write_dom (d : gmap string element) (w : write) : gmap string element :=
  match w with
  | WContent id c => alter (fun e => mkElement c (el_src e)) id d
  | WSrc id o => alter (fun e => mkElement (el_content e) o) id d
  | WGlobal _ _ => d
  end.

Definition write_global (g : gmap string jsval) (w : write) : gmap string jsval :=
  match w with WGlobal x v => <[x := v]> g | _ => g end.

Record effect : Type := mkEffect {
  e_writes : list write;
  e_logs : list jsval;
  e_reports : list report
}.

Definition no_effect : effect := mkEffect [] [] [].

Definition effect_app (f1 f2 : effect) : effect :=
  mkEffect (e_writes f1 ++ e_writes f2) (e_logs f1 ++ e_logs f2) (e_reports f1 ++ e_reports f2).

Definition apply_effect (f : effect) (s : page) : page :=
  mkPage (foldl write_dom (dom s) (e_writes f)) (foldl write_global (globals s) (e_writes f))
    (console s ++ e_logs f) (reports s ++ e_reports f).

(** The last value a sequence of writes gives to one location. *)
Fixpoint last_write {A} (g : write -> option A) (ws : list write) : option A :=
  match ws with
  | [] => None
  | w :: r => match last_write g r with Some a => Some a | None => g w end
  end.

Definition content_at (id : string) (w : write) : option content :=
  match w with WContent id' c => if decide (id = id') then Some c else None | _ => None end.
Definition src_at (id : string) (w : write) : option (option string) :=
  match w with WSrc id' o => if decide (id = id') then Some o else None | _ => None end.
Definition global_at (x : string) (w : write) : option jsval :=
  match w with WGlobal x' v => if decide (x = x') then Some v else None | _ => None end.

(** A computation whose effect and result are fixed by the element ids of
    the page it runs on. *)
Definition replays (c : JS) : Prop :=
  forall s, exists f r, forall s', same_ids (dom s) (dom s') -> c s' = (apply_effect f s', r).

Definition replays_fn (h : page -> page) : Prop :=
  forall s, exists f, forall s', same_ids (dom s) (dom s') -> h s' = apply_effect f s'.

(** ** The effect of a sequence of writes *)

Lemma last_write_cons {A} (g : write -> option A) w r a :
  default a (last_write g (w :: r)) = default (default a (g w)) (last_write g r).
Proof. simpl. by destruct (last_write g r). Qed.

Lemma foldl_write_dom ws d id :
  foldl write_dom d ws !! id =
  (fun e => mkElement (default (el_content e) (last_write (content_at id) ws))
                      (default (el_src e) (last_write (src_at id) ws))) <$> d !! id.
Proof.
  revert d. induction ws as [|w ws IH]; intros d; simpl.
  - by destruct (d !! id) as [[]|].
  - rewrite IH. destruct w as [id' c|id' o|x v]; cbn [write_dom last_write content_at src_at];
      [| |destruct (d !! id); [|done]; cbn [fmap option_fmap option_map];
           by destruct (last_write (content_at id) ws), (last_write (src_at id) ws)];
      (destruct (decide (id = id')) as [<-|Hne];
       [rewrite lookup_alter_eq|rewrite lookup_alter_ne by congruence]);
      destruct (d !! id); try done; cbn [fmap option_fmap option_map];
      repeat case_decide; try congruence;
      by destruct (last_write (content_at id) ws), (last_write (src_at id) ws).
Qed.

Lemma foldl_write_global ws g x :
  foldl write_global g ws !! x =
  match last_write (global_at x) ws with Some v => Some v | None => g !! x end.
Proof.
  revert g. induction ws as [|w ws IH]; intros g; simpl; [done|].
  rewrite IH. destruct (last_write (global_at x) ws); [done|].
  destruct w as [| |x' v]; simpl; try done.
  destruct (decide (x = x')) as [<-|Hne]; [apply lookup_insert_eq|by apply lookup_insert_ne].
Qed.

Lemma apply_effect_ids f s : same_ids (dom s) (dom (apply_effect f s)).
Proof.
  intros id. simpl. rewrite foldl_write_dom.
  destruct (dom s !! id); simpl; split; intros; eauto.
Qed.

Lemma apply_effect_app f1 f2 s :
  apply_effect f2 (apply_effect f1 s) = apply_effect (effect_app f1 f2) s.
Proof. unfold apply_effect, effect_app. simpl. by rewrite !foldl_app, <- !app_assoc. Qed.

Lemma apply_no_effect s : apply_effect no_effect s = s.
Proof. destruct s. unfold apply_effect. simpl. by rewrite !app_nil_r. Qed.

(** Applying an effect a second time rewrites what the first wrote. *)
Lemma apply_effect_idem f s :
  dom (apply_effect f (apply_effect f s)) = dom (apply_effect f s) /\
  globals (apply_effect f (apply_effect f s)) = globals (apply_effect f s).
Proof.
  split; apply map_eq; intros k; simpl.
  - rewrite !foldl_write_dom. destruct (dom s !! k); simpl; [|done].
    by destruct (last_write (content_at k) _), (last_write (src_at k) _).
  - rewrite !foldl_write_global. by destruct (last_write (global_at k) _).
Qed.

#[export] Instance same_ids_equiv : Equivalence same_ids.
Proof.
  split.
  - intros d id. done.
  - intros d1 d2 H id. by rewrite (H id).
  - intros d1 d2 d3 H1 H2 id. by rewrite (H1 id), (H2 id).
Qed.

Lemma same_ids_some d d' id : same_ids d d' -> is_Some (d !! id) -> is_Some (d' !! id).
Proof. intros H. apply H. Qed.

Lemma same_ids_none d d' id : same_ids d d' -> d !! id = None -> d' !! id = None.
Proof. intros H Hn. apply eq_None_not_Some. intros Hs. apply (H id) in Hs. by rewrite Hn in Hs. Qed.

Lemma insert_as_alter (d : gmap string element) id e (g : element -> element) :
  d !! id = Some e -> <[id := g e]> d = alter g id d.
Proof.
  intros He. apply map_eq. intros j. destruct (decide (id = j)) as [<-|Hne].
  - by rewrite lookup_insert_eq, lookup_alter_eq, He.
  - by rewrite lookup_insert_ne, lookup_alter_ne.
Qed.

(** ** Computations that replay *)

Lemma replays_const f r (c : JS) : (forall s, c s = (apply_effect f s, r)) -> replays c.
Proof. intros Hc s. exists f, r. intros s' _. apply Hc. Qed.

(** A computation that branches on whether element [id] exists. *)
Lemma replays_by_id id f1 r1 f2 r2 (c : JS) :
  (forall s, is_Some (dom s !! id) -> c s = (apply_effect f1 s, r1)) ->
  (forall s, dom s !! id = None -> c s = (apply_effect f2 s, r2)) -> replays c.
Proof.
  intros H1 H2 s. destruct (dom s !! id) eqn:He.
  - exists f1, r1. intros s' Hs. apply H1. apply (same_ids_some _ _ _ Hs). eauto.
  - exists f2, r2. intros s' Hs. apply H2. exact (same_ids_none _ _ _ Hs He).
Qed.

(** One overwrite of element [id], or of a global. *)
Definition write1 (w : write) : effect := mkEffect [w] [] [].
Definition log1 (v : jsval) : effect := mkEffect [] [v] [].
Definition report1 (r : report) : effect := mkEffect [] [] [r].

Lemma apply_write1_el s id e g w :
  dom s !! id = Some e -> write_dom (dom s) w = alter g id (dom s) ->
  write_global (globals s) w = globals s ->
  with_dom s (<[id := g e]> (dom s)) = apply_effect (write1 w) s.
Proof.
  intros He Hd Hg. unfold with_dom, apply_effect. simpl. rewrite Hd, Hg, !app_nil_r.
  by rewrite (insert_as_alter _ _ e).
Qed.

Ltac no_effect_run := intros; by rewrite apply_no_effect.

Lemma ret_replays v : replays (ret v).
Proof. apply (replays_const no_effect (Normal v)). no_effect_run. Qed.
Lemma throw_replays e : replays (throw e).
Proof. apply (replays_const no_effect (Throw e)). no_effect_run. Qed.
Lemma lift_replays c : replays (lift c).
Proof. apply (replays_const no_effect c). no_effect_run. Qed.

Lemma console_log_replays v : replays (console_log v).
Proof.
  apply (replays_const (log1 v) (Normal JUndefined)). intros s.
  unfold apply_effect. simpl. by rewrite app_nil_r.
Qed.

Lemma set_global_replays x v : replays (set_global x v).
Proof.
  apply (replays_const (write1 (WGlobal x v)) (Normal JUndefined)). intros s.
  unfold apply_effect. simpl. by rewrite !app_nil_r.
Qed.

Lemma set_content_replays what mk id v : replays (set_content what mk id v).
Proof.
  apply (replays_by_id id (write1 (WContent id (mk (dom_string v)))) (Normal JUndefined)
           no_effect (Throw (set_error what))).
  - intros s [e He]. rewrite (set_content_found _ _ _ _ _ e He). f_equal.
    by apply (apply_write1_el s id e (fun e => mkElement (mk (dom_string v)) (el_src e))).
  - intros s He. rewrite set_content_missing by done. by rewrite apply_no_effect.
Qed.

Lemma set_innerHTML_replays id v : replays (set_innerHTML id v).
Proof. apply set_content_replays. Qed.
Lemma set_innerText_replays id v : replays (set_innerText id v).
Proof. apply set_content_replays. Qed.
Lemma set_textContent_replays id v : replays (set_textContent id v).
Proof. apply set_content_replays. Qed.

Lemma set_src_named_replays id v : replays (set_src_named id v).
Proof.
  apply (replays_by_id id (write1 (WSrc id (Some (to_string v)))) (Normal JUndefined)
           no_effect (Throw (JError "ReferenceError" (id ++ " is not defined") []))).
  - intros s [e He]. unfold set_src_named. rewrite He. f_equal.
    by apply (apply_write1_el s id e (fun e => mkElement (el_content e) (Some (to_string v)))).
  - intros s He. unfold set_src_named. rewrite He. by rewrite apply_no_effect.
Qed.

Lemma resolve_named_replays id : replays (resolve_named id).
Proof.
  apply (replays_by_id id no_effect (Normal JUndefined) no_effect
           (Throw (JError "ReferenceError" (id ++ " is not defined") []))).
  - intros s Hs. by rewrite resolve_named_found, apply_no_effect.
  - intros s Hs. by rewrite resolve_named_missing, apply_no_effect.
Qed.

Lemma undefined_or v : v = JUndefined \/ v <> JUndefined.
Proof. destruct v; (left; reflexivity) || (right; discriminate). Qed.

Lemma jq_text_replays id v : replays (jq_text id v).
Proof.
  destruct (undefined_or v) as [->|Hv].
  - apply (replays_const no_effect (Normal JUndefined)). no_effect_run.
  - apply (replays_by_id id (write1 (WContent id (CText (dom_string v)))) (Normal JUndefined)
             no_effect (Normal JUndefined)).
    + intros s [e He]. unfold jq_text. rewrite He.
      transitivity (with_dom s (<[id := mkElement (CText (dom_string v)) (el_src e)]> (dom s)),
                    Normal (E:=jsval) JUndefined); [by destruct v|].
      f_equal. by apply (apply_write1_el s id e (fun e => mkElement (CText (dom_string v)) (el_src e))).
    + intros s He. unfold jq_text. rewrite He, apply_no_effect. by destruct v.
Qed.

Lemma jq_attr_src_replays id v : replays (jq_attr_src id v).
Proof.
  destruct (undefined_or v) as [->|Hv].
  - apply (replays_const no_effect (Normal JUndefined)). no_effect_run.
  - set (o := match v with JNull => None | _ => Some (to_string v) end).
    apply (replays_by_id id (write1 (WSrc id o)) (Normal JUndefined) no_effect (Normal JUndefined)).
    + intros s [e He]. unfold jq_attr_src. rewrite He.
      transitivity (with_dom s (<[id := mkElement (el_content e) o]> (dom s)),
                    Normal (E:=jsval) JUndefined); [by destruct v|].
      f_equal. by apply (apply_write1_el s id e (fun e => mkElement (el_content e) o)).
    + intros s He. unfold jq_attr_src. rewrite He, apply_no_effect. by destruct v.
Qed.

Lemma same_ids_after f s s' :
  same_ids (dom s) (dom s') -> same_ids (dom (apply_effect f s)) (dom (apply_effect f s')).
Proof.
  intros Hs. etransitivity; [symmetry; apply apply_effect_ids|].
  etransitivity; [exact Hs|apply apply_effect_ids].
Qed.

Lemma bind_replays c k : replays c -> (forall a, replays (k a)) -> replays (bind c k).
Proof.
  intros Hc Hk s. destruct (Hc s) as (f1 & [a|e] & H1).
  - destruct (Hk a (apply_effect f1 s)) as (f2 & r2 & H2). exists (effect_app f1 f2), r2.
    intros s' Hs. unfold bind. rewrite (H1 s' Hs), H2, apply_effect_app; [done|].
    by apply same_ids_after.
  - exists f1, (Throw e). intros s' Hs. unfold bind. by rewrite (H1 s' Hs).
Qed.

Lemma catch_replays c h : replays c -> (forall e, replays (h e)) -> replays (catch c h).
Proof.
  intros Hc Hh s. destruct (Hc s) as (f1 & [a|e] & H1).
  - exists f1, (Normal a). intros s' Hs. unfold catch. by rewrite (H1 s' Hs).
  - destruct (Hh e (apply_effect f1 s)) as (f2 & r2 & H2). exists (effect_app f1 f2), r2.
    intros s' Hs. unfold catch. rewrite (H1 s' Hs), H2, apply_effect_app; [done|].
    by apply same_ids_after.
Qed.

Lemma if_replays (b : bool) c1 c2 : replays c1 -> replays c2 -> replays (if b then c1 else c2).
Proof. by destruct b. Qed.

Lemma fetch_replays net url : replays (fetch net url).
Proof.
  unfold fetch. destruct (net url); [apply throw_replays|apply ret_replays].
Qed.

Lemma response_json_replays r : replays (response_json r).
Proof. unfold response_json. destruct r; apply throw_replays || apply lift_replays. Qed.

Lemma axios_get_replays net url : replays (axios_get net url).
Proof.
  unfold axios_get. destruct (net url); [apply throw_replays|].
  apply if_replays; [apply ret_replays|apply throw_replays].
Qed.

Lemma add_report_effect r s : add_report r s = apply_effect (report1 r) s.
Proof. unfold add_report, apply_effect. simpl. by rewrite app_nil_r. Qed.

(** Settling a computation at the event loop: an exception becomes a report. *)
Lemma settle_replays (mk : jsval -> report) p :
  replays p ->
  replays_fn (fun s => match p s with (s', Normal _) => s' | (s', Throw e) => add_report (mk e) s' end).
Proof.
  intros Hp s. destruct (Hp s) as (f & [a|e] & H).
  - exists f. intros s' Hs. by rewrite (H s' Hs).
  - exists (effect_app f (report1 (mk e))). intros s' Hs.
    by rewrite (H s' Hs), add_report_effect, apply_effect_app.
Qed.

Lemma run_chain_replays p : replays p -> replays_fn (run_chain p).
Proof. apply (settle_replays Unhandled). Qed.

Lemma dispatch_replays h : replays h -> replays_fn (dispatch h).
Proof. apply (settle_replays Uncaught). Qed.

Lemma jq_get_replays net url ok ko :
  (forall d, replays (ok d)) -> (forall x, replays (ko x)) -> replays_fn (jq_get net url ok ko).
Proof. intros Hok Hko. apply dispatch_replays. by destruct (jq_result (net url)). Qed.

Lemma xhr_run_replays h x evs :
  (forall x, replays (h x)) -> replays_fn (fun s => snd (xhr_run h x evs s)).
Proof.
  intros Hh. revert x. induction evs as [|e evs IH]; intros x s; simpl.
  - exists no_effect. intros s' _. by rewrite apply_no_effect.
  - destruct (xhr_apply x e) as [x'|]; [|exists no_effect; intros s' _; by rewrite apply_no_effect].
    destruct (dispatch_replays (h x') (Hh x') s) as [f1 H1].
    destruct (IH x' (dispatch (h x') s)) as [f2 H2]. exists (effect_app f1 f2). intros s' Hs.
    rewrite (H1 s' Hs), H2, apply_effect_app; [done|].
    rewrite (H1 s) by reflexivity. by apply same_ids_after.
Qed.

Lemma xhr_request_replays h net url cs :
  (forall x, replays (h x)) -> replays_fn (xhr_request h net url cs).
Proof. intros Hh. apply xhr_run_replays, Hh. Qed.

Lemma replays_fst c : replays c -> replays_fn (fun s => fst (c s)).
Proof. intros Hc s. destruct (Hc s) as (f & r & H). exists f. intros s' Hs. by rewrite (H s' Hs). Qed.

Lemma replays_fn_compose h1 h2 : replays_fn h1 -> replays_fn h2 -> replays_fn (fun s => h2 (h1 s)).
Proof.
  intros H1 H2 s. destruct (H1 s) as [f1 Hf1]. destruct (H2 (h1 s)) as [f2 Hf2].
  exists (effect_app f1 f2). intros s' Hs. rewrite (Hf1 s' Hs), Hf2, apply_effect_app; [done|].
  rewrite (Hf1 s) by reflexivity. by apply same_ids_after.
Qed.

Create HintDb replay.

#[export] Hint Resolve ret_replays throw_replays lift_replays console_log_replays
  set_global_replays set_content_replays set_innerHTML_replays set_innerText_replays
  set_textContent_replays set_src_named_replays resolve_named_replays jq_text_replays
  jq_attr_src_replays if_replays fetch_replays axios_get_replays response_json_replays : replay.

(** Prove [replays] of a computation built from the page operations. *)
Ltac replays :=
  repeat (intros; first [ apply bind_replays | apply catch_replays | apply if_replays
                        | progress (unfold then_, catch_) ]);
  auto with replay.

(** What a second run of a handler does: it leaves the DOM and the globals
    as the first left them, and logs and reports what the first logged and
    reported. *)
Definition clicked_twice (h : page -> page) (s : page) : Prop :=
  dom (h (h s)) = dom (h s) /\ globals (h (h s)) = globals (h s) /\
  exists logs reps,
    console (h s) = (console s ++ logs)%list /\ reports (h s) = (reports s ++ reps)%list /\
    console (h (h s)) = (console (h s) ++ logs)%list /\
    reports (h (h s)) = (reports (h s) ++ reps)%list.

(** A handler that reads nothing of the page but its element ids: on two
    pages with the same ids it has the same effect. *)
Definition reads_no_state (h : page -> page) : Prop :=
  forall s s', same_ids (dom s) (dom s') ->
  exists f, h s = apply_effect f s /\ h s' = apply_effect f s'.

Lemma replays_reads h : replays_fn h -> reads_no_state h.
Proof.
  intros Hh s s' Hs. destruct (Hh s) as [f Hf]. exists f. split; [by apply Hf|by apply Hf].
Qed.

Lemma replays_twice h s : replays_fn h -> clicked_twice h s.
Proof.
  intros Hh. unfold clicked_twice. destruct (Hh s) as [f Hf]. rewrite (Hf s) by reflexivity.
  rewrite (Hf (apply_effect f s)) by apply apply_effect_ids.
  destruct (apply_effect_idem f s) as [Hd Hg].
  split; [done|]. split; [done|]. exists (e_logs f), (e_reports f). by repeat split.
Qed.

(** ** The handlers of the five pages *)

Lemma hoisted_replays n e : replays (RonSwanson.hoisted n e).
Proof.
  unfold RonSwanson.hoisted, RonSwanson.scope_functions. cbn [assoc_last].
  repeat case_match; simplify_eq;
    unfold RonSwanson.addQuote, RonSwanson.handleErrors_classify, RonSwanson.handleErrors,
      RonSwanson.parseJSON, RonSwanson.updateQuote, RonSwanson.displayErrors; replays.
Qed.

#[local] Hint Resolve hoisted_replays : replay.

Lemma ron_xhr_replays net cs : replays_fn (RonSwanson.xhr_click net cs).
Proof.
  unfold RonSwanson.xhr_click. apply xhr_request_replays.
  unfold RonSwanson.xhr_onreadystatechange. replays.
Qed.

Lemma ron_jquery_replays net : replays_fn (RonSwanson.jquery_click net).
Proof.
  unfold RonSwanson.jquery_click. apply jq_get_replays;
    unfold RonSwanson.jquery_done, RonSwanson.jquery_fail; replays.
Qed.

Lemma ron_axios_replays net : replays_fn (RonSwanson.sendRequest net).
Proof. unfold RonSwanson.sendRequest. apply run_chain_replays. replays. Qed.

Lemma ron_fetch_replays net : replays_fn (RonSwanson.fetch_click net).
Proof. unfold RonSwanson.fetch_click. apply run_chain_replays. replays. Qed.

Lemma user_replays net : replays_fn (RandomUser.click net).
Proof.
  apply (replays_fn_compose (fun s => fst (set_global "url" (JStr RandomUser.user_url) s))).
  - apply replays_fst, set_global_replays.
  - apply run_chain_replays.
    unfold RandomUser.handleErrors, RandomUser.parseJSON, RandomUser.updateProfile,
      RandomUser.displayErrors. replays.
Qed.

Lemma dog_replays net : replays_fn (RandomDog.click net).
Proof.
  unfold RandomDog.click. apply jq_get_replays; unfold RandomDog.done_cb, RandomDog.fail_cb; replays.
Qed.

Lemma price_replays net cs : replays_fn (PriceChecker.click net cs).
Proof.
  unfold PriceChecker.click. apply xhr_request_replays.
  unfold PriceChecker.onreadystatechange. replays.
Qed.

(** The click handlers have an effect. *)
Ltac handler_replays :=
  first [ apply ron_xhr_replays | apply ron_jquery_replays | apply ron_axios_replays
        | apply ron_fetch_replays | apply user_replays | apply dog_replays | apply price_replays ].

(** C19: Clicking a button of the four pages a second time against the same
    network leaves the DOM and the globals as the first click left them, and
    logs and reports again exactly what the first click logged and reported:
    no handler carries state from one request to the next. *)
Theorem handlers_replay net cs s :
  clicked_twice (RonSwanson.xhr_click net cs) s /\ clicked_twice (RonSwanson.jquery_click net) s /\
  clicked_twice (RonSwanson.sendRequest net) s /\ clicked_twice (RonSwanson.fetch_click net) s /\
  clicked_twice (RandomUser.click net) s /\ clicked_twice (RandomDog.click net) s /\
  clicked_twice (PriceChecker.click net cs) s.
Proof.
  repeat split; apply replays_twice;
    handler_replays.
Qed.

(** C38: Each click handler of the four pages reads nothing of the page but
    which elements exist: on two pages with the same element ids, whatever
    their contents, console, reports and globals, it makes the same writes,
    logs the same lines and reports the same errors. *)
Theorem handlers_read_no_state net cs :
  reads_no_state (RonSwanson.xhr_click net cs) /\ reads_no_state (RonSwanson.jquery_click net) /\
  reads_no_state (RonSwanson.sendRequest net) /\ reads_no_state (RonSwanson.fetch_click net) /\
  reads_no_state (RandomUser.click net) /\ reads_no_state (RandomDog.click net) /\
  reads_no_state (PriceChecker.click net cs).
Proof.
  repeat split; apply replays_reads;
    handler_replays.
Qed.
