(* ===== verification/ScriptLoad.v ===== *)
(** * Loading the scripts: element lookups and listener registration

    Before any click, each script runs its top level once: it looks its
    elements up with [document.querySelector("#id")] (an element, or [null])
    and registers its click listeners.  [el.addEventListener(...)] on
    [null] throws a [TypeError]; the exception is uncaught, the rest of the
    script does not run, and the listeners registered before it stay.
    jQuery's [$("#id").click(f)] on an empty selection binds nothing and
    does not throw.

    A registration sequence is a computation of the state-and-exception
    monad over the list of the element ids whose click is wired
    ([Reg]); [run_script] runs it at page load and reports an uncaught
    exception.  The handlers of the other files look their element up when
    they write; [handlers_keep_lookups] shows this agrees with the lookup
    made at load: every click handler has an effect ([Replay]), which
    keeps the element ids of the page. *)

From stdpp Require Import gmap.
From S2P Require Import Prelude JsValue Page Promise Replay.
From S2P Require Import RonSwanson RandomUser RandomDog PriceChecker.
Local Open Scope string_scope.
Local Open Scope js_scope.

(** [document.querySelector("#id")]: the element (by its id), or [null]. *)
Definition query_selector (s : page) (id : string) : option string :=
  match dom s !! id with Some _ => Some id | None => None end.

Abbreviation Reg := (M (list string) jsval unit).

(** [target.addEventListener("click", f)]. *)
Definition add_listener (target : option string) : Reg :=
  fun ls => match target with
            | Some id => ((ls ++ [id])%list, Normal tt)
            | None => (ls, Throw (read_error "null" "addEventListener"))
            end.

(** [$("#id").click(f)]. *)
Definition jq_click (s : page) (id : string) : Reg :=
  fun ls => match dom s !! id with
            | Some _ => ((ls ++ [id])%list, Normal tt)
            | None => (ls, Normal tt)
            end.

(** The script's top level at page load: the listeners it wired, and the
    page with the uncaught exception reported if it threw. *)
Definition run_script (body : Reg) (s : page) : list string * page :=
  match body [] with
  | (ls, Normal _) => (ls, s)
  | (ls, Throw e) => (ls, add_report (Uncaught e) s)
  end.

Module RonSwansonLoad.

(** Lines 1-5. *)
Record elements : Type := mkElements {
  xhr : option string;
  fetchBtn : option string;
  jquery : option string;
  axiosBtn : option string;
  quoteText : option string
}.

Definition lookup_elements (s : page) : elements :=
  mkElements (query_selector s "xhr") (query_selector s "fetch") (query_selector s "jquery")
    (query_selector s "axios") (query_selector s "quote").

(** The registrations of lines 8, 22, 33 and 58, in source order. *)
Definition register (s : page) (els : elements) : Reg :=
  add_listener (xhr els) ;;;
  jq_click s "jquery" ;;;
  add_listener (axiosBtn els) ;;;
  add_listener (fetchBtn els).

Definition load (s : page) : list string * page := run_script (register s (lookup_elements s)) s.

End RonSwansonLoad.

Module RandomUserLoad.

(** Lines 1-7. *)
Record elements : Type := mkElements {
  fullNameDisplay : option string;
  avatarImage : option string;
  username : option string;
  email : option string;
  city : option string;
  btn : option string
}.

Definition lookup_elements (s : page) : elements :=
  mkElements (query_selector s "fullname") (query_selector s "avatar")
    (query_selector s "username") (query_selector s "email") (query_selector s "city")
    (query_selector s "btn").

(** The registration of line 9. *)
Definition register (els : elements) : Reg := add_listener (btn els).

Definition load (s : page) : list string * page := run_script (register (lookup_elements s)) s.

End RandomUserLoad.

(** [document.querySelector("button")]: the first [<button>] of the page in
    document order.  Elements are keyed by id here and the HTML is not in
    [src/], so the page's button elements are given as the list of their ids
    in document order. *)
Definition query_first_button (buttons : list string) : option string :=
  match buttons with b :: _ => Some b | [] => None end.

Module PriceCheckerLoad.

(** Lines 1-2. *)
Record elements : Type := mkElements {
  price : option string;
  btn : option string
}.

Definition lookup_elements (s : page) (buttons : list string) : elements :=
  mkElements (query_selector s "price") (query_first_button buttons).

(** The registration of line 4. *)
Definition register (els : elements) : Reg := add_listener (btn els).

Definition load (s : page) (buttons : list string) : list string * page :=
  run_script (register (lookup_elements s buttons)) s.

End PriceCheckerLoad.

Module RandomDogLoad.

(** The registration of line 1: [$("#btn").click(...)]. *)
Definition register (s : page) : Reg := jq_click s "btn".

Definition load (s : page) : list string * page := run_script (register s) s.

End RandomDogLoad.

(** ** Lemmas *)

Lemma query_selector_stable s s' id :
  same_ids (dom s) (dom s') -> query_selector s id = query_selector s' id.
Proof.
  intros Hd. unfold query_selector. specialize (Hd id).
  destruct (dom s !! id), (dom s' !! id); try done.
  - by destruct (proj1 Hd).
  - by destruct (proj2 Hd).
Qed.

Lemma replays_lookup h s id : replays_fn h -> query_selector (h s) id = query_selector s id.
Proof.
  intros Hh. destruct (Hh s) as [f Hf]. rewrite (Hf s) by reflexivity.
  symmetry. apply query_selector_stable, apply_effect_ids.
Qed.

(** The elements a script looked up at load are still those a handler finds
    after any click: no handler adds or removes an element. *)
Lemma handlers_keep_lookups net cs s id :
  query_selector (RonSwanson.xhr_click net cs s) id = query_selector s id /\
  query_selector (RonSwanson.jquery_click net s) id = query_selector s id /\
  query_selector (RonSwanson.sendRequest net s) id = query_selector s id /\
  query_selector (RonSwanson.fetch_click net s) id = query_selector s id /\
  query_selector (RandomUser.click net s) id = query_selector s id /\
  query_selector (RandomDog.click net s) id = query_selector s id /\
  query_selector (PriceChecker.click net cs s) id = query_selector s id.
Proof. repeat split; apply replays_lookup; handler_replays. Qed.

Lemma add_listener_some id ls : add_listener (Some id) ls = ((ls ++ [id])%list, Normal tt).
Proof. reflexivity. Qed.

Lemma add_listener_none ls :
  add_listener None ls = (ls, Throw (read_error "null" "addEventListener")).
Proof. reflexivity. Qed.

Lemma query_selector_some s id e : dom s !! id = Some e -> query_selector s id = Some id.
Proof. unfold query_selector. by intros ->. Qed.

Lemma query_selector_none s id : dom s !! id = None -> query_selector s id = None.
Proof. unfold query_selector. by intros ->. Qed.

(** The listeners jQuery wires on [#id]: one if the element exists. *)
Definition jq_wired (s : page) (id : string) : list string :=
  match dom s !! id with Some _ => [id] | None => [] end.

Lemma jq_click_run s id ls : jq_click s id ls = ((ls ++ jq_wired s id)%list, Normal tt).
Proof. unfold jq_click, jq_wired. destruct (dom s !! id); by rewrite ?app_nil_r. Qed.

Ltac load_run :=
  unfold RonSwansonLoad.load, RandomUserLoad.load, PriceCheckerLoad.load, RandomDogLoad.load,
    run_script, RonSwansonLoad.register, RandomUserLoad.register, PriceCheckerLoad.register,
    RandomDogLoad.register, RonSwansonLoad.lookup_elements, RandomUserLoad.lookup_elements,
    PriceCheckerLoad.lookup_elements;
  repeat match goal with H : dom _ !! _ = _ |- _ =>
    first [rewrite (query_selector_some _ _ _ H) | rewrite (query_selector_none _ _ H)]; clear H
  end;
  js_unfold; cbn -[jq_click]; rewrite ?jq_click_run; cbn.

(** C14: When the page has the elements #xhr, #axios and #fetch, loading ron-
    swanson.js wires the XHR, axios and fetch buttons, and the jQuery button
    when #jquery exists, in source order, and reports nothing. *)
Theorem ron_load_complete s ex ea ef :
  dom s !! "xhr" = Some ex -> dom s !! "axios" = Some ea -> dom s !! "fetch" = Some ef ->
  RonSwansonLoad.load s = ((["xhr"] ++ jq_wired s "jquery" ++ ["axios"; "fetch"])%list, s).
Proof. intros Hx Ha Hf. load_run. by rewrite <- app_assoc. Qed.

(** C15: Without an element #axios, loading ron-swanson.js throws a TypeError
    at line 33 (axiosBtn is null): the exception is reported uncaught and the
    fetch button's listener of line 58 is never registered, whether or not
    #fetch exists; the XHR and jQuery buttons wired before stay. *)
Theorem ron_load_missing_axios s ex :
  dom s !! "xhr" = Some ex -> dom s !! "axios" = None ->
  RonSwansonLoad.load s =
  ((["xhr"] ++ jq_wired s "jquery")%list,
   add_report (Uncaught (read_error "null" "addEventListener")) s).
Proof. intros Hx Ha. load_run. reflexivity. Qed.

Lemma user_load_present s e :
  dom s !! "btn" = Some e -> RandomUserLoad.load s = (["btn"], s).
Proof. intros He. load_run. reflexivity. Qed.

Lemma user_load_missing s :
  dom s !! "btn" = None ->
  RandomUserLoad.load s = ([], add_report (Uncaught (read_error "null" "addEventListener")) s).
Proof. intros He. load_run. reflexivity. Qed.

(** C16: On a page with no button element, loading price-checker.js throws a
    TypeError at line 4 (document.querySelector("button") is null), reported
    uncaught, and nothing is wired; random-dog.js on a page without #btn wires
    nothing either, but jQuery's empty selection throws nothing. *)
Theorem load_without_button s :
  dom s !! "btn" = None ->
  PriceCheckerLoad.load s [] =
    ([], add_report (Uncaught (read_error "null" "addEventListener")) s) /\
  RandomDogLoad.load s = ([], s).
Proof. intros Hb. split; load_run; [reflexivity|]. unfold jq_wired. by rewrite Hb. Qed.

Lemma price_load_first_button s b bs :
  PriceCheckerLoad.load s (b :: bs) = ([b], s).
Proof. load_run. reflexivity. Qed.

(** ** Witnesses *)

Definition plain : element := mkElement (CText "") None.

(** The page of ron-swanson.html with all its elements. *)
Definition ron_page : page :=
  mkPage (list_to_map [("xhr", plain); ("fetch", plain); ("jquery", plain); ("axios", plain);
                       ("quote", plain)]) ∅ [] [].

(** The same page without its axios button. *)
Definition ron_page_no_axios : page :=
  mkPage (list_to_map [("xhr", plain); ("fetch", plain); ("jquery", plain); ("quote", plain)])
    ∅ [] [].

Lemma ron_load_complete_witness :
  dom ron_page !! "xhr" = Some plain /\
  RonSwansonLoad.load ron_page = (["xhr"; "jquery"; "axios"; "fetch"], ron_page).
Proof.
  split; [reflexivity|].
  rewrite (ron_load_complete ron_page plain plain plain); reflexivity.
Defined.

Lemma ron_load_missing_axios_witness :
  dom ron_page_no_axios !! "axios" = None /\
  RonSwansonLoad.load ron_page_no_axios =
  (["xhr"; "jquery"],
   add_report (Uncaught (JError "TypeError"
     "Cannot read properties of null (reading 'addEventListener')" [])) ron_page_no_axios).
Proof.
  split; [reflexivity|].
  rewrite (ron_load_missing_axios ron_page_no_axios plain); reflexivity.
Defined.

Lemma load_without_button_witness :
  dom ron_page !! "btn" = None /\
  PriceCheckerLoad.load ron_page [] =
    ([], add_report (Uncaught (JError "TypeError"
      "Cannot read properties of null (reading 'addEventListener')" [])) ron_page) /\
  RandomDogLoad.load ron_page = ([], ron_page).
Proof.
  split; [reflexivity|]. exact (load_without_button ron_page eq_refl).
Defined.
